(** * Kronos trader: the state store, the risk aggregator and the order sizing

    A shallow embedding of [src/trader/state_manager.py] (class
    [StateManager]) and of [KronosMainStrategy._execute_trading_decisions]
    in [src/trader/main_strategy.py], with the properties the
    specification states about them.

    - Values that travel through the store are JSON values.  Python floats
      are binary64 and are Rocq's primitive floats, so the arithmetic below
      rounds as the program's does; Python ints are [Z].
    - A Python [dict] keeps insertion order: it is an association list in
      which [dict_set] overwrites in place and appends new keys at the end.
    - A method of the store is a function from the store to a result (a
      value or an exception), the store it leaves and the trace of its
      effects: lock operations, HTTP requests, log lines, file writes.
    - What the program reads from outside is an argument: the clock, the
      outcome of the HTTP request, the content of the state file, the
      USDT balance. *)

From Stdlib Require Import ZArith List String Bool Lia Floats.
Import ListNotations.

Set Warnings "-inexact-float,-register-all".

Local Open Scope string_scope.
Local Open Scope list_scope.

(** ** JSON values and Python dictionaries *)

Inductive value : Type :=
| VNone
| VBool (b : bool)
| VInt (z : Z)
| VFloat (f : float)
| VStr (s : string)
| VList (l : list value)
| VDict (d : list (string * value)).

Definition dict : Type := list (string * value).

(** [d.get(k)] *)
Fixpoint dict_get (k : string) (d : dict) : option value :=
  match d with
  | [] => None
  | (k', v) :: r => if String.eqb k' k then Some v else dict_get k r
  end.

(** [d.get(k, default)] *)
Definition dict_get_default (k : string) (default : value) (d : dict) : value :=
  match dict_get k d with
  | Some v => v
  | None => default
  end.

(** [k in d] *)
Definition dict_mem (k : string) (d : dict) : bool :=
  match dict_get k d with
  | Some _ => true
  | None => false
  end.

(** [d[k] = v]: an existing key keeps its place, a new key goes last. *)
Fixpoint dict_set (k : string) (v : value) (d : dict) : dict :=
  match d with
  | [] => [(k, v)]
  | (k', v') :: r =>
      if String.eqb k' k then (k, v) :: r else (k', v') :: dict_set k v r
  end.

(** [d.update(delta)], also the meaning of [{**d, **delta}]. *)
Definition dict_update (d delta : dict) : dict :=
  fold_left (fun acc kv => dict_set (fst kv) (snd kv) acc) delta d.

Definition keys (d : dict) : list string := map fst d.

(** Python truthiness of a JSON value ([if x:], [not x]). *)
Definition truthy (v : value) : bool :=
  match v with
  | VNone => false
  | VBool b => b
  | VInt z => negb (Z.eqb z 0)
  | VFloat f => negb (PrimFloat.eqb f 0)
  | VStr s => negb (String.eqb s "")
  | VList l => match l with [] => false | _ => true end
  | VDict d => match d with [] => false | _ => true end
  end.

(** ** Exceptions *)

Inductive exn : Type :=
| AttributeError
| TypeError
| KeyError
| OverflowError
| ZeroDivisionError
| JSONDecodeError.

Inductive result (A : Type) : Type :=
| Ok (a : A)
| Raise (e : exn).
Arguments Ok {A} a.
Arguments Raise {A} e.

(** ** Numbers

    The arithmetic the store performs on payload values.  [bool] is a
    subclass of [int]; an [int] meeting a [float] is converted to the
    nearest binary64 (ties to even), and [OverflowError] is raised when it
    is too large; comparisons between an [int] and a [float] are exact. *)

Definition Z_of_bool (b : bool) : Z := if b then 1%Z else 0%Z.

Definition float_of_Z (z : Z) : result float :=
  let f := SF2Prim (binary_normalize prec emax z 0 false) in
  if PrimFloat.is_infinity f then Raise OverflowError else Ok f.

(** The operand [v] of [f + v], [f - v] for a float [f]. *)
Definition as_float (v : value) : result float :=
  match v with
  | VBool b => float_of_Z (Z_of_bool b)
  | VInt z => float_of_Z z
  | VFloat f => Ok f
  | _ => Raise TypeError
  end.

(** [f + v] for a float [f]. *)
Definition float_add (f : float) (v : value) : result float :=
  match as_float v with
  | Ok g => Ok (f + g)%float
  | Raise e => Raise e
  end.

(** [f - v] for a float [f]. *)
Definition float_sub (f : float) (v : value) : result float :=
  match as_float v with
  | Ok g => Ok (f - g)%float
  | Raise e => Raise e
  end.

(** [z < f], exactly. *)
Definition Z_lt_float (z : Z) (f : float) : bool :=
  match Prim2SF f with
  | S754_nan => false
  | S754_infinity s => negb s
  | S754_zero _ => (z <? 0)%Z
  | S754_finite s m e =>
      let n := if s then Z.neg m else Z.pos m in
      if (0 <=? e)%Z then (z <? n * 2 ^ e)%Z else (z * 2 ^ (- e) <? n)%Z
  end.

(** [f < z], exactly. *)
Definition float_lt_Z (f : float) (z : Z) : bool :=
  match Prim2SF f with
  | S754_nan => false
  | S754_infinity s => s
  | S754_zero _ => (0 <? z)%Z
  | S754_finite s m e =>
      let n := if s then Z.neg m else Z.pos m in
      if (0 <=? e)%Z then (n * 2 ^ e <? z)%Z else (n <? z * 2 ^ (- e))%Z
  end.

(** [a < b] on numbers; any other pair the store can compare has a number
    on the left and raises [TypeError]. *)
Definition py_lt (a b : value) : result bool :=
  match a, b with
  | VFloat x, VFloat y => Ok (x <? y)%float
  | VFloat x, VInt z => Ok (float_lt_Z x z)
  | VFloat x, VBool c => Ok (float_lt_Z x (Z_of_bool c))
  | VInt z, VFloat y => Ok (Z_lt_float z y)
  | VBool c, VFloat y => Ok (Z_lt_float (Z_of_bool c) y)
  | VInt x, VInt y => Ok (x <? y)%Z
  | VInt x, VBool c => Ok (x <? Z_of_bool c)%Z
  | VBool c, VInt y => Ok (Z_of_bool c <? y)%Z
  | VBool c, VBool c' => Ok (Z_of_bool c <? Z_of_bool c')%Z
  | _, _ => Raise TypeError
  end.

(** [max(a, b)]: the first argument unless the second is greater. *)
Definition py_max (a b : value) : result value :=
  match py_lt a b with
  | Ok true => Ok b
  | Ok false => Ok a
  | Raise e => Raise e
  end.

(** [a + b] on JSON values: numbers add, strings and lists concatenate. *)
Definition py_add (a b : value) : result value :=
  match a, b with
  | VFloat x, _ =>
      match float_add x b with Ok r => Ok (VFloat r) | Raise e => Raise e end
  | VInt x, VInt y => Ok (VInt (x + y))
  | VInt x, VBool c => Ok (VInt (x + Z_of_bool c))
  | VBool c, VInt y => Ok (VInt (Z_of_bool c + y))
  | VBool c, VBool c' => Ok (VInt (Z_of_bool c + Z_of_bool c'))
  | VInt x, VFloat y =>
      match float_of_Z x with Ok r => Ok (VFloat (r + y)) | Raise e => Raise e end
  | VBool c, VFloat y =>
      match float_of_Z (Z_of_bool c) with
      | Ok r => Ok (VFloat (r + y))
      | Raise e => Raise e
      end
  | VStr s, VStr t => Ok (VStr (s ++ t))
  | VList l, VList l' => Ok (VList (l ++ l'))
  | _, _ => Raise TypeError
  end.

(** ** The store

    [StateManager.__init__]: the two logs are [deque(maxlen=max_history)],
    kept here as lists, oldest entry first.  Every field that [load_state]
    can overwrite with an arbitrary part of a document is a [value]. *)

Record StateManager : Type := mkStateManager {
  max_history : nat;
  webui_url : string;
  system_status : value;
  positions : value;
  predictions : value;
  trading_history : list value;
  strategy_logs : list value;
  performance_stats : value;
  risk_metrics : value
}.

Definition init_system_status : dict :=
  [ ("is_running", VBool false);
    ("last_update", VNone);
    ("last_strategy_run", VNone);
    ("next_strategy_run", VNone);
    ("simulation_mode", VBool true);
    ("error_count", VInt 0);
    ("total_runs", VInt 0) ].

Definition init_performance_stats : dict :=
  [ ("total_trades", VInt 0);
    ("successful_trades", VInt 0);
    ("failed_trades", VInt 0);
    ("total_profit_loss", VFloat 0);
    ("total_volume", VFloat 0);
    ("start_balance", VFloat 0);
    ("current_balance", VFloat 0) ].

Definition init_risk_metrics : dict :=
  [ ("total_exposure", VFloat 0);
    ("max_single_position", VFloat 0);
    ("position_count", VInt 0);
    ("usdt_reserve", VFloat 0);
    ("total_value", VFloat 0) ].

Definition default_webui_url : string := "http://kronos-trader-webui:8000".

(** [StateManager(max_history, webui_url)] *)
Definition init (max_history : nat) (webui_url : option string) : StateManager :=
  {| max_history := max_history;
     webui_url := match webui_url with
                  | Some u => if String.eqb u "" then default_webui_url else u
                  | None => default_webui_url
                  end;
     system_status := VDict init_system_status;
     positions := VDict [];
     predictions := VDict [];
     trading_history := [];
     strategy_logs := [];
     performance_stats := VDict init_performance_stats;
     risk_metrics := VDict init_risk_metrics |}.

(** [StateManager()] *)
Definition new_store : StateManager := init 1000 None.

Definition set_system_status (v : value) (s : StateManager) : StateManager :=
  mkStateManager (max_history s) (webui_url s) v (positions s) (predictions s)
    (trading_history s) (strategy_logs s) (performance_stats s) (risk_metrics s).

Definition set_positions (v : value) (s : StateManager) : StateManager :=
  mkStateManager (max_history s) (webui_url s) (system_status s) v (predictions s)
    (trading_history s) (strategy_logs s) (performance_stats s) (risk_metrics s).

Definition set_predictions (v : value) (s : StateManager) : StateManager :=
  mkStateManager (max_history s) (webui_url s) (system_status s) (positions s) v
    (trading_history s) (strategy_logs s) (performance_stats s) (risk_metrics s).

Definition set_trading_history (q : list value) (s : StateManager) : StateManager :=
  mkStateManager (max_history s) (webui_url s) (system_status s) (positions s)
    (predictions s) q (strategy_logs s) (performance_stats s) (risk_metrics s).

Definition set_strategy_logs (q : list value) (s : StateManager) : StateManager :=
  mkStateManager (max_history s) (webui_url s) (system_status s) (positions s)
    (predictions s) (trading_history s) q (performance_stats s) (risk_metrics s).

Definition set_performance_stats (v : value) (s : StateManager) : StateManager :=
  mkStateManager (max_history s) (webui_url s) (system_status s) (positions s)
    (predictions s) (trading_history s) (strategy_logs s) v (risk_metrics s).

Definition set_risk_metrics (v : value) (s : StateManager) : StateManager :=
  mkStateManager (max_history s) (webui_url s) (system_status s) (positions s)
    (predictions s) (trading_history s) (strategy_logs s) (performance_stats s) v.

(** ** Bounded logs: [collections.deque] with a [maxlen]

    [append] adds on the right and, when the length then exceeds [maxlen],
    pops on the left; [deque(iterable, maxlen)] appends the items one by
    one. *)

Definition deque_append (maxlen : nat) (q : list value) (x : value) : list value :=
  let q' := q ++ [x] in
  if (maxlen <? List.length q')%nat then tl q' else q'.

Definition deque_new (maxlen : nat) (items : list value) : list value :=
  fold_left (deque_append maxlen) items [].

(** ** Events, the outside world, effects *)

(** The argument of [update_state]: [state_data.get("type")] and the
    payload under ["data"], which every caller in the repository builds as
    a dictionary; [None] stands for a missing key. *)
Record StateData : Type := mkStateData {
  sd_type : option value;
  sd_data : option dict
}.

(** [state_data.get("data", {})] *)
Definition sd_payload (state_data : StateData) : dict :=
  match sd_data state_data with
  | Some d => d
  | None => []
  end.

(** What [requests.post] does when it is called. *)
Inductive post_outcome : Type :=
| Responded (status_code : Z)
| RequestException.

(** What the world answers during one call of [update_state]:
    [datetime.now().isoformat()] when a log record is built, the same when
    [last_update] is stamped, and the fate of the HTTP request. *)
Record World : Type := mkWorld {
  now_record : string;
  now_update : string;
  post : post_outcome
}.

Inductive effect : Type :=
| LockAcquire
| LockRelease
| HttpPost (url : string) (payload : StateData)
| LogWarning
| LogDebug
| FileWrite (document : value).

(** Methods of the store: they read and mutate [self], may raise, and
    leave a trace of effects.  A method that raises keeps the mutations it
    made before. *)
Definition M (A : Type) : Type :=
  StateManager -> result A * StateManager * list effect.

Definition ret {A : Type} (a : A) : M A := fun self => (Ok a, self, []).

Definition raise {A : Type} (e : exn) : M A := fun self => (Raise e, self, []).

Definition bind {A B : Type} (m : M A) (k : A -> M B) : M B :=
  fun self =>
    match m self with
    | (Ok a, self1, t1) =>
        match k a self1 with
        | (r, self2, t2) => (r, self2, t1 ++ t2)
        end
    | (Raise e, self1, t1) => (Raise e, self1, t1)
    end.

Declare Scope method_scope.
Delimit Scope method_scope with method.
Notation "x <- m ;; k" := (bind m (fun x => k))
  (at level 100, m at next level, right associativity) : method_scope.
Notation "m ;; k" := (bind m (fun _ => k))
  (at level 100, right associativity) : method_scope.
Local Open Scope method_scope.

Definition get_self : M StateManager := fun self => (Ok self, self, []).
Definition modify (f : StateManager -> StateManager) : M unit :=
  fun self => (Ok tt, f self, []).
Definition emit (e : effect) : M unit := fun self => (Ok tt, self, [e]).
Definition lift {A : Type} (r : result A) : M A := fun self => (r, self, []).

(** [with self.lock:] the lock is released when the block is left, by its
    end or by an exception. *)
Definition with_lock {A : Type} (m : M A) : M A :=
  fun self =>
    match m self with
    | (r, self', t) => (r, self', LockAcquire :: t ++ [LockRelease])
    end.

Definition returned {A : Type} (x : result A * StateManager * list effect) : result A :=
  fst (fst x).
Definition store_after {A : Type} (x : result A * StateManager * list effect) : StateManager :=
  snd (fst x).
Definition trace_of {A : Type} (x : result A * StateManager * list effect) : list effect :=
  snd x.

(** ** Operations on a field that should hold a dictionary *)

(** [obj.update(delta)] *)
Definition py_update (obj : value) (delta : dict) : result value :=
  match obj with
  | VDict d => Ok (VDict (dict_update d delta))
  | _ => Raise AttributeError
  end.

(** [obj[k]] for a string [k] *)
Definition py_getitem (obj : value) (k : string) : result value :=
  match obj with
  | VDict d =>
      match dict_get k d with
      | Some v => Ok v
      | None => Raise KeyError
      end
  | _ => Raise TypeError
  end.

(** [obj[k] = v] for a string [k] *)
Definition py_setitem (obj : value) (k : string) (v : value) : result value :=
  match obj with
  | VDict d => Ok (VDict (dict_set k v d))
  | _ => Raise TypeError
  end.

(** [obj.copy()] *)
Definition py_copy (obj : value) : result value :=
  match obj with
  | VDict d => Ok (VDict d)
  | VList l => Ok (VList l)
  | _ => Raise AttributeError
  end.

(** The items [deque(obj, maxlen)] iterates over: the elements of a list,
    the characters of a string, the keys of a dictionary. *)
Definition py_iter (obj : value) : result (list value) :=
  match obj with
  | VList l => Ok l
  | VStr s => Ok (map (fun c => VStr (String c EmptyString)) (list_ascii_of_string s))
  | VDict d => Ok (map VStr (keys d))
  | _ => Raise TypeError
  end.

(** [a += b]: a list on the left is extended by the items of [b];
    anything else is [a + b]. *)
Definition py_iadd (a b : value) : result value :=
  match a with
  | VList l =>
      match py_iter b with
      | Ok items => Ok (VList (l ++ items))
      | Raise e => Raise e
      end
  | _ => py_add a b
  end.

(** [v == s] for a string literal [s] *)
Definition eq_str (v : option value) (s : string) : bool :=
  match v with
  | Some (VStr t) => String.eqb t s
  | _ => false
  end.

(** ** [StateManager]: the handlers of [update_state] *)

Definition _update_system_status (data : dict) : M unit :=
  self <- get_self ;;
  v <- lift (py_update (system_status self) data) ;;
  modify (set_system_status v).

(** The accumulators of the loop of [_calculate_risk_metrics]:
    [total_value], [max_position], [position_count], [usdt_reserve]. *)
Record risk_acc : Type := mkRiskAcc {
  total_value : float;
  max_position : value;
  position_count : Z;
  usdt_reserve : value
}.

Definition risk_acc0 : risk_acc := mkRiskAcc 0 (VFloat 0) 0 (VFloat 0).

(** One turn of [for asset, info in self.positions.items()]. *)
Definition risk_step (acc : risk_acc) (item : string * value) : result risk_acc :=
  let (asset, info) := item in
  match info with
  | VDict i =>
      let usd_value := dict_get_default "usd_value" (VFloat 0) i in
      match float_add (total_value acc) usd_value with
      | Raise e => Raise e
      | Ok total =>
          if String.eqb asset "USDT" then
            Ok (mkRiskAcc total (max_position acc) (position_count acc) usd_value)
          else
            match py_max (max_position acc) usd_value with
            | Raise e => Raise e
            | Ok m => Ok (mkRiskAcc total m (position_count acc + 1) (usdt_reserve acc))
            end
      end
  | _ => Raise AttributeError
  end.

Fixpoint risk_loop (items : dict) (acc : risk_acc) : result risk_acc :=
  match items with
  | [] => Ok acc
  | item :: rest =>
      match risk_step acc item with
      | Ok acc' => risk_loop rest acc'
      | Raise e => Raise e
      end
  end.

(** [(total_value - usdt_reserve) / total_value if total_value > 0 else 0.0] *)
Definition total_exposure_of (acc : risk_acc) : result float :=
  if (0 <? total_value acc)%float then
    match float_sub (total_value acc) (usdt_reserve acc) with
    | Ok d => Ok (d / total_value acc)%float
    | Raise e => Raise e
    end
  else Ok 0%float.

Definition risk_update_of (acc : risk_acc) (total_exposure : float) : dict :=
  [ ("total_exposure", VFloat total_exposure);
    ("max_single_position", max_position acc);
    ("position_count", VInt (position_count acc));
    ("usdt_reserve", usdt_reserve acc);
    ("total_value", VFloat (total_value acc)) ].

Definition _calculate_risk_metrics : M unit :=
  self <- get_self ;;
  if negb (truthy (positions self)) then ret tt
  else
    match positions self with
    | VDict items =>
        acc <- lift (risk_loop items risk_acc0) ;;
        total_exposure <- lift (total_exposure_of acc) ;;
        v <- lift (py_update (risk_metrics self) (risk_update_of acc total_exposure)) ;;
        modify (set_risk_metrics v)
    | _ => raise AttributeError
    end.

Definition _update_positions (data : dict) : M unit :=
  modify (set_positions (VDict data)) ;;
  _calculate_risk_metrics.

Definition _update_predictions (data : dict) : M unit :=
  modify (set_predictions (VDict data)).

(** [{"timestamp": datetime.now().isoformat(), **data}] *)
Definition stamped (now : string) (data : dict) : value :=
  VDict (dict_update [("timestamp", VStr now)] data).

(** [self.performance_stats[k] += v] *)
Definition performance_incr (k : string) (v : value) : M unit :=
  self <- get_self ;;
  old <- lift (py_getitem (performance_stats self) k) ;;
  new <- lift (py_iadd old v) ;;
  stats <- lift (py_setitem (performance_stats self) k new) ;;
  modify (set_performance_stats stats).

Definition _record_trade (now : string) (trade_data : dict) : M unit :=
  let trade_record := stamped now trade_data in
  modify (fun self =>
    set_trading_history
      (deque_append (max_history self) (trading_history self) trade_record) self) ;;
  performance_incr "total_trades" (VInt 1) ;;
  (if eq_str (dict_get "status" trade_data) "success"
   then performance_incr "successful_trades" (VInt 1)
   else performance_incr "failed_trades" (VInt 1)) ;;
  match dict_get "volume_usdt" trade_data with
  | Some volume => performance_incr "total_volume" volume
  | None => ret tt
  end.

Definition _add_strategy_log (now : string) (log_data : dict) : M unit :=
  let log_record := stamped now log_data in
  modify (fun self =>
    set_strategy_logs
      (deque_append (max_history self) (strategy_logs self) log_record) self).

Definition _update_performance (data : dict) : M unit :=
  self <- get_self ;;
  v <- lift (py_update (performance_stats self) data) ;;
  modify (set_performance_stats v).

Definition _update_risk_metrics (data : dict) : M unit :=
  self <- get_self ;;
  v <- lift (py_update (risk_metrics self) data) ;;
  modify (set_risk_metrics v).

Definition _push_to_webui (state_data : StateData) (outcome : post_outcome) : M unit :=
  self <- get_self ;;
  emit (HttpPost (webui_url self ++ "/api/update-state") state_data) ;;
  match outcome with
  | Responded status_code =>
      if (status_code =? 200)%Z then ret tt else emit LogWarning
  | RequestException => emit LogDebug
  end.

(** ** [StateManager.update_state] *)

(** The branch taken for [update_type]; nothing is done for any other
    value. *)
Definition dispatch (state_data : StateData) (w : World) : M unit :=
  let update_type := sd_type state_data in
  let data := sd_payload state_data in
  if eq_str update_type "system_status" then _update_system_status data
  else if eq_str update_type "positions" then _update_positions data
  else if eq_str update_type "predictions" then _update_predictions data
  else if eq_str update_type "trade_execution" then _record_trade (now_record w) data
  else if eq_str update_type "strategy_log" then _add_strategy_log (now_record w) data
  else if eq_str update_type "performance" then _update_performance data
  else if eq_str update_type "risk_metrics" then _update_risk_metrics data
  else ret tt.

Definition stamp_last_update (now : string) : M unit :=
  self <- get_self ;;
  v <- lift (py_setitem (system_status self) "last_update" (VStr now)) ;;
  modify (set_system_status v).

Definition update_state (state_data : StateData) (w : World) : M unit :=
  with_lock (
    dispatch state_data w ;;
    stamp_last_update (now_update w) ;;
    _push_to_webui state_data (post w)).

(** ** Accessors *)

Definition get_system_status : M value :=
  with_lock (self <- get_self ;; lift (py_copy (system_status self))).

Definition get_positions : M value :=
  with_lock (self <- get_self ;; lift (py_copy (positions self))).

Definition get_predictions : M value :=
  with_lock (self <- get_self ;; lift (py_copy (predictions self))).

(** [l[start:]] *)
Definition slice_from (start : Z) (l : list value) : list value :=
  let n := Z.of_nat (List.length l) in
  let i := if (start <? 0)%Z then Z.max 0 (start + n) else Z.min start n in
  skipn (Z.to_nat i) l.

(** [l[-limit:] if limit else l] *)
Definition newest (limit : Z) (l : list value) : list value :=
  if (limit =? 0)%Z then l else slice_from (- limit) l.

Definition default_limit (default : Z) (limit : option Z) : Z :=
  match limit with
  | Some n => n
  | None => default
  end.

(** [get_trading_history(limit=50)]; [None] is a call without [limit]. *)
Definition get_trading_history (limit : option Z) : M (list value) :=
  with_lock (
    self <- get_self ;;
    let history := trading_history self in
    ret (newest (default_limit 50 limit) history)).

(** [get_strategy_logs(limit=100)] *)
Definition get_strategy_logs (limit : option Z) : M (list value) :=
  with_lock (
    self <- get_self ;;
    let logs := strategy_logs self in
    ret (newest (default_limit 100 limit) logs)).

Definition get_performance_stats : M value :=
  with_lock (self <- get_self ;; lift (py_copy (performance_stats self))).

Definition get_risk_metrics : M value :=
  with_lock (self <- get_self ;; lift (py_copy (risk_metrics self))).

(** ** [save_state] and [load_state]

    [json.dump] followed by [json.load] gives back the JSON value that was
    written, so a file is represented by the document it holds. *)

(** The dictionary [save_state] builds and writes. *)
Definition document_of (self : StateManager) (saved_at : string) : value :=
  VDict
    [ ("system_status", system_status self);
      ("positions", positions self);
      ("predictions", predictions self);
      ("trading_history", VList (trading_history self));
      ("strategy_logs", VList (strategy_logs self));
      ("performance_stats", performance_stats self);
      ("risk_metrics", risk_metrics self);
      ("saved_at", VStr saved_at) ].

Definition save_state (now : string) : M unit :=
  with_lock (
    self <- get_self ;;
    emit (FileWrite (document_of self now))).

(** What [load_state] finds at [file_path]: nothing, a file that is not
    JSON, or a JSON document. *)
Inductive file : Type :=
| NoFile
| NotJSON
| Document (doc : value).

Definition load_document (state_data : dict) : M unit :=
  modify (fun self =>
    set_system_status (dict_get_default "system_status" (system_status self) state_data) self) ;;
  modify (set_positions (dict_get_default "positions" (VDict []) state_data)) ;;
  modify (set_predictions (dict_get_default "predictions" (VDict []) state_data)) ;;
  modify (fun self =>
    set_performance_stats
      (dict_get_default "performance_stats" (performance_stats self) state_data) self) ;;
  modify (fun self =>
    set_risk_metrics (dict_get_default "risk_metrics" (risk_metrics self) state_data) self) ;;
  trading_history <- lift (py_iter (dict_get_default "trading_history" (VList []) state_data)) ;;
  modify (fun self => set_trading_history (deque_new (max_history self) trading_history) self) ;;
  strategy_logs <- lift (py_iter (dict_get_default "strategy_logs" (VList []) state_data)) ;;
  modify (fun self => set_strategy_logs (deque_new (max_history self) strategy_logs) self).

Definition load_state (f : file) : M unit :=
  match f with
  | NoFile => ret tt
  | NotJSON => with_lock (raise JSONDecodeError)
  | Document doc =>
      with_lock (
        match doc with
        | VDict state_data => load_document state_data
        | _ => raise AttributeError
        end)
  end.

(** A sequence of [update_state] calls; a call that raised leaves the
    store as it was when the exception left it, and the next call goes
    on from there. *)
Fixpoint run (calls : list (StateData * World)) (self : StateManager) : StateManager :=
  match calls with
  | [] => self
  | (state_data, w) :: rest => run rest (store_after (update_state state_data w self))
  end.

(** ** Order sizing: [KronosMainStrategy._execute_trading_decisions]

    The entries of [trading_advice['trading_actions']] carry the fields
    [chatgpt_client] requires of them; amounts are binary64.  The result
    is the sequence of calls made to [_execute_buy_order] and
    [_execute_sell_order]. *)

Record TradeIntent : Type := mkIntent {
  symbol : string;
  action : string;
  quantity_usdt : float;
  confidence : float;
  reason : option string
}.

Inductive Order : Type :=
| BuyOrder (symbol : string) (usdt_amount : float) (confidence : float) (reason : string)
| SellOrder (symbol : string) (usdt_amount : float) (confidence : float) (reason : string).

(** The sizing parameters set by [KronosMainStrategy.__init__]. *)
Record Strategy : Type := mkStrategy {
  min_trade_amount : float;
  max_single_trade : float
}.

Definition default_strategy : Strategy := mkStrategy 50 500.

(** The default reason. *)
Definition default_reason : string := "无具体原因".

(** [action.get('reason', ...)] *)
Definition reason_of (a : TradeIntent) : string :=
  match reason a with
  | Some r => r
  | None => default_reason
  end.

Definition is_buy (a : TradeIntent) : bool := String.eqb (action a) "BUY".

(** [sum(a['quantity_usdt'] for a in actions
         if a['action'] == 'BUY' and a['quantity_usdt'] > 0)] *)
Definition total_buy_amount (actions : list TradeIntent) : float :=
  fold_left
    (fun acc a =>
       if is_buy a && (0 <? quantity_usdt a)%float
       then (acc + quantity_usdt a)%float else acc)
    actions 0%float.

(** [usdt_balance / total_buy_amount * 0.95] when the purchases exceed the
    balance, [1.0] otherwise; the division raises when the total is zero. *)
Definition scale_factor (usdt_balance : float) (actions : list TradeIntent)
  : result float :=
  let total := total_buy_amount actions in
  if (usdt_balance <? total)%float then
    if (total =? 0)%float then Raise ZeroDivisionError
    else Ok (usdt_balance / total * 0.95)%float
  else Ok 1%float.

(** [quantity_usdt = self.max_single_trade] when it is above it. *)
Definition cap (self : Strategy) (q : float) : float :=
  if (max_single_trade self <? q)%float then max_single_trade self else q.

(** The body of the loop for one action: the order it places, if any. *)
Definition size_order (self : Strategy) (scale : float) (a : TradeIntent) : option Order :=
  let why := reason_of a in
  let quantity := quantity_usdt a in
  if String.eqb (action a) "HOLD" || (quantity =? 0)%float then None
  else if (quantity <? min_trade_amount self)%float then None
  else
    let quantity := if is_buy a then (quantity * scale)%float else quantity in
    let quantity := cap self quantity in
    if is_buy a then Some (BuyOrder (symbol a) quantity (confidence a) why)
    else if String.eqb (action a) "SELL"
         then Some (SellOrder (symbol a) quantity (confidence a) why)
         else None.

Fixpoint place_orders (self : Strategy) (scale : float) (actions : list TradeIntent)
  : list Order :=
  match actions with
  | [] => []
  | a :: rest =>
      match size_order self scale a with
      | Some o => o :: place_orders self scale rest
      | None => place_orders self scale rest
      end
  end.

Definition _execute_trading_decisions
  (self : Strategy) (usdt_balance : float) (actions : list TradeIntent)
  : result (list Order) :=
  match actions with
  | [] => Ok []
  | _ =>
      match scale_factor usdt_balance actions with
      | Ok scale => Ok (place_orders self scale actions)
      | Raise e => Raise e
      end
  end.

Definition order_amount (o : Order) : float :=
  match o with
  | BuyOrder _ q _ _ => q
  | SellOrder _ q _ _ => q
  end.

Definition order_is_buy (o : Order) : bool :=
  match o with
  | BuyOrder _ _ _ _ => true
  | SellOrder _ _ _ _ => false
  end.


(** ** Notions used by the properties *)

(** The newest [n] entries of a log. *)
Definition lastn (n : nat) (l : list value) : list value :=
  skipn (List.length l - n) l.

(** The number of entries a log accessor returned. *)
Definition returned_length (r : result (list value)) : nat :=
  match r with
  | Ok l => List.length l
  | Raise _ => 0%nat
  end.

(** The entry [k] of the dictionary an accessor returned. *)
Definition metric (k : string) (r : result value) : option value :=
  match r with
  | Ok (VDict d) => dict_get k d
  | _ => None
  end.

(** [keeps R m]: the store after the method [m] is related by [R] to the
    store before it. *)
Definition keeps (R : StateManager -> StateManager -> Prop) {A : Type} (m : M A) : Prop :=
  forall s, R s (store_after (m s)).

(** A method that leaves no effect in the trace. *)
Definition silent {A : Type} (m : M A) : Prop :=
  forall s, trace_of (m s) = [].

(** [s'] is [s] except, possibly, for [system_status]. *)
Definition same_but_status (s s' : StateManager) : Prop :=
  s' = set_system_status (system_status s') s.

(** The configuration of a store: what no method assigns. *)
Definition same_config (s s' : StateManager) : Prop :=
  max_history s' = max_history s /\ webui_url s' = webui_url s.

(** A step that touches neither log nor the capacity. *)
Definition same_logs (s s' : StateManager) : Prop :=
  max_history s' = max_history s
  /\ trading_history s' = trading_history s
  /\ strategy_logs s' = strategy_logs s.

(** Both logs hold at most [max_history] entries. *)
Definition logs_bounded (s : StateManager) : Prop :=
  (List.length (trading_history s) <= max_history s)%nat
  /\ (List.length (strategy_logs s) <= max_history s)%nat.

(** A step that keeps the capacity and the bound on the logs. *)
Definition bound_step (s s' : StateManager) : Prop :=
  max_history s' = max_history s /\ (logs_bounded s -> logs_bounded s').

(** The stores a process can hold: a new one, and what [update_state] and
    [load_state] make of one (the other methods assign nothing). *)
Inductive reachable : StateManager -> Prop :=
| reach_init (max_history : nat) (webui_url : option string) :
    reachable (init max_history webui_url)
| reach_update_state (s : StateManager) (state_data : StateData) (w : World) :
    reachable s -> reachable (store_after (update_state state_data w s))
| reach_load_state (s : StateManager) (f : file) :
    reachable s -> reachable (store_after (load_state f s)).

(** What [_push_to_webui] logs after the request. *)
Definition push_log (outcome : post_outcome) : list effect :=
  match outcome with
  | Responded status_code => if (status_code =? 200)%Z then [] else [LogWarning]
  | RequestException => [LogDebug]
  end.

(** [posts_when p held t]: every HTTP request in the trace [t] is made at
    a moment when the number of times the lock is held satisfies [p];
    [held] is that number when the trace starts. *)
Fixpoint posts_when (p : nat -> bool) (held : nat) (t : list effect) : bool :=
  match t with
  | [] => true
  | LockAcquire :: rest => posts_when p (S held) rest
  | LockRelease :: rest => posts_when p (Nat.pred held) rest
  | HttpPost _ _ :: rest => p held && posts_when p held rest
  | _ :: rest => posts_when p held rest
  end.

(** The network is only called once the lock has been released. *)
Definition posts_outside_lock (t : list effect) : bool :=
  posts_when (Nat.eqb 0) 0 t.

(** The network is only called while the lock is held. *)
Definition posts_inside_lock (t : list effect) : bool :=
  posts_when (Nat.ltb 0) 0 t.

(** A counter of [performance_stats], when it is there and an [int]. *)
Definition counter (k : string) (s : StateManager) : option Z :=
  match performance_stats s with
  | VDict d =>
      match dict_get k d with
      | Some (VInt z) => Some z
      | _ => None
      end
  | _ => None
  end.

(** [trade_data.get("status") == "success"] *)
Definition succeeded (trade_data : dict) : bool :=
  eq_str (dict_get "status" trade_data) "success".

(** ** Events by kind *)

Definition positions_event (data : dict) : StateData :=
  mkStateData (Some (VStr "positions")) (Some data).

Definition trade_event (data : dict) : StateData :=
  mkStateData (Some (VStr "trade_execution")) (Some data).

Definition log_event (data : dict) : StateData :=
  mkStateData (Some (VStr "strategy_log")) (Some data).

(** The seven kinds [update_state] has a branch for. *)
Definition recognized (update_type : option value) : bool :=
  eq_str update_type "system_status"
  || eq_str update_type "positions"
  || eq_str update_type "predictions"
  || eq_str update_type "trade_execution"
  || eq_str update_type "strategy_log"
  || eq_str update_type "performance"
  || eq_str update_type "risk_metrics".

(** The calls that record the trades [trades], and the records they
    append. *)
Definition trade_calls (trades : list (dict * World)) : list (StateData * World) :=
  map (fun tw => (trade_event (fst tw), snd tw)) trades.

Definition trade_records (trades : list (dict * World)) : list value :=
  map (fun tw => stamped (now_record (snd tw)) (fst tw)) trades.

Definition count_succeeded (trades : list (dict * World)) : Z :=
  Z.of_nat (List.length (filter (fun tw => succeeded (fst tw)) trades)).

(** ** The risk figures, stated on the amounts of a position map

    [usd_values] reads a position map whose entries are objects with a
    float under ["usd_value"] (or no such key, which counts as [0.0]). *)

Definition usd_value_of (info : value) : option float :=
  match info with
  | VDict i =>
      match dict_get "usd_value" i with
      | None => Some 0%float
      | Some (VFloat f) => Some f
      | Some _ => None
      end
  | _ => None
  end.

Fixpoint usd_values (data : dict) : option (list (string * float)) :=
  match data with
  | [] => Some []
  | (asset, info) :: rest =>
      match usd_value_of info, usd_values rest with
      | Some u, Some vs => Some ((asset, u) :: vs)
      | _, _ => None
      end
  end.

Definition is_reserve (x : string * float) : bool := String.eqb (fst x) "USDT".

Definition non_reserve (vs : list (string * float)) : list (string * float) :=
  filter (fun x => negb (is_reserve x)) vs.

(** The sum of [usd_value] over all assets, in the order of the map. *)
Definition sum_usd (vs : list (string * float)) : float :=
  fold_left (fun a x => (a + snd x)%float) vs 0%float.

(** The [usd_value] of the reserve asset, [0] if absent. *)
Definition reserve_of (vs : list (string * float)) : float :=
  match find is_reserve vs with
  | Some x => snd x
  | None => 0%float
  end.

Definition exposure_of (total reserve : float) : float :=
  if (0 <? total)%float then ((total - reserve) / total)%float else 0%float.

(** [max(m, x)] on floats *)
Definition fmax (m x : float) : float := if (m <? x)%float then x else m.

(** The largest of [0.0] and the [usd_value]s of the non-reserve assets. *)
Definition largest_of (vs : list (string * float)) : float :=
  fold_left (fun m x => fmax m (snd x)) (non_reserve vs) 0%float.

(** The number of non-reserve assets. *)
Definition holdings_of (vs : list (string * float)) : Z :=
  Z.of_nat (List.length (non_reserve vs)).

(** What the code stores for a non-empty position map. *)
Definition recomputed (vs : list (string * float)) : dict :=
  [ ("total_exposure", VFloat (exposure_of (sum_usd vs) (reserve_of vs)));
    ("max_single_position", VFloat (largest_of vs));
    ("position_count", VInt (holdings_of vs));
    ("usdt_reserve", VFloat (reserve_of vs));
    ("total_value", VFloat (sum_usd vs)) ].

(** The value the loop leaves in [usdt_reserve]: that of the last reserve
    entry met. *)
Definition last_reserve (vs : list (string * float)) (r : float) : float :=
  fold_left (fun r x => if is_reserve x then snd x else r) vs r.

(** The recomputation in the words of the specification (section 4.2):
    the largest [usd_value] over the non-reserve assets, [0] if there is
    none, and the number of non-reserve assets with [usd_value > 0]. *)
Definition spec_max_single_position (vs : list (string * float)) : float :=
  match non_reserve vs with
  | [] => 0%float
  | x :: rest => fold_left (fun m y => fmax m (snd y)) rest (snd x)
  end.

Definition spec_position_count (vs : list (string * float)) : Z :=
  Z.of_nat (List.length (filter (fun x => (0 <? snd x)%float) (non_reserve vs))).

Definition spec_recomputed (vs : list (string * float)) : dict :=
  [ ("total_exposure", VFloat (exposure_of (sum_usd vs) (reserve_of vs)));
    ("max_single_position", VFloat (spec_max_single_position vs));
    ("position_count", VInt (spec_position_count vs));
    ("usdt_reserve", VFloat (reserve_of vs));
    ("total_value", VFloat (sum_usd vs)) ].

(** ** The sizing of a BUY action *)

(** Whether the loop skips a BUY action before it sizes it: the requested
    amount is zero or below [min_trade_amount]. *)
Definition skipped (self : Strategy) (a : TradeIntent) : bool :=
  (quantity_usdt a =? 0)%float || (quantity_usdt a <? min_trade_amount self)%float.

(** ** Concrete inputs used below *)

Definition world0 : World := mkWorld "2025-01-01T00:00:00" "2025-01-01T00:00:01" RequestException.

Definition position (usd_value : float) : value :=
  VDict [ ("amount", VFloat 1); ("current_price", VFloat usd_value);
          ("usd_value", VFloat usd_value); ("free", VFloat 1); ("locked", VFloat 0) ].

(** The scenario of the specification: BTC worth 700, USDT worth 300. *)
Definition btc_usdt : dict := [ ("BTC", position 700); ("USDT", position 300) ].

Definition store_btc_usdt : StateManager :=
  store_after (update_state (positions_event btc_usdt) world0 new_store).

(** A holding whose price is quoted as zero, and one quoted below zero. *)
Definition doge_worthless : dict := [ ("DOGE", position 0); ("USDT", position 300) ].
Definition doge_negative : dict := [ ("DOGE", position (-5)); ("USDT", position 300) ].

(** An event of a kind [update_state] has no branch for. *)
Definition bogus_event : StateData :=
  mkStateData (Some (VStr "positions_v2")) (Some [("BTC", position 700)]).

(** A persisted document whose [trading_history] is [null]. *)
Definition broken_document : value :=
  VDict [ ("positions", VDict btc_usdt); ("trading_history", VNone) ].

Definition sample_trade : dict :=
  [ ("symbol", VStr "BTCUSDT"); ("action", VStr "BUY"); ("quantity", VFloat 0.001);
    ("price", VFloat 60000); ("volume_usdt", VFloat 60); ("confidence", VFloat 0.75);
    ("reason", VStr "forecast up"); ("status", VStr "success");
    ("order_id", VInt 1) ].

(** A store that has recorded 51 trades. *)
Definition store_51_trades : StateManager :=
  run (repeat (trade_event sample_trade, world0) 51) new_store.

Definition buy (symbol : string) (quantity_usdt : float) : TradeIntent :=
  mkIntent symbol "BUY" quantity_usdt 0.75 (Some "forecast up").

(** Two purchases asked for with a balance of 100. *)
Definition small_and_large : list TradeIntent :=
  [ buy "ADAUSDT" 60; buy "BTCUSDT" 1000 ].

(** The actions of the examples of the specification. *)
Definition intent (action : string) (quantity_usdt : float) : TradeIntent :=
  mkIntent "BTCUSDT" action quantity_usdt 0.75 None.

(** * Further parts of the program *)

(** ** More events and readings of the store *)

Definition status_event (data : dict) : StateData :=
  mkStateData (Some (VStr "system_status")) (Some data).

(** Whether a field holds a dictionary. *)
Definition is_dict (v : value) : bool :=
  match v with
  | VDict _ => true
  | _ => false
  end.

(** An entry of [performance_stats]. *)
Definition stat (k : string) (s : StateManager) : option value :=
  match performance_stats s with
  | VDict d => dict_get k d
  | _ => None
  end.

(** The [volume_usdt] of a trade record when it is a float, [0.0] when the
    record has none. *)
Definition float_volume (trade_data : dict) : option float :=
  match dict_get "volume_usdt" trade_data with
  | None => Some 0%float
  | Some (VFloat f) => Some f
  | Some _ => None
  end.

(** The running sum [_record_trade] keeps in [total_volume]: the volumes
    of the records that carry one, added in the order of the trades. *)
Fixpoint volume_sum (acc : float) (trades : list (dict * World)) : float :=
  match trades with
  | [] => acc
  | (data, _) :: rest =>
      match dict_get "volume_usdt" data with
      | Some (VFloat f) => volume_sum (acc + f)%float rest
      | _ => volume_sum acc rest
      end
  end.

(** A step that leaves [system_status] alone. *)
Definition same_status (s s' : StateManager) : Prop :=
  system_status s' = system_status s.

(** Whether every call of a sequence of [update_state] calls returns, none
    of them raising. *)
Fixpoint all_returned (calls : list (StateData * World)) (s : StateManager) : bool :=
  match calls with
  | [] => true
  | (state_data, w) :: rest =>
      match returned (update_state state_data w s) with
      | Ok _ => all_returned rest (store_after (update_state state_data w s))
      | Raise _ => false
      end
  end.

(** A document whose [system_status] is a number. *)
Definition odd_status_document : value :=
  VDict [ ("system_status", VInt 5) ].

Definition store_odd_status : StateManager :=
  store_after (load_state (Document odd_status_document) new_store).

(** [only_changes p pr th sl pf rk s s']: from [s] to [s'] the capacity
    and the URL are kept, and so is each of positions, predictions, trade
    log, strategy log, performance and risk whose flag is [false]. *)
Definition only_changes (p pr th sl pf rk : bool) (s s' : StateManager) : Prop :=
  same_config s s'
  /\ (p = false -> positions s' = positions s)
  /\ (pr = false -> predictions s' = predictions s)
  /\ (th = false -> trading_history s' = trading_history s)
  /\ (sl = false -> strategy_logs s' = strategy_logs s)
  /\ (pf = false -> performance_stats s' = performance_stats s)
  /\ (rk = false -> risk_metrics s' = risk_metrics s).

(** ** The orders of a sizing run, action by action *)

Definition is_sell (a : TradeIntent) : bool := String.eqb (action a) "SELL".

(** The actions the loop places an order for: a BUY or a SELL whose
    requested amount is not zero and not below [min_trade_amount]. *)
Definition eligible (self : Strategy) (a : TradeIntent) : bool :=
  (is_buy a || is_sell a)
  && negb (quantity_usdt a =? 0)%float
  && negb (quantity_usdt a <? min_trade_amount self)%float.

(** The order placed for an eligible action. *)
Definition order_for (self : Strategy) (scale : float) (a : TradeIntent) : Order :=
  if is_buy a
  then BuyOrder (symbol a) (cap self (quantity_usdt a * scale)) (confidence a) (reason_of a)
  else SellOrder (symbol a) (cap self (quantity_usdt a)) (confidence a) (reason_of a).

(** An order without its amount. *)
Definition order_heading (o : Order) : bool * string * float * string :=
  match o with
  | BuyOrder sym _ conf why => (true, sym, conf, why)
  | SellOrder sym _ conf why => (false, sym, conf, why)
  end.

Definition is_sell_order (o : Order) : bool := negb (order_is_buy o).

(** ** The exchange account: [BinanceClient.get_balance] and
       [get_all_balances] ([src/trader/binance_client.py])

    What the exchange answers is an argument: the rows of
    [account['balances']], or nothing when [get_account_info] raises.  A
    row gives its amounts as strings; [float(...)] of one may raise, which
    is a [None] here. *)

Record BalanceRow : Type := mkRow {
  row_asset : string;
  row_free : option float;
  row_locked : option float
}.

(** [{'free': ..., 'locked': ..., 'total': ...}] *)
Record BalanceInfo : Type := mkBalance {
  free : float;
  locked : float;
  total : float
}.

(** [balances[asset] = info] *)
Fixpoint balances_set (asset : string) (info : BalanceInfo)
  (balances : list (string * BalanceInfo)) : list (string * BalanceInfo) :=
  match balances with
  | [] => [(asset, info)]
  | (a, i) :: rest =>
      if String.eqb a asset then (asset, info) :: rest
      else (a, i) :: balances_set asset info rest
  end.

(** The loop of [get_all_balances]; [None] when a conversion raises. *)
Fixpoint balances_loop (rows : list BalanceRow) (balances : list (string * BalanceInfo))
  : option (list (string * BalanceInfo)) :=
  match rows with
  | [] => Some balances
  | row :: rest =>
      match row_free row, row_locked row with
      | Some free_balance, Some locked_balance =>
          let total_balance := (free_balance + locked_balance)%float in
          if (0 <? total_balance)%float then
            balances_loop rest
              (balances_set (row_asset row)
                 (mkBalance free_balance locked_balance total_balance) balances)
          else balances_loop rest balances
      | _, _ => None
      end
  end.

Definition get_all_balances (account : option (list BalanceRow))
  : list (string * BalanceInfo) :=
  match account with
  | None => []
  | Some rows =>
      match balances_loop rows [] with
      | Some balances => balances
      | None => []
      end
  end.

(** What every entry of the result of [get_all_balances] satisfies. *)
Definition held (info : BalanceInfo) : Prop :=
  total info = (free info + locked info)%float /\ (0 <? total info)%float = true.

(** [get_balance(asset)]: the free amount of the first row of the asset,
    [0.0] when there is none or anything raises. *)
Fixpoint first_free (asset : string) (rows : list BalanceRow) : float :=
  match rows with
  | [] => 0%float
  | row :: rest =>
      if String.eqb (row_asset row) asset then
        match row_free row with
        | Some f => f
        | None => 0%float
        end
      else first_free asset rest
  end.

Definition get_balance (account : option (list BalanceRow)) (asset : string) : float :=
  match account with
  | None => 0%float
  | Some rows => first_free asset rows
  end.

(** ** [PredictionAnalyzer.get_current_market_positions]
       ([src/trader/prediction_analyzer.py])

    [price_of symbol] is what [get_current_price(symbol)] returns, [None]
    when it raises. *)

Definition position_entry (amount current_price usd_value free locked : float) : value :=
  VDict [ ("amount", VFloat amount);
          ("current_price", VFloat current_price);
          ("usd_value", VFloat usd_value);
          ("free", VFloat free);
          ("locked", VFloat locked) ].

(** One turn of the loop over [balances.items()]. *)
Definition market_position_step (price_of : string -> option float)
  (positions : dict) (item : string * BalanceInfo) : dict :=
  let (asset, balance_info) := item in
  if (0 <? total balance_info)%float then
    if negb (String.eqb asset "USDT") then
      match price_of (asset ++ "USDT")%string with
      | Some current_price =>
          let usd_value := (total balance_info * current_price)%float in
          dict_set asset
            (position_entry (total balance_info) current_price usd_value
               (free balance_info) (locked balance_info))
            positions
      | None => positions
      end
    else
      dict_set asset
        (position_entry (total balance_info) 1 (total balance_info)
           (free balance_info) (locked balance_info))
        positions
  else positions.

Definition get_current_market_positions (price_of : string -> option float)
  (balances : list (string * BalanceInfo)) : dict :=
  fold_left (market_position_step price_of) balances [].

(** The amounts of the positions built from [balances]: per asset held,
    its total times its price ([1.0] for USDT), for the assets whose price
    could be read. *)
Definition valued (price_of : string -> option float) (item : string * BalanceInfo)
  : option (string * float) :=
  let (asset, balance_info) := item in
  if (0 <? total balance_info)%float then
    if negb (String.eqb asset "USDT") then
      match price_of (asset ++ "USDT")%string with
      | Some current_price => Some (asset, (total balance_info * current_price)%float)
      | None => None
      end
    else Some (asset, total balance_info)
  else None.

Fixpoint valuation (price_of : string -> option float)
  (balances : list (string * BalanceInfo)) : list (string * float) :=
  match balances with
  | [] => []
  | item :: rest =>
      match valued price_of item with
      | Some x => x :: valuation price_of rest
      | None => valuation price_of rest
      end
  end.

(** Step 3 of [run_hourly_strategy]: the positions of the account are
    read and handed to the store. *)
Definition refresh_positions (account : option (list BalanceRow))
  (price_of : string -> option float) (w : World) : M unit :=
  update_state
    (positions_event (get_current_market_positions price_of (get_all_balances account)))
    w.

(** An account with 0.5 BTC, 300 USDT of which 50 are locked and an
    empty row of ETH, and a market
    that quotes BTC only. *)
Definition account_btc_usdt : option (list BalanceRow) :=
  Some [ mkRow "BTC" (Some 0.5%float) (Some 0%float);
         mkRow "ETH" (Some 0%float) (Some 0%float);
         mkRow "USDT" (Some 250%float) (Some 50%float) ].

Definition quotes_btc (symbol : string) : option float :=
  if String.eqb symbol "BTCUSDT" then Some 1400%float else None.

(** ** Orders: [KronosMainStrategy._execute_buy_order],
       [_execute_sell_order], [_record_trade] and [_add_log]
       ([src/trader/main_strategy.py])

    The exchange is an argument: the account, the price of a symbol
    ([None] when [get_current_price] raises) and what comes of a market
    order.  [place_market_order] returns the order of the exchange, returns
    [None] on a [BinanceAPIException], and lets any other exception
    through. *)

Inductive order_outcome : Type :=
| Filled (order : dict)
| Rejected
| Broken.

Record Exchange : Type := mkExchange {
  ex_account : option (list BalanceRow);
  ex_price : string -> option float;
  ex_order : string -> string -> float -> order_outcome
}.

(** What the [except Exception] clause of an order method may catch. *)
Inductive failure : Type :=
| PriceFailure
| OrderFailure
| Python (e : exn).

(** Rounding and the formatting of messages, left to Python:
    [round(x, 6)], [f"{x}"] and [f"{x:.4f}"] of a float, and [str(e)]. *)
Record Format : Type := mkFormat {
  round6 : float -> float;
  float_str : float -> string;
  fixed4 : float -> string;
  describe : failure -> string
}.

(** The moments of the calls to the store an order method makes: for the
    trade record, for the log line of the trade, and for the log line of
    the [except] clause. *)
Record Clock : Type := mkClock {
  at_trade : World;
  at_log : World;
  at_error : World
}.

(** [try: body  except Exception as e: handler(e)] *)
Definition try_except {A : Type} (body : M A) (handler : exn -> M A) : M A :=
  fun self =>
    match body self with
    | (Ok a, self1, t1) => (Ok a, self1, t1)
    | (Raise e, self1, t1) =>
        match handler e self1 with
        | (r, self2, t2) => (r, self2, t1 ++ t2)
        end
    end.

(** The dictionary an order method hands to [_record_trade]; [order_id]
    is there for a successful order only. *)
Record TradeData : Type := mkTrade {
  td_symbol : string;
  td_action : string;
  td_quantity : float;
  td_price : float;
  td_volume_usdt : float;
  td_confidence : float;
  td_reason : string;
  td_status : string;
  td_order_id : option value
}.

Definition trade_dict (t : TradeData) : dict :=
  [ ("symbol", VStr (td_symbol t));
    ("action", VStr (td_action t));
    ("quantity", VFloat (td_quantity t));
    ("price", VFloat (td_price t));
    ("volume_usdt", VFloat (td_volume_usdt t));
    ("confidence", VFloat (td_confidence t));
    ("reason", VStr (td_reason t));
    ("status", VStr (td_status t)) ]
  ++ match td_order_id t with
     | Some id => [ ("order_id", id) ]
     | None => []
     end.

(** How far an order method gets with the exchange: it returns without
    an order, it fails before the order, or it has called
    [place_market_order] with a quantity at a price.  The lines written
    to the logger are left out. *)
Inductive attempt : Type :=
| NotTried
| NoQuote (cause : failure)
| Asked (quantity price : float) (outcome : order_outcome).

(** [if order:] *)
Definition filled (outcome : order_outcome) : bool :=
  match outcome with
  | Filled order => truthy (VDict order)
  | _ => false
  end.

(** The dictionary built after [place_market_order] has returned. *)
Definition trade_of (side symbol : string) (quantity price volume confidence : float)
  (reason : string) (outcome : order_outcome) : TradeData :=
  mkTrade symbol side quantity price volume confidence reason
    (if filled outcome then "success" else "failed")
    (match outcome with
     | Filled order =>
         if filled outcome
         then Some (dict_get_default "orderId" (VStr "N/A") order)
         else None
     | _ => None
     end).

(** The books of the store: the status is a dictionary, the three trade
    counters are integers and the volume is a float. *)
Definition ledger (s : StateManager) (total ok failed : Z) (volume : float) : Prop :=
  is_dict (system_status s) = true
  /\ counter "total_trades" s = Some total
  /\ counter "successful_trades" s = Some ok
  /\ counter "failed_trades" s = Some failed
  /\ stat "total_volume" s = Some (VFloat volume).

(** [min(a, b)] of two floats *)
Definition py_min (a b : float) : float :=
  if (b <? a)%float then b else a.

(** [s.replace(old, '')] for a non-empty [old] *)
Fixpoint remove_all (fuel : nat) (old s : string) : string :=
  match fuel with
  | O => s
  | S fuel' =>
      if String.prefix old s
      then remove_all fuel' old (String.substring (String.length old)
                                   (String.length s - String.length old) s)
      else match s with
           | EmptyString => EmptyString
           | String c rest => String c (remove_all fuel' old rest)
           end
  end.

Definition base_asset_of (symbol : string) : string :=
  remove_all (S (String.length symbol)) "USDT" symbol.

(** [self.state_manager.system_status.get(k, 0) + 1] *)
Definition count_after (k : string) (self : StateManager) : result value :=
  match system_status self with
  | VDict d => py_add (dict_get_default k (VInt 0) d) (VInt 1)
  | _ => Raise AttributeError
  end.

(** The two counters of the runs in [system_status]. *)
Definition run_counts (s : StateManager) (total_runs error_count : Z) : Prop :=
  exists status : dict,
    system_status s = VDict status
    /\ dict_get "total_runs" status = Some (VInt total_runs)
    /\ dict_get "error_count" status = Some (VInt error_count).

(** The [data] of the event [_add_log] sends. *)
Definition log_line (message level : string) : dict :=
  [ ("message", VStr message); ("level", VStr level) ].

Module KronosMainStrategy.
Section Orders.

Variable fmt : Format.
Variable ex : Exchange.

(** [_add_log(message, level)] *)
Definition _add_log (message level : string) (w : World) : M unit :=
  update_state (log_event (log_line message level)) w.

(** The line [_record_trade] logs. *)
Definition trade_line (t : TradeData) : string :=
  ("交易执行: " ++ td_action t ++ " " ++ td_symbol t ++ " "
   ++ float_str fmt (td_quantity t) ++ " @ $" ++ fixed4 fmt (td_price t))%string.

(** [_record_trade(trade_data)] *)
Definition _record_trade (t : TradeData) (c : Clock) : M unit :=
  update_state (trade_event (trade_dict t)) (at_trade c) ;;
  _add_log (trade_line t)
    (if String.eqb (td_status t) "success" then "success" else "error")
    (at_log c).

(** The part of [_execute_buy_order] that deals with the exchange. *)
Definition buy_attempt (symbol : string) (usdt_amount : float) : attempt :=
  let usdt_balance := get_balance (ex_account ex) "USDT" in
  if (usdt_balance <? usdt_amount)%float then NotTried
  else
    match ex_price ex symbol with
    | None => NoQuote PriceFailure
    | Some current_price =>
        if (current_price =? 0)%float then NoQuote (Python ZeroDivisionError)
        else
          let quantity := round6 fmt (usdt_amount / current_price) in
          Asked quantity current_price (ex_order ex symbol "BUY" quantity)
    end.

(** The part of [_execute_sell_order] that deals with the exchange. *)
Definition sell_attempt (symbol : string) (usdt_amount : float) : attempt :=
  let base_asset := base_asset_of symbol in
  let balance := get_balance (ex_account ex) base_asset in
  if (balance <=? 0)%float then NotTried
  else
    match ex_price ex symbol with
    | None => NoQuote PriceFailure
    | Some current_price =>
        if (current_price =? 0)%float then NoQuote (Python ZeroDivisionError)
        else
          let max_sell_quantity := balance in
          let target_sell_quantity := (usdt_amount / current_price)%float in
          let sell_quantity := round6 fmt (py_min max_sell_quantity target_sell_quantity) in
          if (sell_quantity <=? 0)%float then NotTried
          else Asked sell_quantity current_price (ex_order ex symbol "SELL" sell_quantity)
    end.

(** What an order method does with the store once the exchange has
    answered: nothing, a log line of the failure, or the record of the
    trade; whatever the record raises goes to the log as well. *)
Definition book (prefix side symbol : string) (volume_of : float -> float -> float)
  (confidence : float) (reason : string) (a : attempt) (c : Clock) : M unit :=
  let on_error (cause : failure) :=
    _add_log (prefix ++ " " ++ symbol ++ ": " ++ describe fmt cause)%string "error"
      (at_error c) in
  match a with
  | NotTried => ret tt
  | NoQuote cause => on_error cause
  | Asked _ _ Broken => on_error OrderFailure
  | Asked quantity current_price outcome =>
      try_except
        (_record_trade
           (trade_of side symbol quantity current_price
              (volume_of quantity current_price) confidence reason outcome)
           c)
        (fun e => on_error (Python e))
  end.

Definition _execute_buy_order (symbol : string) (usdt_amount confidence : float)
  (reason : string) (c : Clock) : M unit :=
  book "买入订单错误" "BUY" symbol (fun _ _ => usdt_amount) confidence reason
    (buy_attempt symbol usdt_amount) c.

Definition _execute_sell_order (symbol : string) (usdt_amount confidence : float)
  (reason : string) (c : Clock) : M unit :=
  book "卖出订单错误" "SELL" symbol (fun quantity price => (quantity * price)%float)
    confidence reason (sell_attempt symbol usdt_amount) c.

End Orders.

(** [_update_system_status], called with keyword arguments *)
Definition _update_system_status (kwargs : dict) (w : World) : M unit :=
  update_state (status_event kwargs) w.

(** [run_hourly_strategy].  The steps 1 to 6 of the run are an argument,
    [describe] is [str(e)], and [at_call n] is the moment of the [n]-th
    call to the store the method makes outside those steps. *)
Definition run_start (singapore_time : string) (at_call : nat -> World) : M unit :=
  _update_system_status [ ("last_strategy_run", VStr singapore_time) ] (at_call 0%nat) ;;
  _add_log "开始执行策略周期" "info" (at_call 1%nat).

Definition run_finish (at_call : nat -> World) : M unit :=
  self <- get_self ;;
  total_runs <- lift (count_after "total_runs" self) ;;
  _update_system_status [ ("total_runs", total_runs) ] (at_call 2%nat) ;;
  _add_log "策略执行周期完成" "success" (at_call 3%nat).

Definition run_failed (message : string) (at_call : nat -> World) : M unit :=
  _add_log ("策略执行错误: " ++ message)%string "error" (at_call 4%nat) ;;
  self <- get_self ;;
  error_count <- lift (count_after "error_count" self) ;;
  _update_system_status [ ("error_count", error_count) ] (at_call 5%nat).

Definition run_hourly_strategy (singapore_time : string) (steps : M unit)
  (describe : exn -> string) (at_call : nat -> World) : M unit :=
  try_except
    (run_start singapore_time at_call ;; steps ;; run_finish at_call)
    (fun e => run_failed (describe e) at_call).

End KronosMainStrategy.

(** What the store looks like after an attempt that left no trade: as
    before for an attempt that did not start, and with one line more in
    the strategy log, at level [error], for one that failed. *)
Definition no_trade_booked (fmt : Format) (prefix symbol : string) (c : Clock)
  (a : attempt) (s : StateManager) (r : result unit * StateManager * list effect)
  : Prop :=
  let failed_with (cause : failure) :=
    positions (store_after r) = positions s
    /\ trading_history (store_after r) = trading_history s
    /\ performance_stats (store_after r) = performance_stats s
    /\ strategy_logs (store_after r)
       = deque_append (max_history s) (strategy_logs s)
           (stamped (now_record (at_error c))
              (log_line (prefix ++ " " ++ symbol ++ ": " ++ describe fmt cause)%string "error")) in
  match a with
  | NotTried => r = (Ok tt, s, [])
  | NoQuote cause => failed_with cause
  | Asked _ _ Broken => failed_with OrderFailure
  | Asked _ _ _ => True
  end.

(** ** The adviser: [ChatGPTClient] ([src/trader/chatgpt_client.py]) *)

(** [needle in hay] for two strings *)
Fixpoint contains (needle hay : string) : bool :=
  String.prefix needle hay
  || match hay with
     | EmptyString => false
     | String _ rest => contains needle rest
     end.

(** [k in container] for a string [k]: a key of a dictionary, an element
    of a list, a part of a string; anything else cannot be searched. *)
Definition py_in (k : string) (container : value) : result bool :=
  match container with
  | VDict d => Ok (dict_mem k d)
  | VList l => Ok (existsb (fun x => eq_str (Some x) k) l)
  | VStr s => Ok (contains k s)
  | _ => Raise TypeError
  end.

Definition required_fields : list string :=
  [ "symbol"; "action"; "quantity_usdt"; "confidence" ].

(** [all(field in action for field in required_fields)] *)
Fixpoint all_in (fields : list string) (action : value) : result bool :=
  match fields with
  | [] => Ok true
  | field :: rest =>
      match py_in field action with
      | Ok true => all_in rest action
      | Ok false => Ok false
      | Raise e => Raise e
      end
  end.

(** [v in ['BUY', 'SELL', 'HOLD']] *)
Definition known_action (v : value) : bool :=
  existsb (eq_str (Some v)) [ "BUY"; "SELL"; "HOLD" ].

(** The loop of [_validate_trading_response]. *)
Fixpoint validate_actions (actions : list value) : result bool :=
  match actions with
  | [] => Ok true
  | action :: rest =>
      match all_in required_fields action with
      | Ok true =>
          match py_getitem action "action" with
          | Ok a => if negb (known_action a) then Ok false else validate_actions rest
          | Raise e => Raise e
          end
      | Ok false => Ok false
      | Raise e => Raise e
      end
  end.

Definition validate_body (response : value) : result bool :=
  match py_in "trading_actions" response with
  | Ok true =>
      match py_getitem response "trading_actions" with
      | Ok actions =>
          match py_iter actions with
          | Ok items => validate_actions items
          | Raise e => Raise e
          end
      | Raise e => Raise e
      end
  | Ok false => Ok false
  | Raise e => Raise e
  end.

(** [_validate_trading_response(response)]: [False] on any exception. *)
Definition _validate_trading_response (response : value) : bool :=
  match validate_body response with
  | Ok b => b
  | Raise _ => false
  end.

Definition _get_default_response : value :=
  VDict
    [ ("trading_actions",
       VList [ VDict [ ("symbol", VStr "BTCUSDT");
                       ("action", VStr "HOLD");
                       ("quantity_usdt", VFloat 0);
                       ("confidence", VFloat 0);
                       ("reason", VStr "ChatGPT分析失败，采用保守策略") ] ]);
      ("risk_management",
       VDict [ ("total_risk_exposure", VFloat 0.1);
               ("max_single_position", VFloat 100);
               ("stop_loss_percentage", VFloat 0.03) ]);
      ("market_outlook", VStr "由于分析系统异常，建议保持观望") ].

(** The character of a one-character string. *)
Definition char_of (s : string) : Ascii.ascii :=
  match s with
  | String c _ => c
  | EmptyString => Ascii.zero
  end.

(** [s.find(c)] and [s.rfind(c)] for a character: the index of the first
    and of the last occurrence, [-1] when there is none. *)
Fixpoint find_from (c : Ascii.ascii) (s : string) (i : Z) : Z :=
  match s with
  | EmptyString => (-1)%Z
  | String a rest => if Ascii.eqb a c then i else find_from c rest (i + 1)%Z
  end.

Definition py_find (c : Ascii.ascii) (s : string) : Z := find_from c s 0.

Fixpoint rfind_from (c : Ascii.ascii) (s : string) (i last : Z) : Z :=
  match s with
  | EmptyString => last
  | String a rest => rfind_from c rest (i + 1)%Z (if Ascii.eqb a c then i else last)
  end.

Definition py_rfind (c : Ascii.ascii) (s : string) : Z := rfind_from c s 0 (-1)%Z.

(** [s[start:stop]] for [0 <= start <= stop] *)
Definition py_slice (start stop : Z) (s : string) : string :=
  String.substring (Z.to_nat start) (Z.to_nat (stop - start)) s.

(** [_parse_trading_response(response)].  [json_loads] is [json.loads],
    [None] when it raises.  A response that is not a string has no
    [find], which the method answers with the default advice as it does
    any other exception. *)
Definition _parse_trading_response (json_loads : string -> option value)
  (response : value) : value :=
  match response with
  | VStr text =>
      let start_idx := py_find (char_of "{") text in
      let end_idx := (py_rfind (char_of "}") text + 1)%Z in
      if (0 <=? start_idx)%Z && (start_idx <? end_idx)%Z then
        match json_loads (py_slice start_idx end_idx text) with
        | Some trading_advice =>
            if _validate_trading_response trading_advice then trading_advice
            else _get_default_response
        | None => _get_default_response
        end
      else _get_default_response
  | _ => _get_default_response
  end.

(** What comes of one request to the API: the [content] of a reply with
    status 200, another status, a [RequestException], or a reply with
    status 200 that cannot be read, whose exception [_call_api] lets
    through. *)
Inductive api_outcome : Type :=
| Answer (content : value)
| BadStatus
| Unreachable
| Malformed (e : exn).

(** The fields of the client [_call_api] reads; [retry_delay] starts at 2
    and is only ever doubled. *)
Record ChatGPTClient : Type := mkClient {
  max_retries : nat;
  retry_delay : positive
}.

Definition new_client : ChatGPTClient := mkClient 3 2.

(** The loop of [_call_api] with [left] attempts to go; [answers n] is
    what comes of the request of attempt [n].  The result carries the
    delay the client is left with and the times slept, in seconds. *)
Fixpoint call_loop (answers : nat -> api_outcome) (retries left : nat)
  (delay : positive) (slept : list positive)
  : result value * positive * list positive :=
  match left with
  | O => (Ok VNone, delay, slept)
  | S left' =>
      let attempt := (retries - left)%nat in
      match answers attempt with
      | Answer content => (Ok content, delay, slept)
      | Malformed e => (Raise e, delay, slept)
      | _ =>
          if (attempt <? retries - 1)%nat
          then call_loop answers retries left' (delay * 2)%positive (slept ++ [delay])
          else call_loop answers retries left' delay slept
      end
  end.

Definition _call_api (answers : nat -> api_outcome) (self : ChatGPTClient)
  : result value * ChatGPTClient * list positive :=
  match call_loop answers (max_retries self) (max_retries self) (retry_delay self) [] with
  | (r, delay, slept) => (r, mkClient (max_retries self) delay, slept)
  end.

(** [analyze_trading_signals]: [prompt] is what [_build_trading_prompt]
    comes to, outside the [try]. *)
Definition analyze_trading_signals (json_loads : string -> option value)
  (prompt : result string) (answers : nat -> api_outcome) (self : ChatGPTClient)
  : result value * ChatGPTClient * list positive :=
  match prompt with
  | Raise e => (Raise e, self, [])
  | Ok _ =>
      match _call_api answers self with
      | (Ok response, self', slept) =>
          (Ok (if truthy response
               then _parse_trading_response json_loads response
               else _get_default_response),
           self', slept)
      | (Raise _, self', slept) => (Ok _get_default_response, self', slept)
      end
  end.

(** Whether a character occurs in a string. *)
Fixpoint has_char (c : Ascii.ascii) (s : string) : bool :=
  match s with
  | EmptyString => false
  | String a rest => Ascii.eqb a c || has_char c rest
  end.

(** An entry of [trading_actions] the validation lets through: a
    dictionary with the four required keys whose [action] is one of the
    three words. *)
Definition well_formed_action (item : value) : bool :=
  match item with
  | VDict a =>
      forallb (fun field => dict_mem field a) required_fields
      && match dict_get "action" a with
         | Some v => known_action v
         | None => false
         end
  | _ => false
  end.

(** An advice the validation lets through: a dictionary whose
    [trading_actions] can be iterated and holds well-formed entries
    only. *)
Definition well_formed_advice (response : value) : bool :=
  match response with
  | VDict d =>
      match dict_get "trading_actions" d with
      | Some actions =>
          match py_iter actions with
          | Ok items => forallb well_formed_action items
          | Raise _ => false
          end
      | None => false
      end
  | _ => false
  end.

(** An exchange where BTC is quoted, with an account of 250 USDT free,
    that fills every order; and one that turns every order down. *)
Definition exchange_filling : Exchange :=
  mkExchange account_btc_usdt quotes_btc
    (fun _ _ _ => Filled [ ("orderId", VInt 7) ]).

Definition exchange_rejecting : Exchange :=
  mkExchange account_btc_usdt quotes_btc (fun _ _ _ => Rejected).

Definition plain_format : Format :=
  mkFormat (fun x => x) (fun _ => "q") (fun _ => "p") (fun _ => "e").

Definition clock0 : Clock := mkClock world0 world0 world0.

(** An advice to sell, and a [json.loads] that reads it from one text
    only. *)
Definition advice_sell : value :=
  VDict [ ("trading_actions",
           VList [ VDict [ ("symbol", VStr "BTCUSDT"); ("action", VStr "SELL");
                           ("quantity_usdt", VFloat 100); ("confidence", VFloat 0.5) ] ]) ].

Definition loads_sell (text : string) : option value :=
  if String.eqb text "{sell}" then Some advice_sell else None.

(** An outcome after which [_call_api] goes on to the next attempt. *)
Definition retryable (o : api_outcome) : bool :=
  match o with
  | BadStatus | Unreachable => true
  | _ => false
  end.

(** The number of attempts in a row, from [attempt] on and among [left],
    that end in a retryable outcome. *)
Fixpoint failures_from (answers : nat -> api_outcome) (attempt left : nat) : nat :=
  match left with
  | O => O
  | S left' =>
      if retryable (answers attempt)
      then S (failures_from answers (S attempt) left')
      else O
  end.

(** A delay doubled [k] times, and the [k] waits that start at a delay
    and double each time. *)
Definition doubled (k : nat) (delay : positive) : positive :=
  Nat.iter k (fun d => (d * 2)%positive) delay.

Fixpoint backoff (delay : positive) (k : nat) : list positive :=
  match k with
  | O => []
  | S k' => delay :: backoff (delay * 2)%positive k'
  end.

(** What [_call_api] returns after [j] failed attempts out of [retries]:
    nothing when all have failed, else what attempt [j] came to. *)
Definition settled (answers : nat -> api_outcome) (retries j : nat) : result value :=
  if (j =? retries)%nat then Ok VNone
  else match answers j with
       | Answer content => Ok content
       | Malformed e => Raise e
       | _ => Ok VNone
       end.

(** An API that is down, and one that answers the third request. *)
Definition api_down (attempt : nat) : api_outcome := Unreachable.

Definition api_third_time (attempt : nat) : api_outcome :=
  if (attempt =? 2)%nat then Answer (VStr "Here it is: {sell} Good luck!") else BadStatus.

(** ** The schedule: [run_continuous_strategy]
       ([src/trader/main_strategy.py]) and [run_scheduler]
       ([src/update_predictions.py])

    A moment is a number of microseconds of UTC time. *)

Definition second_us : Z := 1000000.
Definition minute_us : Z := 60 * second_us.
Definition hour_us : Z := 60 * minute_us.

(** [t.replace(minute=m, second=s, microsecond=0)] *)
Definition replace_in_hour (m s : Z) (t : Z) : Z :=
  (t / hour_us * hour_us + m * minute_us + s * second_us)%Z.

(** [(now + timedelta(hours=1)).replace(minute=5, second=0, microsecond=0)] *)
Definition next_run (now : Z) : Z := replace_in_hour 5 0 (now + hour_us).

(** [(now + timedelta(hours=1)).replace(minute=0, second=5, microsecond=0)] *)
Definition next_run_time (now : Z) : Z := replace_in_hour 0 5 (now + hour_us).

(** [(next_run - now).total_seconds()], in microseconds *)
Definition wait_seconds (now : Z) : Z := (next_run now - now)%Z.

Definition sleep_seconds (now : Z) : Z := (next_run_time now - now)%Z.

(** ** The interface: [POST /api/update-state] and the [GET] routes
       ([src/trader/webui_server.py])

    The interface keeps a [StateManager] of its own and applies to it
    every event posted to it; the broadcast to the sockets catches what
    it raises.  The result is the status code of the reply. *)

Definition api_update_state (state_data : StateData) (w : World) : M Z :=
  try_except (update_state state_data w ;; ret 200%Z) (fun _ => ret 500%Z).

(** The store of the interface after a sequence of requests. *)
Fixpoint serve (requests : list (StateData * World)) (server : StateManager)
  : StateManager :=
  match requests with
  | [] => server
  | (state_data, w) :: rest =>
      serve rest (store_after (api_update_state state_data w server))
  end.

(** Two stores show the same figures: positions, predictions, performance
    and risk. *)
Definition agree (s1 s2 : StateManager) : Prop :=
  positions s1 = positions s2
  /\ predictions s1 = predictions s2
  /\ performance_stats s1 = performance_stats s2
  /\ risk_metrics s1 = risk_metrics s2.

(** Two methods that return the same and keep two stores in agreement. *)
Definition mirrored {A : Type} (m1 m2 : M A) : Prop :=
  forall s1 s2 : StateManager,
    agree s1 s2 ->
    returned (m1 s1) = returned (m2 s2)
    /\ agree (store_after (m1 s1)) (store_after (m2 s2)).

(** A later moment, at which the post is answered. *)
Definition world1 : World :=
  mkWorld "2025-01-01T00:00:05" "2025-01-01T00:00:06" (Responded 200).
(** * Properties *)

(** ** Dictionaries *)

Lemma dict_get_set_same (k : string) (v : value) (d : dict) :
  dict_get k (dict_set k v d) = Some v.
Proof.
  induction d as [|[k' v'] r IH]; simpl.
  - now rewrite String.eqb_refl.
  - destruct (String.eqb k' k) eqn:E; simpl.
    + now rewrite String.eqb_refl.
    + now rewrite E.
Qed.

Lemma dict_get_set_other (k k' : string) (v : value) (d : dict) :
  k <> k' -> dict_get k' (dict_set k v d) = dict_get k' d.
Proof.
  intros Hk. induction d as [|[k0 v0] r IH]; simpl.
  - apply String.eqb_neq in Hk. now rewrite Hk.
  - destruct (String.eqb k0 k) eqn:E; simpl.
    + apply String.eqb_eq in E. subst k0.
      apply String.eqb_neq in Hk. now rewrite Hk.
    + now rewrite IH.
Qed.

Lemma dict_set_nonempty (k : string) (v : value) (d : dict) :
  dict_set k v d <> [].
Proof.
  destruct d as [|[k' v'] r]; simpl; [discriminate|].
  destruct (String.eqb k' k); discriminate.
Qed.

(** ** Bounded logs *)

Lemma lastn_all (n : nat) (l : list value) :
  (List.length l <= n)%nat -> lastn n l = l.
Proof.
  intros H. unfold lastn.
  replace (List.length l - n)%nat with 0%nat by lia. reflexivity.
Qed.

Lemma lastn_length (n : nat) (l : list value) :
  List.length (lastn n l) = Nat.min n (List.length l).
Proof. unfold lastn. rewrite length_skipn. lia. Qed.

Lemma deque_append_full (n : nat) (q : list value) (x : value) :
  List.length q = n -> deque_append n q x = tl (q ++ [x]).
Proof.
  intros H. unfold deque_append. rewrite length_app. simpl.
  destruct (Nat.ltb_spec n (List.length q + 1)); [reflexivity | lia].
Qed.

Lemma deque_append_room (n : nat) (q : list value) (x : value) :
  (List.length q < n)%nat -> deque_append n q x = q ++ [x].
Proof.
  intros H. unfold deque_append. rewrite length_app. simpl.
  destruct (Nat.ltb_spec n (List.length q + 1)); [lia | reflexivity].
Qed.

Lemma deque_append_bounded (n : nat) (q : list value) (x : value) :
  (List.length q <= n)%nat -> (List.length (deque_append n q x) <= n)%nat.
Proof.
  intros H. destruct (Nat.eq_dec (List.length q) n) as [E|E].
  - rewrite deque_append_full by assumption.
    destruct q as [|h t]; simpl in *.
    + lia.
    + rewrite length_app. simpl. lia.
  - rewrite deque_append_room by lia. rewrite length_app. simpl. lia.
Qed.

Lemma fold_deque_append (n : nat) (xs q : list value) :
  (List.length q <= n)%nat ->
  fold_left (deque_append n) xs q
  = skipn (List.length q + List.length xs - n) (q ++ xs).
Proof.
  revert q. induction xs as [|x r IH]; intros q Hq; cbn [fold_left].
  - rewrite app_nil_r. replace (List.length q + List.length (@nil value) - n)%nat
      with 0%nat by (simpl; lia).
    reflexivity.
  - assert (Hb := deque_append_bounded n q x Hq).
    rewrite (IH _ Hb).
    destruct (Nat.eq_dec (List.length q) n) as [E|E].
    + rewrite deque_append_full in * by assumption.
      destruct q as [|h t]; cbn [List.length app tl] in *.
      * subst n.
        replace (0 + S (List.length r) - 0)%nat with (S (List.length r)) by lia.
        replace (0 + List.length r - 0)%nat with (List.length r) by lia.
        reflexivity.
      * rewrite length_app, <- app_assoc. cbn [List.length app].
        replace (S (List.length t) + S (List.length r) - n)%nat
          with (S (List.length r)) by lia.
        replace (List.length t + 1 + List.length r - n)%nat
          with (List.length r) by lia.
        reflexivity.
    + rewrite deque_append_room in * by lia.
      rewrite length_app, <- app_assoc. cbn [List.length app].
      f_equal. lia.
Qed.

Lemma deque_new_lastn (n : nat) (items : list value) :
  deque_new n items = lastn n items.
Proof.
  unfold deque_new, lastn. rewrite fold_deque_append by (simpl; lia).
  reflexivity.
Qed.

Lemma deque_new_bounded (n : nat) (items : list value) :
  (List.length (deque_new n items) <= n)%nat.
Proof. rewrite deque_new_lastn, lastn_length. lia. Qed.

(** ** Reasoning about methods *)

Lemma returned_bind {A B : Type} (m : M A) (k : A -> M B) (s : StateManager) :
  returned (bind m k s)
  = match returned (m s) with
    | Ok a => returned (k a (store_after (m s)))
    | Raise e => Raise e
    end.
Proof.
  unfold bind, returned, store_after.
  destruct (m s) as [[[a|e] s1] t1]; simpl; [|reflexivity].
  destruct (k a s1) as [[r s2] t2]; reflexivity.
Qed.

Lemma store_after_bind {A B : Type} (m : M A) (k : A -> M B) (s : StateManager) :
  store_after (bind m k s)
  = match returned (m s) with
    | Ok a => store_after (k a (store_after (m s)))
    | Raise _ => store_after (m s)
    end.
Proof.
  unfold bind, returned, store_after.
  destruct (m s) as [[[a|e] s1] t1]; simpl; [|reflexivity].
  destruct (k a s1) as [[r s2] t2]; reflexivity.
Qed.

Lemma trace_of_bind {A B : Type} (m : M A) (k : A -> M B) (s : StateManager) :
  trace_of (bind m k s)
  = trace_of (m s)
    ++ match returned (m s) with
       | Ok a => trace_of (k a (store_after (m s)))
       | Raise _ => []
       end.
Proof.
  unfold bind, returned, store_after, trace_of.
  destruct (m s) as [[[a|e] s1] t1]; simpl; [|now rewrite app_nil_r].
  destruct (k a s1) as [[r s2] t2]; reflexivity.
Qed.

Lemma returned_with_lock {A : Type} (m : M A) (s : StateManager) :
  returned (with_lock m s) = returned (m s).
Proof. unfold with_lock, returned. destruct (m s) as [[r s1] t1]; reflexivity. Qed.

Lemma store_after_with_lock {A : Type} (m : M A) (s : StateManager) :
  store_after (with_lock m s) = store_after (m s).
Proof. unfold with_lock, store_after. destruct (m s) as [[r s1] t1]; reflexivity. Qed.

Lemma trace_of_with_lock {A : Type} (m : M A) (s : StateManager) :
  trace_of (with_lock m s) = LockAcquire :: trace_of (m s) ++ [LockRelease].
Proof. unfold with_lock, trace_of. destruct (m s) as [[r s1] t1]; reflexivity. Qed.

Section Frames.
Variable R : StateManager -> StateManager -> Prop.
Hypothesis R_refl : forall s, R s s.
Hypothesis R_trans : forall a b c, R a b -> R b c -> R a c.

Lemma keeps_ret {A : Type} (a : A) : keeps R (ret a).
Proof. intros s. apply R_refl. Qed.

Lemma keeps_raise {A : Type} (e : exn) : keeps R (@raise A e).
Proof. intros s. apply R_refl. Qed.

Lemma keeps_lift {A : Type} (r : result A) : keeps R (lift r).
Proof. intros s. apply R_refl. Qed.

Lemma keeps_get_self : keeps R get_self.
Proof. intros s. apply R_refl. Qed.

Lemma keeps_emit (e : effect) : keeps R (emit e).
Proof. intros s. apply R_refl. Qed.

Lemma keeps_modify (f : StateManager -> StateManager) :
  (forall s, R s (f s)) -> keeps R (modify f).
Proof. intros H s. apply H. Qed.

Lemma keeps_bind {A B : Type} (m : M A) (k : A -> M B) :
  keeps R m -> (forall a, keeps R (k a)) -> keeps R (bind m k).
Proof.
  intros Hm Hk s. rewrite store_after_bind.
  destruct (returned (m s)) as [a|e].
  - eapply R_trans; [apply Hm | apply Hk].
  - apply Hm.
Qed.

Lemma keeps_with_lock {A : Type} (m : M A) : keeps R m -> keeps R (with_lock m).
Proof. intros Hm s. rewrite store_after_with_lock. apply Hm. Qed.
End Frames.

Lemma silent_ret {A : Type} (a : A) : silent (ret a).
Proof. intros s. reflexivity. Qed.

Lemma silent_raise {A : Type} (e : exn) : silent (@raise A e).
Proof. intros s. reflexivity. Qed.

Lemma silent_lift {A : Type} (r : result A) : silent (lift r).
Proof. intros s. reflexivity. Qed.

Lemma silent_get_self : silent get_self.
Proof. intros s. reflexivity. Qed.

Lemma silent_modify (f : StateManager -> StateManager) : silent (modify f).
Proof. intros s. reflexivity. Qed.

Lemma silent_bind {A B : Type} (m : M A) (k : A -> M B) :
  silent m -> (forall a, silent (k a)) -> silent (bind m k).
Proof.
  intros Hm Hk s. rewrite trace_of_bind, Hm.
  destruct (returned (m s)); [apply Hk | reflexivity].
Qed.

(** Breaks a goal about a method into its steps. *)
Ltac method_steps :=
  repeat first
    [ progress intros
    | match goal with
      | |- silent (bind _ _) => apply silent_bind
      | |- silent (ret _) => apply silent_ret
      | |- silent (raise _) => apply silent_raise
      | |- silent (lift _) => apply silent_lift
      | |- silent get_self => apply silent_get_self
      | |- silent (modify _) => apply silent_modify
      | |- silent (if ?c then _ else _) => destruct c
      | |- silent (match ?x with _ => _ end) => destruct x
      end ].

(** The same for a relation that the methods keep; [solve_modify] shows
    that an assignment to a field respects the relation. *)
Ltac frame_steps refl trans solve_modify :=
  repeat first
    [ progress intros
    | match goal with
      | |- keeps _ (bind _ _) => apply (keeps_bind _ trans)
      | |- keeps _ (ret _) => apply (keeps_ret _ refl)
      | |- keeps _ (raise _) => apply (keeps_raise _ refl)
      | |- keeps _ (lift _) => apply (keeps_lift _ refl)
      | |- keeps _ get_self => apply (keeps_get_self _ refl)
      | |- keeps _ (emit _) => apply (keeps_emit _ refl)
      | |- keeps _ (modify _) => apply keeps_modify; intros; solve_modify
      | |- keeps _ (if ?c then _ else _) => destruct c
      | |- keeps _ (match ?x with _ => _ end) => destruct x
      end ].

Ltac unfold_handlers :=
  unfold dispatch, _update_system_status, _update_positions, _update_predictions,
    _record_trade, _add_strategy_log, _update_performance, _update_risk_metrics,
    _calculate_risk_metrics, performance_incr, stamp_last_update.

Lemma silent_performance_incr (k : string) (v : value) : silent (performance_incr k v).
Proof. unfold performance_incr. method_steps. Qed.

Lemma silent_calculate_risk_metrics : silent _calculate_risk_metrics.
Proof. unfold _calculate_risk_metrics. method_steps. Qed.

Lemma silent_dispatch (state_data : StateData) (w : World) :
  silent (dispatch state_data w).
Proof.
  unfold dispatch, _update_system_status, _update_positions, _update_predictions,
    _record_trade, _add_strategy_log, _update_performance, _update_risk_metrics.
  method_steps;
    first [ apply silent_performance_incr | apply silent_calculate_risk_metrics ].
Qed.

Lemma silent_stamp_last_update (now : string) : silent (stamp_last_update now).
Proof. unfold stamp_last_update. method_steps. Qed.

(** ** What [update_state] does around the handler *)

Lemma same_but_status_refl (s : StateManager) : same_but_status s s.
Proof. destruct s; reflexivity. Qed.

Lemma same_but_status_trans (a b c : StateManager) :
  same_but_status a b -> same_but_status b c -> same_but_status a c.
Proof.
  unfold same_but_status. intros Hab Hbc. rewrite Hbc at 1. rewrite Hab.
  destruct a; reflexivity.
Qed.

Lemma same_but_status_set (v : value) (s : StateManager) :
  same_but_status s (set_system_status v s).
Proof. destruct s; reflexivity. Qed.

Lemma keeps_status_stamp_push (state_data : StateData) (w : World) :
  keeps same_but_status
    (stamp_last_update (now_update w) ;; _push_to_webui state_data (post w)).
Proof.
  unfold stamp_last_update, _push_to_webui.
  frame_steps same_but_status_refl same_but_status_trans
    ltac:(apply same_but_status_set).
Qed.

Lemma update_state_after_dispatch (state_data : StateData) (w : World) (s : StateManager) :
  same_but_status (store_after (dispatch state_data w s))
                  (store_after (update_state state_data w s)).
Proof.
  unfold update_state. rewrite store_after_with_lock, store_after_bind.
  destruct (returned (dispatch state_data w s)).
  - apply keeps_status_stamp_push.
  - apply same_but_status_refl.
Qed.

Lemma same_but_status_fields (s s' : StateManager) :
  same_but_status s s' ->
  max_history s' = max_history s /\ webui_url s' = webui_url s
  /\ positions s' = positions s /\ predictions s' = predictions s
  /\ trading_history s' = trading_history s /\ strategy_logs s' = strategy_logs s
  /\ performance_stats s' = performance_stats s /\ risk_metrics s' = risk_metrics s.
Proof. intros H. rewrite H. destruct s; simpl. repeat split. Qed.

(** ** The risk loop on a map of floats *)

Lemma usd_value_of_get (info : value) (u : float) :
  usd_value_of info = Some u ->
  exists i, info = VDict i /\ dict_get_default "usd_value" (VFloat 0) i = VFloat u.
Proof.
  destruct info as [| | | | |l|i]; simpl; try discriminate.
  intros H. exists i. split; [reflexivity|].
  unfold dict_get_default. destruct (dict_get "usd_value" i) as [[]|]; congruence.
Qed.

Lemma risk_loop_floats (data : dict) :
  forall (vs : list (string * float)) (t m r : float) (c : Z),
    usd_values data = Some vs ->
    risk_loop data (mkRiskAcc t (VFloat m) c (VFloat r))
    = Ok (mkRiskAcc
            (fold_left (fun a x => (a + snd x)%float) vs t)
            (VFloat (fold_left (fun m x => fmax m (snd x)) (non_reserve vs) m))
            (c + Z.of_nat (List.length (non_reserve vs)))
            (VFloat (last_reserve vs r))).
Proof.
  induction data as [|[asset info] rest IH]; intros vs t m r c Hvs; simpl in Hvs.
  - injection Hvs as <-. simpl. now rewrite Z.add_0_r.
  - destruct (usd_value_of info) as [u|] eqn:Hu; [|discriminate].
    destruct (usd_values rest) as [vs'|] eqn:Hrest; [|discriminate].
    injection Hvs as <-.
    destruct (usd_value_of_get _ _ Hu) as [i [-> Hget]].
    cbn [risk_loop risk_step total_value max_position position_count usdt_reserve].
    rewrite Hget. cbn [float_add as_float].
    unfold non_reserve, last_reserve, is_reserve. cbn [filter fold_left fst snd].
    destruct (String.eqb asset "USDT") eqn:E; cbn [negb].
    + rewrite (IH vs' _ m u c eq_refl). reflexivity.
    + cbn [py_max py_lt fold_left snd List.length].
      rewrite Nat2Z.inj_succ, <- Z.add_1_l, Z.add_assoc.
      unfold fmax at 2.
      destruct (m <? u)%float; rewrite (IH vs' _ _ r (c + 1)%Z eq_refl); reflexivity.
Qed.

Lemma usd_values_keys (data : dict) (vs : list (string * float)) :
  usd_values data = Some vs -> map fst vs = keys data.
Proof.
  revert vs. induction data as [|[asset info] rest IH]; intros vs H; simpl in H.
  - now injection H as <-.
  - destruct (usd_value_of info); [|discriminate].
    destruct (usd_values rest) as [vs'|]; [|discriminate].
    injection H as <-. simpl. f_equal. now apply IH.
Qed.

Lemma last_reserve_absent (vs : list (string * float)) (r : float) :
  ~ In "USDT" (map fst vs) -> last_reserve vs r = r.
Proof.
  revert r. induction vs as [|[k u] rest IH]; intros r H; [reflexivity|].
  unfold last_reserve, is_reserve in *. simpl in *.
  destruct (String.eqb k "USDT") eqn:E.
  - apply String.eqb_eq in E. tauto.
  - apply IH. tauto.
Qed.

Lemma find_reserve_absent (vs : list (string * float)) :
  ~ In "USDT" (map fst vs) -> find is_reserve vs = None.
Proof.
  induction vs as [|[k u] rest IH]; intros H; [reflexivity|].
  unfold is_reserve in *. simpl in *.
  destruct (String.eqb k "USDT") eqn:E.
  - apply String.eqb_eq in E. tauto.
  - apply IH. tauto.
Qed.

Lemma last_reserve_unique (vs : list (string * float)) :
  NoDup (map fst vs) -> last_reserve vs 0 = reserve_of vs.
Proof.
  unfold reserve_of. generalize 0%float as r.
  induction vs as [|[k u] rest IH]; intros r H; [reflexivity|].
  simpl in H. apply NoDup_cons_iff in H as [Hk Hrest].
  unfold last_reserve in *. cbn [fold_left find].
  replace (is_reserve (k, u)) with (String.eqb k "USDT") by reflexivity.
  destruct (String.eqb k "USDT") eqn:E.
  - apply String.eqb_eq in E. subst k.
    exact (last_reserve_absent rest u Hk).
  - apply (IH r Hrest).
Qed.

Lemma returned_get_risk_metrics (s : StateManager) :
  returned (get_risk_metrics s) = py_copy (risk_metrics s).
Proof. reflexivity. Qed.

Lemma dispatch_positions (data : dict) (w : World) :
  dispatch (positions_event data) w = _update_positions data.
Proof. reflexivity. Qed.

Lemma update_positions_store
  (s : StateManager) (data : dict) (vs : list (string * float)) (old : dict) :
  risk_metrics s = VDict old ->
  usd_values data = Some vs ->
  NoDup (keys data) ->
  store_after (_update_positions data s)
  = set_risk_metrics
      (VDict match data with
             | [] => old
             | _ :: _ => dict_update old (recomputed vs)
             end)
      (set_positions (VDict data) s).
Proof.
  intros Hold Hvs Hnd.
  assert (Hres : last_reserve vs 0 = reserve_of vs).
  { apply last_reserve_unique. now rewrite (usd_values_keys _ _ Hvs). }
  unfold _update_positions, _calculate_risk_metrics.
  rewrite store_after_bind. cbn [modify returned store_after fst snd].
  rewrite store_after_bind. cbn [get_self returned store_after fst snd].
  cbn [positions set_positions truthy].
  destruct data as [|item rest].
  - destruct s; simpl in *; subst; reflexivity.
  - cbn [negb]. unfold risk_acc0.
    rewrite store_after_bind. unfold lift at 1 2.
    cbn [returned store_after fst snd].
    rewrite (risk_loop_floats _ vs 0 0 0 0 Hvs).
    rewrite store_after_bind. unfold lift at 1 2.
    cbn [returned store_after fst snd].
    unfold total_exposure_of. cbn [total_value usdt_reserve float_sub as_float].
    rewrite Hres.
    assert (He : (if (0 <? fold_left (fun a x => a + snd x) vs 0)%float
                  then Ok ((fold_left (fun a x => a + snd x) vs 0
                            - reserve_of vs)
                           / fold_left (fun a x => a + snd x) vs 0)%float
                  else Ok 0%float)
                 = Ok (exposure_of (sum_usd vs) (reserve_of vs))).
    { unfold exposure_of, sum_usd.
      destruct (0 <? fold_left (fun a x => a + snd x) vs 0)%float; reflexivity. }
    rewrite He.
    rewrite store_after_bind. unfold lift at 1 2.
    cbn [returned store_after fst snd risk_metrics set_positions].
    rewrite Hold. cbn [py_update modify store_after fst snd].
    unfold risk_update_of, recomputed, largest_of, holdings_of, sum_usd.
    cbn [max_position position_count usdt_reserve total_value].
    reflexivity.
Qed.

Lemma recomputed_over (old : dict) (vs : list (string * float)) :
  let d := dict_update old (recomputed vs) in
  dict_get "total_value" d = Some (VFloat (sum_usd vs))
  /\ dict_get "usdt_reserve" d = Some (VFloat (reserve_of vs))
  /\ dict_get "total_exposure" d
     = Some (VFloat (exposure_of (sum_usd vs) (reserve_of vs)))
  /\ dict_get "max_single_position" d = Some (VFloat (largest_of vs))
  /\ dict_get "position_count" d = Some (VInt (holdings_of vs)).
Proof.
  unfold recomputed, dict_update. cbn [fold_left fst snd].
  repeat split;
    repeat first
      [ apply dict_get_set_same
      | rewrite dict_get_set_other by (intros E; discriminate E) ].
Qed.

(** ** C1: the risk metrics read after a Positions-replace event *)

(** C1, as the code has it.  After [update_state] has applied a
    Positions-replace event whose map holds float amounts, [get_positions]
    returns that map and [get_risk_metrics] returns: for an empty map, the
    risk metrics as they were before the event; for a non-empty map, the
    former dictionary updated with [total_value] = the sum of [usd_value]
    over all assets, [usdt_reserve] = the [usd_value] of USDT (0 if
    absent), [total_exposure] = (total - reserve) / total when total > 0
    and 0 otherwise, [max_single_position] = the largest of 0 and the
    [usd_value]s of the non-reserve assets, and [position_count] = the
    number of non-reserve assets. *)
Theorem C1_risk_metrics_after_positions
  (s : StateManager) (w : World) (data : dict)
  (vs : list (string * float)) (old : dict) :
  risk_metrics s = VDict old ->
  usd_values data = Some vs ->
  NoDup (keys data) ->
  let s' := store_after (update_state (positions_event data) w s) in
  let r := returned (get_risk_metrics s') in
  returned (get_positions s') = Ok (VDict data)
  /\ match data with
     | [] => r = Ok (VDict old)
     | _ :: _ =>
         r = Ok (VDict (dict_update old (recomputed vs)))
         /\ metric "total_value" r = Some (VFloat (sum_usd vs))
         /\ metric "usdt_reserve" r = Some (VFloat (reserve_of vs))
         /\ metric "total_exposure" r
            = Some (VFloat (exposure_of (sum_usd vs) (reserve_of vs)))
         /\ metric "max_single_position" r = Some (VFloat (largest_of vs))
         /\ metric "position_count" r = Some (VInt (holdings_of vs))
     end.
Proof.
  intros Hold Hvs Hnd s' r.
  assert (Hs' : same_but_status
                  (set_risk_metrics
                     (VDict match data with
                            | [] => old
                            | _ :: _ => dict_update old (recomputed vs)
                            end)
                     (set_positions (VDict data) s)) s').
  { rewrite <- (update_positions_store s data vs old Hold Hvs Hnd).
    rewrite <- (dispatch_positions data w).
    apply update_state_after_dispatch. }
  apply same_but_status_fields in Hs'.
  destruct Hs' as (_ & _ & Hpos & _ & _ & _ & _ & Hrisk).
  assert (Hr : r = Ok (VDict match data with
                             | [] => old
                             | _ :: _ => dict_update old (recomputed vs)
                             end)).
  { subst r. rewrite returned_get_risk_metrics, Hrisk. reflexivity. }
  split.
  - change (returned (get_positions s')) with (py_copy (positions s')).
    rewrite Hpos. reflexivity.
  - destruct data as [|item rest]; [exact Hr|].
    split; [exact Hr|]. rewrite Hr. cbn [metric].
    apply recomputed_over.
Qed.

Lemma C1_risk_metrics_after_positions_witness :
  returned (get_positions
              (store_after (update_state (positions_event btc_usdt) world0 new_store)))
  = Ok (VDict btc_usdt)
  /\ metric "position_count"
       (returned (get_risk_metrics
                    (store_after (update_state (positions_event btc_usdt) world0 new_store))))
     = Some (VInt 1).
Proof.
  assert (Hnd : NoDup (keys btc_usdt)).
  { repeat constructor; simpl; intuition discriminate. }
  destruct (C1_risk_metrics_after_positions new_store world0 btc_usdt
              [("BTC", 700%float); ("USDT", 300%float)] init_risk_metrics
              eq_refl eq_refl Hnd) as (Hp & _ & _ & _ & _ & _ & Hc).
  split; [exact Hp | exact Hc].
Defined.

(** C1 as stated fails.  (1) After the positions have been replaced by an
    empty map the store still reports the figures of the former map.
    (2) A non-reserve asset whose [usd_value] is 0 is counted as a
    position.  (3) With a non-reserve [usd_value] below 0 the largest
    position reported is 0, not that value. *)
Lemma C1_counterexample :
  (let r := returned (get_risk_metrics
              (store_after (update_state (positions_event []) world0 store_btc_usdt))) in
   metric "total_value" r = Some (VFloat 1000)
   /\ dict_get "total_value" (spec_recomputed []) = Some (VFloat 0)
   /\ r <> Ok (VDict (spec_recomputed [])))
  /\ (let r := returned (get_risk_metrics
                (store_after (update_state (positions_event doge_worthless) world0 new_store))) in
      metric "position_count" r = Some (VInt 1)
      /\ dict_get "position_count" (spec_recomputed [("DOGE", 0%float); ("USDT", 300%float)])
         = Some (VInt 0)
      /\ r <> Ok (VDict (spec_recomputed [("DOGE", 0%float); ("USDT", 300%float)])))
  /\ (let r := returned (get_risk_metrics
                (store_after (update_state (positions_event doge_negative) world0 new_store))) in
      metric "max_single_position" r = Some (VFloat 0)
      /\ dict_get "max_single_position"
           (spec_recomputed [("DOGE", (-5)%float); ("USDT", 300%float)])
         = Some (VFloat (-5))
      /\ r <> Ok (VDict (spec_recomputed [("DOGE", (-5)%float); ("USDT", 300%float)]))).
Proof.
  repeat split; try (vm_compute; reflexivity);
    intros H; vm_compute in H; discriminate H.
Qed.

(** ** C2: an event of an unknown kind *)

Lemma dispatch_unknown (state_data : StateData) (w : World) :
  recognized (sd_type state_data) = false -> dispatch state_data w = ret tt.
Proof.
  unfold recognized. intros H.
  repeat (apply orb_false_elim in H; destruct H as [H ?]).
  unfold dispatch.
  repeat match goal with E : eq_str _ _ = false |- _ => rewrite E; clear E end.
  reflexivity.
Qed.

Lemma push_trace (state_data : StateData) (outcome : post_outcome) (s : StateManager) :
  _push_to_webui state_data outcome s
  = (Ok tt, s,
     HttpPost (webui_url s ++ "/api/update-state") state_data :: push_log outcome).
Proof.
  unfold _push_to_webui, push_log, bind, get_self, emit, ret.
  destruct outcome as [status_code|]; [|reflexivity].
  destruct (status_code =? 200)%Z; reflexivity.
Qed.

(** C2, as the code has it.  For an event whose kind is none of the seven
    recognized ones, [update_state] returns normally, without an error;
    it changes nothing in the store but [system_status["last_update"]],
    which it stamps; and it forwards the event to the WebUI inside the
    critical section. *)
Theorem C2_unknown_kind_stamped_and_forwarded
  (s : StateManager) (state_data : StateData) (w : World) (status : dict) :
  recognized (sd_type state_data) = false ->
  system_status s = VDict status ->
  let r := update_state state_data w s in
  returned r = Ok tt
  /\ store_after r
     = set_system_status
         (VDict (dict_set "last_update" (VStr (now_update w)) status)) s
  /\ trace_of r
     = LockAcquire
       :: HttpPost (webui_url s ++ "/api/update-state") state_data
       :: push_log (post w) ++ [LockRelease].
Proof.
  intros Hkind Hstatus r. subst r.
  unfold update_state. rewrite (dispatch_unknown _ _ Hkind).
  unfold with_lock, bind at 1, ret. unfold bind, stamp_last_update.
  unfold bind, get_self, lift, modify. rewrite Hstatus. cbn [py_setitem].
  rewrite push_trace.
  cbn [returned store_after trace_of fst snd app webui_url set_system_status].
  repeat split.
Qed.

Lemma C2_unknown_kind_stamped_and_forwarded_witness :
  returned (update_state bogus_event world0 new_store) = Ok tt
  /\ positions (store_after (update_state bogus_event world0 new_store)) = VDict [].
Proof.
  destruct (C2_unknown_kind_stamped_and_forwarded new_store bogus_event world0
              init_system_status eq_refl eq_refl) as (Hr & Hs & _).
  split; [exact Hr | rewrite Hs; reflexivity].
Defined.

(** C2 as stated fails: the call with an unknown kind reports no error,
    it changes [last_update], and the event is posted to the WebUI. *)
Lemma C2_counterexample :
  recognized (sd_type bogus_event) = false
  /\ returned (update_state bogus_event world0 new_store) = Ok tt
  /\ metric "last_update" (Ok (system_status new_store)) = Some VNone
  /\ metric "last_update"
       (Ok (system_status (store_after (update_state bogus_event world0 new_store))))
     = Some (VStr (now_update world0))
  /\ store_after (update_state bogus_event world0 new_store) <> new_store
  /\ In (HttpPost (webui_url new_store ++ "/api/update-state") bogus_event)
        (trace_of (update_state bogus_event world0 new_store)).
Proof.
  repeat split; try (vm_compute; reflexivity).
  - intros H. vm_compute in H. discriminate H.
  - vm_compute. right. left. reflexivity.
Qed.

(** ** C3: where the HTTP request stands with respect to the lock *)

Lemma same_config_refl (s : StateManager) : same_config s s.
Proof. split; reflexivity. Qed.

Lemma same_config_trans (a b c : StateManager) :
  same_config a b -> same_config b c -> same_config a c.
Proof. unfold same_config. intros [? ?] [? ?]. split; congruence. Qed.

Lemma keeps_config_dispatch (state_data : StateData) (w : World) :
  keeps same_config (dispatch state_data w).
Proof.
  unfold_handlers.
  frame_steps same_config_refl same_config_trans
    ltac:(split; reflexivity).
Qed.

Lemma keeps_config_stamp (now : string) :
  keeps same_config (stamp_last_update now).
Proof.
  unfold_handlers.
  frame_steps same_config_refl same_config_trans
    ltac:(split; reflexivity).
Qed.

Lemma update_state_shape (state_data : StateData) (w : World) (s : StateManager) :
  let r := update_state state_data w s in
  match returned r with
  | Ok _ =>
      trace_of r
      = LockAcquire
        :: HttpPost (webui_url s ++ "/api/update-state") state_data
        :: push_log (post w) ++ [LockRelease]
  | Raise _ => trace_of r = [LockAcquire; LockRelease]
  end.
Proof.
  intros r. subst r. unfold update_state.
  rewrite returned_with_lock, trace_of_with_lock.
  rewrite returned_bind, trace_of_bind, silent_dispatch.
  destruct (returned (dispatch state_data w s)) as [[]|e] eqn:Hd; [|reflexivity].
  rewrite returned_bind, trace_of_bind, silent_stamp_last_update.
  set (s1 := store_after (dispatch state_data w s)).
  destruct (returned (stamp_last_update (now_update w) s1)) as [[]|e]; [|reflexivity].
  rewrite push_trace. cbn [returned trace_of fst snd app].
  destruct (keeps_config_stamp (now_update w) s1) as [_ ->]. subst s1.
  destruct (keeps_config_dispatch state_data w s) as [_ ->].
  reflexivity.
Qed.

Lemma posts_inside_push_log (outcome : post_outcome) :
  posts_when (Nat.ltb 0) 1 (push_log outcome ++ [LockRelease]) = true.
Proof.
  destruct outcome as [status_code|]; simpl; [|reflexivity].
  destruct (status_code =? 200)%Z; reflexivity.
Qed.

(** C3, as the code has it.  In every call of [update_state] the HTTP
    request to the WebUI is made inside the [with self.lock] block: when
    the handler and the stamp succeed, the trace of the call is
    acquire, post, (log), release, in this order, so the request is made
    while the lock is held and the lock is released only after it has
    returned; when the handler or the stamp raises, no request is made. *)
Theorem C3_post_inside_critical_section
  (s : StateManager) (state_data : StateData) (w : World) :
  let r := update_state state_data w s in
  posts_inside_lock (trace_of r) = true
  /\ match returned r with
     | Ok _ =>
         trace_of r
         = LockAcquire
           :: HttpPost (webui_url s ++ "/api/update-state") state_data
           :: push_log (post w) ++ [LockRelease]
     | Raise _ => trace_of r = [LockAcquire; LockRelease]
     end.
Proof.
  intros r. assert (H := update_state_shape state_data w s).
  cbv zeta in H. fold r in H. split; [|exact H].
  destruct (returned r); rewrite H; unfold posts_inside_lock.
  - cbn [posts_when Nat.ltb Nat.leb andb]. apply posts_inside_push_log.
  - reflexivity.
Qed.

(** C3 as stated fails: in the call below the request is made between the
    acquisition of the lock and its release. *)
Lemma C3_counterexample :
  trace_of (update_state (positions_event btc_usdt) world0 new_store)
  = [ LockAcquire;
      HttpPost "http://kronos-trader-webui:8000/api/update-state"
        (positions_event btc_usdt);
      LogDebug;
      LockRelease ]
  /\ posts_outside_lock
       (trace_of (update_state (positions_event btc_usdt) world0 new_store))
     = false.
Proof. split; vm_compute; reflexivity. Qed.

(** ** C4 and C5: the order of the steps in the sizing of a BUY *)

Lemma size_order_buy (self : Strategy) (scale : float) (a : TradeIntent) :
  action a = "BUY" ->
  size_order self scale a
  = if skipped self a then None
    else Some (BuyOrder (symbol a) (cap self (quantity_usdt a * scale))
                 (confidence a) (reason_of a)).
Proof.
  intros Ha. unfold size_order, skipped, is_buy. rewrite Ha.
  cbn [String.eqb Ascii.eqb Bool.eqb orb].
  destruct (quantity_usdt a =? 0)%float; [reflexivity|].
  destruct (quantity_usdt a <? min_trade_amount self)%float; reflexivity.
Qed.

Lemma place_orders_complete
  (self : Strategy) (scale : float) (actions : list TradeIntent)
  (a : TradeIntent) (o : Order) :
  In a actions -> size_order self scale a = Some o ->
  In o (place_orders self scale actions).
Proof.
  induction actions as [|b rest IH]; intros Hin Ho; [contradiction|].
  simpl. destruct Hin as [->|Hin].
  - rewrite Ho. now left.
  - destruct (size_order self scale b); [right|]; now apply IH.
Qed.

Lemma execute_trading_decisions_orders
  (self : Strategy) (usdt_balance : float) (actions : list TradeIntent)
  (a : TradeIntent) (scale : float) :
  In a actions ->
  scale_factor usdt_balance actions = Ok scale ->
  _execute_trading_decisions self usdt_balance actions
  = Ok (place_orders self scale actions).
Proof.
  intros Hin Hs. unfold _execute_trading_decisions. rewrite Hs.
  destruct actions; [contradiction | reflexivity].
Qed.

(** C4, as the code has it.  For a BUY action the loop first compares the
    requested amount, before any scaling, with [min_trade_amount] and
    skips the action exactly when that amount is zero or below the
    minimum; only then it multiplies the amount by the scale factor; and
    last it caps the product at [max_single_trade].  The order placed
    carries that capped product, whatever its size against the minimum. *)
Theorem C4_buy_minimum_checked_before_scaling
  (self : Strategy) (usdt_balance : float) (actions : list TradeIntent)
  (a : TradeIntent) (scale : float) :
  In a actions ->
  action a = "BUY" ->
  scale_factor usdt_balance actions = Ok scale ->
  let order := BuyOrder (symbol a) (cap self (quantity_usdt a * scale))
                 (confidence a) (reason_of a) in
  size_order self scale a = (if skipped self a then None else Some order)
  /\ exists orders,
       _execute_trading_decisions self usdt_balance actions = Ok orders
       /\ (skipped self a = false -> In order orders).
Proof.
  intros Hin Ha Hscale order.
  assert (H := size_order_buy self scale a Ha). split; [exact H|].
  exists (place_orders self scale actions). split.
  - exact (execute_trading_decisions_orders self usdt_balance actions a scale Hin Hscale).
  - intros Hs. rewrite Hs in H.
    exact (place_orders_complete self scale actions a order Hin H).
Qed.

Lemma C4_buy_minimum_checked_before_scaling_witness :
  size_order default_strategy 0.08962264150943397 (buy "BTCUSDT" 1000)
  = Some (BuyOrder "BTCUSDT" 89.622641509433976 0.75 "forecast up").
Proof.
  exact (proj1 (C4_buy_minimum_checked_before_scaling default_strategy 100
                  small_and_large (buy "BTCUSDT" 1000) 0.08962264150943397
                  (or_intror (or_introl eq_refl)) eq_refl eq_refl)).
Defined.

(** C4 as stated fails: the first action asks for 60, which is not below
    the minimum of 50; scaled it is about 5.38, which is; and the order
    is placed all the same, for 5.38. *)
Lemma C4_counterexample :
  let a := buy "ADAUSDT" 60 in
  let scale := 0.08962264150943397%float in
  scale_factor 100 small_and_large = Ok scale
  /\ (quantity_usdt a <? min_trade_amount default_strategy)%float = false
  /\ (quantity_usdt a * scale <? min_trade_amount default_strategy)%float = true
  /\ _execute_trading_decisions default_strategy 100 small_and_large
     = Ok [ BuyOrder "ADAUSDT" 5.3773584905660385 0.75 "forecast up";
            BuyOrder "BTCUSDT" 89.622641509433976 0.75 "forecast up" ].
Proof. repeat split; vm_compute; reflexivity. Qed.

Lemma float_nonpositive_below_positive (b t : float) :
  (b <=? 0)%float = true -> (0 <? t)%float = true -> (b <? t)%float = true.
Proof.
  rewrite leb_spec, !ltb_spec.
  change (Prim2SF 0) with (S754_zero false).
  destruct (Prim2SF b) as [[]|[]| |[] m e], (Prim2SF t) as [[]|[]| |[] m' e'];
    cbn; congruence.
Qed.

Lemma float_positive_not_zero (t : float) :
  (0 <? t)%float = true -> (t =? 0)%float = false.
Proof.
  rewrite ltb_spec, eqb_spec.
  change (Prim2SF 0) with (S754_zero false).
  destruct (Prim2SF t) as [[]|[]| |[] m e]; cbn; congruence.
Qed.

(** C5, as the code has it.  With a balance that is zero or negative and
    a positive total of purchases, the scale factor is
    [usdt_balance / total * 0.95], with no floor applied to it; a BUY
    action is skipped only when its requested amount is zero or below
    [min_trade_amount], and every other BUY action is placed, for the
    requested amount times that factor (capped at [max_single_trade]). *)
Theorem C5_no_floor_on_scale
  (self : Strategy) (usdt_balance : float) (actions : list TradeIntent)
  (a : TradeIntent) :
  (usdt_balance <=? 0)%float = true ->
  (0 <? total_buy_amount actions)%float = true ->
  In a actions ->
  action a = "BUY" ->
  let scale := (usdt_balance / total_buy_amount actions * 0.95)%float in
  let order := BuyOrder (symbol a) (cap self (quantity_usdt a * scale))
                 (confidence a) (reason_of a) in
  scale_factor usdt_balance actions = Ok scale
  /\ size_order self scale a = (if skipped self a then None else Some order)
  /\ exists orders,
       _execute_trading_decisions self usdt_balance actions = Ok orders
       /\ (skipped self a = false -> In order orders).
Proof.
  intros Hb Ht Hin Ha scale order.
  assert (Hs : scale_factor usdt_balance actions = Ok scale).
  { unfold scale_factor.
    rewrite (float_nonpositive_below_positive _ _ Hb Ht).
    now rewrite (float_positive_not_zero _ Ht). }
  assert (H := size_order_buy self scale a Ha).
  split; [exact Hs|]. split; [exact H|].
  exists (place_orders self scale actions). split.
  - exact (execute_trading_decisions_orders self usdt_balance actions a scale Hin Hs).
  - intros Hk. rewrite Hk in H.
    exact (place_orders_complete self scale actions a order Hin H).
Qed.

Lemma C5_no_floor_on_scale_witness :
  scale_factor (-10) [buy "BTCUSDT" 100] = Ok (-10 / 100 * 0.95)%float.
Proof.
  exact (proj1 (C5_no_floor_on_scale default_strategy (-10) [buy "BTCUSDT" 100]
                  (buy "BTCUSDT" 100) eq_refl eq_refl (or_introl eq_refl) eq_refl)).
Defined.

(** C5 as stated fails.  With a balance of 0 and one purchase of 100 the
    scale factor is 0 and the BUY order is placed, for an amount of 0.
    With a balance of -10 the scale factor is negative, -0.095, and the
    BUY order is placed for -9.5. *)
Lemma C5_counterexample :
  (total_buy_amount [buy "BTCUSDT" 100] = 100%float
   /\ scale_factor 0 [buy "BTCUSDT" 100] = Ok 0%float
   /\ _execute_trading_decisions default_strategy 0 [buy "BTCUSDT" 100]
      = Ok [ BuyOrder "BTCUSDT" 0 0.75 "forecast up" ])
  /\ (scale_factor (-10) [buy "BTCUSDT" 100] = Ok (-0.095)%float
      /\ _execute_trading_decisions default_strategy (-10) [buy "BTCUSDT" 100]
         = Ok [ BuyOrder "BTCUSDT" (-9.5) 0.75 "forecast up" ]).
Proof. repeat split; vm_compute; reflexivity. Qed.

(** ** C6: [load_state] on a document it cannot apply *)

(** C6, as the code has it.  [load_state] does nothing when there is no
    file.  A file that is not JSON, or whose document is not an object,
    makes it raise before it has assigned anything: the store is
    unchanged.  For a document that is an object it assigns
    [system_status], [positions], [predictions], [performance_stats] and
    [risk_metrics] from the document (or their defaults) first, and only
    then builds the two logs: when [trading_history] or [strategy_logs]
    cannot be iterated over it raises [TypeError] with those five fields
    (and, for [strategy_logs], the trade log too) already replaced. *)
Theorem C6_load_state_field_by_field (s : StateManager) (f : file) :
  let r := load_state f s in
  let s' := store_after r in
  match f with
  | NoFile => returned r = Ok tt /\ s' = s
  | NotJSON => returned r = Raise JSONDecodeError /\ s' = s
  | Document (VDict d) =>
      system_status s' = dict_get_default "system_status" (system_status s) d
      /\ positions s' = dict_get_default "positions" (VDict []) d
      /\ predictions s' = dict_get_default "predictions" (VDict []) d
      /\ performance_stats s'
         = dict_get_default "performance_stats" (performance_stats s) d
      /\ risk_metrics s' = dict_get_default "risk_metrics" (risk_metrics s) d
      /\ match py_iter (dict_get_default "trading_history" (VList []) d) with
         | Raise e =>
             returned r = Raise e
             /\ trading_history s' = trading_history s
             /\ strategy_logs s' = strategy_logs s
         | Ok history =>
             trading_history s' = deque_new (max_history s) history
             /\ match py_iter (dict_get_default "strategy_logs" (VList []) d) with
                | Raise e => returned r = Raise e /\ strategy_logs s' = strategy_logs s
                | Ok logs =>
                    returned r = Ok tt
                    /\ strategy_logs s' = deque_new (max_history s) logs
                end
         end
  | Document _ => returned r = Raise AttributeError /\ s' = s
  end.
Proof.
  intros r s'. subst s' r.
  destruct f as [| |doc]; [split; reflexivity | split; reflexivity |].
  destruct doc as [|b|z|x|t|l|d]; try (split; reflexivity).
  unfold load_state, with_lock, load_document.
  unfold bind, modify, lift.
  destruct s as [n url st pos pred th sl perf risk].
  cbn [system_status positions predictions performance_stats risk_metrics
       trading_history strategy_logs max_history
       set_system_status set_positions set_predictions set_performance_stats
       set_risk_metrics set_trading_history set_strategy_logs].
  destruct (py_iter (dict_get_default "trading_history" (VList []) d)) as [history|e].
  - destruct (py_iter (dict_get_default "strategy_logs" (VList []) d)) as [logs|e];
      cbn; repeat split.
  - cbn. repeat split.
Qed.

(** C6 as stated fails: the document below cannot be applied, its
    [trading_history] being [null]; [load_state] raises, and the positions
    of the store have been replaced by those of the document. *)
Lemma C6_counterexample :
  returned (load_state (Document broken_document) new_store) = Raise TypeError
  /\ positions new_store = VDict []
  /\ positions (store_after (load_state (Document broken_document) new_store))
     = VDict btc_usdt
  /\ store_after (load_state (Document broken_document) new_store) <> new_store.
Proof.
  repeat split; try (vm_compute; reflexivity).
  intros H. vm_compute in H. discriminate H.
Qed.

(** ** C7: the two log accessors *)

Lemma newest_positive (limit : Z) (l : list value) :
  (0 < limit)%Z -> newest limit l = lastn (Z.to_nat limit) l.
Proof.
  intros H. unfold newest, slice_from, lastn.
  destruct (Z.eqb_spec limit 0) as [E|_]; [lia|].
  destruct (Z.ltb_spec (- limit) 0) as [_|E]; [|lia].
  f_equal. lia.
Qed.

(** C7, as the code has it.  With a positive [limit] both accessors
    return the newest [limit] entries of their log, in insertion order
    (the whole log when it is shorter); with [limit = 0] they return the
    whole log; called without [limit], [get_trading_history] returns the
    newest 50 entries and [get_strategy_logs] the newest 100. *)
Theorem C7_log_accessors (s : StateManager) (limit : Z) :
  (0 < limit)%Z ->
  returned (get_trading_history (Some limit) s)
  = Ok (lastn (Z.to_nat limit) (trading_history s))
  /\ returned (get_strategy_logs (Some limit) s)
     = Ok (lastn (Z.to_nat limit) (strategy_logs s))
  /\ returned (get_trading_history (Some 0%Z) s) = Ok (trading_history s)
  /\ returned (get_strategy_logs (Some 0%Z) s) = Ok (strategy_logs s)
  /\ returned (get_trading_history None s) = Ok (lastn 50 (trading_history s))
  /\ returned (get_strategy_logs None s) = Ok (lastn 100 (strategy_logs s)).
Proof.
  intros H.
  change (returned (get_trading_history (Some limit) s))
    with (Ok (newest limit (trading_history s))).
  change (returned (get_strategy_logs (Some limit) s))
    with (Ok (newest limit (strategy_logs s))).
  change (returned (get_trading_history None s))
    with (Ok (newest 50 (trading_history s))).
  change (returned (get_strategy_logs None s))
    with (Ok (newest 100 (strategy_logs s))).
  rewrite !(newest_positive limit) by assumption.
  rewrite (newest_positive 50), (newest_positive 100) by lia.
  repeat split.
Qed.

Lemma C7_log_accessors_witness :
  returned (get_trading_history (Some 2%Z) store_51_trades)
  = Ok (lastn 2 (trading_history store_51_trades)).
Proof.
  exact (proj1 (C7_log_accessors store_51_trades 2 eq_refl)).
Defined.

(** C7 as stated fails for a call without [limit]: on a store holding 51
    trade records [get_trading_history()] returns 50 of them, not the
    whole log. *)
Lemma C7_counterexample :
  List.length (trading_history store_51_trades) = 51%nat
  /\ returned_length (returned (get_trading_history None store_51_trades)) = 50%nat
  /\ returned (get_trading_history None store_51_trades)
     <> Ok (trading_history store_51_trades).
Proof.
  split; [vm_compute; reflexivity|]. split; [vm_compute; reflexivity|].
  intros H. apply (f_equal returned_length) in H. vm_compute in H. discriminate H.
Qed.

(** ** C8: the bound on the logs and the eviction of the oldest entry *)

Lemma bound_step_refl (s : StateManager) : bound_step s s.
Proof. split; [reflexivity | tauto]. Qed.

Lemma bound_step_trans (a b c : StateManager) :
  bound_step a b -> bound_step b c -> bound_step a c.
Proof. unfold bound_step. intros [? ?] [? ?]. split; [congruence | tauto]. Qed.

Ltac bound_step_modify :=
  idtac;
  match goal with
  | s : StateManager |- _ =>
      unfold bound_step, logs_bounded; destruct s; cbn;
      split; [reflexivity | intros [? ?]; split;
                            auto using deque_append_bounded, deque_new_bounded]
  end.

Lemma keeps_bound_dispatch (state_data : StateData) (w : World) :
  keeps bound_step (dispatch state_data w).
Proof.
  unfold_handlers.
  frame_steps bound_step_refl bound_step_trans bound_step_modify.
Qed.

Lemma bound_step_update_state (state_data : StateData) (w : World) (s : StateManager) :
  bound_step s (store_after (update_state state_data w s)).
Proof.
  assert (Hd := keeps_bound_dispatch state_data w s).
  assert (Hs := same_but_status_fields _ _ (update_state_after_dispatch state_data w s)).
  destruct Hs as (Hn & _ & _ & _ & Hth & Hsl & _ & _).
  destruct Hd as [Hn' Hb]. unfold bound_step, logs_bounded in *.
  rewrite Hn, Hth, Hsl. split; [exact Hn' | exact Hb].
Qed.

Lemma run_bounded (calls : list (StateData * World)) (s : StateManager) :
  bound_step s (run calls s).
Proof.
  revert s. induction calls as [|[state_data w] rest IH]; intros s; simpl.
  - apply bound_step_refl.
  - eapply bound_step_trans; [apply bound_step_update_state | apply IH].
Qed.

Lemma same_logs_refl (s : StateManager) : same_logs s s.
Proof. repeat split. Qed.

Lemma same_logs_trans (a b c : StateManager) :
  same_logs a b -> same_logs b c -> same_logs a c.
Proof. unfold same_logs. intros (? & ? & ?) (? & ? & ?). repeat split; congruence. Qed.

Lemma keeps_logs_performance_incr (k : string) (v : value) :
  keeps same_logs (performance_incr k v).
Proof.
  unfold performance_incr.
  frame_steps same_logs_refl same_logs_trans ltac:(repeat split).
Qed.

Lemma record_trade_logs (now : string) (trade_data : dict) (s : StateManager) :
  same_logs
    (set_trading_history
       (deque_append (max_history s) (trading_history s) (stamped now trade_data)) s)
    (store_after (_record_trade now trade_data s)).
Proof.
  unfold _record_trade. rewrite store_after_bind.
  cbn [modify returned store_after fst snd].
  generalize (set_trading_history
                (deque_append (max_history s) (trading_history s)
                   (stamped now trade_data)) s).
  change (keeps same_logs
    (performance_incr "total_trades" (VInt 1) ;;
     (if eq_str (dict_get "status" trade_data) "success"
      then performance_incr "successful_trades" (VInt 1)
      else performance_incr "failed_trades" (VInt 1)) ;;
     match dict_get "volume_usdt" trade_data with
     | Some volume => performance_incr "total_volume" volume
     | None => ret tt
     end)).
  frame_steps same_logs_refl same_logs_trans ltac:(repeat split);
    apply keeps_logs_performance_incr.
Qed.

Lemma update_state_trade_logs (data : dict) (w : World) (s : StateManager) :
  let s' := store_after (update_state (trade_event data) w s) in
  max_history s' = max_history s
  /\ trading_history s'
     = deque_append (max_history s) (trading_history s) (stamped (now_record w) data)
  /\ strategy_logs s' = strategy_logs s.
Proof.
  intros s'.
  assert (Hs := same_but_status_fields _ _
                  (update_state_after_dispatch (trade_event data) w s)).
  destruct Hs as (Hn & _ & _ & _ & Hth & Hsl & _ & _).
  change (dispatch (trade_event data) w) with (_record_trade (now_record w) data) in *.
  destruct (record_trade_logs (now_record w) data s) as (Hn' & Hth' & Hsl').
  subst s'. rewrite Hn, Hth, Hsl, Hn', Hth', Hsl'.
  destruct s; repeat split.
Qed.

Lemma update_state_log_logs (data : dict) (w : World) (s : StateManager) :
  let s' := store_after (update_state (log_event data) w s) in
  strategy_logs s'
  = deque_append (max_history s) (strategy_logs s) (stamped (now_record w) data).
Proof.
  intros s'.
  assert (Hs := same_but_status_fields _ _
                  (update_state_after_dispatch (log_event data) w s)).
  destruct Hs as (_ & _ & _ & _ & _ & Hsl & _ & _).
  subst s'. rewrite Hsl. destruct s; reflexivity.
Qed.

Lemma run_trades_history (trades : list (dict * World)) (s : StateManager) :
  max_history (run (trade_calls trades) s) = max_history s
  /\ trading_history (run (trade_calls trades) s)
     = fold_left (deque_append (max_history s)) (trade_records trades)
         (trading_history s).
Proof.
  revert s. induction trades as [|[data w] rest IH]; intros s; [split; reflexivity|].
  cbn [trade_calls trade_records map run fold_left fst snd].
  destruct (update_state_trade_logs data w s) as (Hn & Hth & _).
  destruct (IH (store_after (update_state (trade_event data) w s))) as [IHn IHth].
  fold (trade_calls rest). fold (trade_records rest).
  rewrite IHn, IHth, Hn, Hth. split; reflexivity.
Qed.

(** C8.  Whatever calls of [update_state] a fresh store of capacity [N]
    has received, each of its two logs holds at most [N] entries; a trade
    record or a log entry appended to a full log takes the place of the
    oldest entry, which is dropped; and after [N + k] trade records have
    been appended to a fresh store, [get_trading_history(0)] returns
    exactly [N] records, the records [k+1] to [N+k] in the order of their
    insertion. *)
Theorem C8_bounded_fifo_logs
  (N k : nat) (url : option string) (trades : list (dict * World)) :
  List.length trades = (N + k)%nat ->
  let s := run (trade_calls trades) (init N url) in
  returned (get_trading_history (Some 0%Z) s) = Ok (skipn k (trade_records trades))
  /\ returned_length (returned (get_trading_history (Some 0%Z) s)) = N
  /\ max_history (init N url) = N
  /\ max_history new_store = 1000%nat
  /\ (forall calls : list (StateData * World),
        max_history (run calls (init N url)) = N
        /\ logs_bounded (run calls (init N url)))
  /\ (forall (s0 : StateManager) (data : dict) (w : World),
        List.length (trading_history s0) = max_history s0 ->
        trading_history (store_after (update_state (trade_event data) w s0))
        = tl (trading_history s0 ++ [stamped (now_record w) data]))
  /\ (forall (s0 : StateManager) (data : dict) (w : World),
        List.length (strategy_logs s0) = max_history s0 ->
        strategy_logs (store_after (update_state (log_event data) w s0))
        = tl (strategy_logs s0 ++ [stamped (now_record w) data])).
Proof.
  intros Hlen s.
  assert (Hget : returned (get_trading_history (Some 0%Z) s)
                 = Ok (skipn k (trade_records trades))).
  { change (returned (get_trading_history (Some 0%Z) s)) with (Ok (trading_history s)).
    subst s. destruct (run_trades_history trades (init N url)) as [_ ->].
    cbn [max_history trading_history init].
    rewrite fold_deque_append by (simpl; lia).
    unfold trade_records at 1. rewrite length_map, Hlen. cbn [List.length app].
    do 2 f_equal. lia. }
  split; [exact Hget|]. split.
  { rewrite Hget. cbn [returned_length]. rewrite length_skipn.
    unfold trade_records. rewrite length_map, Hlen. lia. }
  split; [reflexivity|]. split; [reflexivity|]. split.
  { intros calls. destruct (run_bounded calls (init N url)) as [Hn Hb].
    split; [exact Hn|]. apply Hb. split; simpl; lia. }
  split.
  - intros s0 data w Hfull.
    destruct (update_state_trade_logs data w s0) as (_ & -> & _).
    now apply deque_append_full.
  - intros s0 data w Hfull. rewrite update_state_log_logs.
    now apply deque_append_full.
Qed.

Lemma C8_bounded_fifo_logs_witness :
  returned (get_trading_history (Some 0%Z)
              (run (trade_calls [ (sample_trade, world0);
                                  ([("status", VStr "failed")], world0);
                                  ([], world0) ])
                 (init 2 None)))
  = Ok [ VDict [("timestamp", VStr (now_record world0)); ("status", VStr "failed")];
         VDict [("timestamp", VStr (now_record world0))] ].
Proof.
  exact (proj1 (C8_bounded_fifo_logs 2 1 None
                  [ (sample_trade, world0);
                    ([("status", VStr "failed")], world0);
                    ([], world0) ] eq_refl)).
Defined.

(** ** C9: [save_state] then [load_state] into a fresh store *)

Lemma keeps_bound_load_state (f : file) : keeps bound_step (load_state f).
Proof.
  unfold load_state, load_document.
  destruct f as [| |doc].
  - apply (keeps_ret _ bound_step_refl).
  - apply keeps_with_lock. apply (keeps_raise _ bound_step_refl).
  - apply keeps_with_lock.
    frame_steps bound_step_refl bound_step_trans bound_step_modify.
Qed.

Lemma reachable_bounded (s : StateManager) : reachable s -> logs_bounded s.
Proof.
  induction 1 as [n url|s state_data w _ IH|s f _ IH].
  - split; simpl; lia.
  - now apply (bound_step_update_state state_data w s).
  - now apply (keeps_bound_load_state f s).
Qed.

Lemma load_saved_document
  (s : StateManager) (now : string) (n : nat) (url : option string) :
  (List.length (trading_history s) <= n)%nat ->
  (List.length (strategy_logs s) <= n)%nat ->
  let r := load_state (Document (document_of s now)) (init n url) in
  returned r = Ok tt
  /\ store_after r
     = mkStateManager n (webui_url (init n url))
         (system_status s) (positions s) (predictions s)
         (trading_history s) (strategy_logs s)
         (performance_stats s) (risk_metrics s).
Proof.
  intros Hth Hsl r. subst r.
  unfold load_state, document_of, with_lock, load_document.
  unfold bind, modify, lift.
  cbn [dict_get_default dict_get String.eqb Ascii.eqb Bool.eqb py_iter
       returned store_after fst snd].
  cbn [init max_history set_system_status set_positions set_predictions
       set_performance_stats set_risk_metrics set_trading_history
       set_strategy_logs system_status positions predictions trading_history
       strategy_logs performance_stats risk_metrics webui_url].
  rewrite !deque_new_lastn, !lastn_all by assumption.
  split; reflexivity.
Qed.

(** C9.  Let [s] be a store a process can hold, let [doc] be the document
    [save_state] writes for it, and let [doc] be loaded at once into a
    fresh store of the same capacity.  Then [load_state] succeeds and
    every accessor returns on the restored store what it returns on [s]:
    status (its [last_update] included), positions, predictions, trade
    history and strategy logs for every [limit], performance and risk
    metrics.  [saved_at] is read by no accessor. *)
Theorem C9_persist_then_restore
  (s : StateManager) (now : string) (url : option string) :
  reachable s ->
  let doc := document_of s now in
  let r := load_state (Document doc) (init (max_history s) url) in
  let s' := store_after r in
  trace_of (save_state now s) = [LockAcquire; FileWrite doc; LockRelease]
  /\ returned r = Ok tt
  /\ returned (get_system_status s') = returned (get_system_status s)
  /\ returned (get_positions s') = returned (get_positions s)
  /\ returned (get_predictions s') = returned (get_predictions s)
  /\ (forall limit,
        returned (get_trading_history limit s') = returned (get_trading_history limit s))
  /\ (forall limit,
        returned (get_strategy_logs limit s') = returned (get_strategy_logs limit s))
  /\ returned (get_performance_stats s') = returned (get_performance_stats s)
  /\ returned (get_risk_metrics s') = returned (get_risk_metrics s).
Proof.
  intros Hreach doc r s'.
  destruct (reachable_bounded s Hreach) as [Hth Hsl].
  destruct (load_saved_document s now (max_history s) url Hth Hsl) as [Hr Hs'].
  fold doc in Hr, Hs'. fold r in Hr, Hs'. fold s' in Hs'.
  rewrite Hs'. split; [reflexivity|]. split; [exact Hr|].
  repeat split.
Qed.

Lemma C9_persist_then_restore_witness :
  returned (get_risk_metrics
              (store_after
                 (load_state (Document (document_of store_btc_usdt "2025-01-02T00:00:00"))
                    (init (max_history store_btc_usdt) None))))
  = returned (get_risk_metrics store_btc_usdt).
Proof.
  exact (proj2 (proj2 (proj2 (proj2 (proj2 (proj2 (proj2 (proj2
           (C9_persist_then_restore store_btc_usdt "2025-01-02T00:00:00" None
              (reach_update_state new_store (positions_event btc_usdt) world0
                 (reach_init 1000 None))))))))))).
Defined.

(** ** C10: the trade counters *)

Lemma counter_set_trading_history (k : string) (q : list value) (s : StateManager) :
  counter k (set_trading_history q s) = counter k s.
Proof. reflexivity. Qed.

Lemma performance_incr_other (k k' : string) (v : value) (s : StateManager) :
  k <> k' -> counter k' (store_after (performance_incr k v s)) = counter k' s.
Proof.
  intros Hk. unfold performance_incr, counter, bind, get_self, lift, modify.
  destruct (performance_stats s) as [| | | | | |d] eqn:Hp; cbn; try (now rewrite Hp).
  destruct (dict_get k d) as [old|]; cbn; [|now rewrite Hp].
  destruct (py_iadd old v) as [new|e]; cbn; [|now rewrite Hp].
  now rewrite (dict_get_set_other k k' new d Hk).
Qed.

Lemma performance_incr_one (k : string) (s : StateManager) (z : Z) :
  counter k s = Some z ->
  returned (performance_incr k (VInt 1) s) = Ok tt
  /\ counter k (store_after (performance_incr k (VInt 1) s)) = Some (z + 1)%Z.
Proof.
  unfold performance_incr, counter, bind, get_self, lift, modify.
  destruct (performance_stats s) as [| | | | | |d]; try discriminate.
  cbn. destruct (dict_get k d) as [[| |old| | | |]|]; try discriminate.
  intros H. injection H as <-. cbn.
  rewrite dict_get_set_same. split; reflexivity.
Qed.

Lemma record_trade_counters
  (now : string) (data : dict) (s : StateManager) (total ok failed : Z) :
  counter "total_trades" s = Some total ->
  counter "successful_trades" s = Some ok ->
  counter "failed_trades" s = Some failed ->
  let s' := store_after (_record_trade now data s) in
  counter "total_trades" s' = Some (total + 1)%Z
  /\ counter "successful_trades" s' = Some (if succeeded data then ok + 1 else ok)%Z
  /\ counter "failed_trades" s' = Some (if succeeded data then failed else failed + 1)%Z.
Proof.
  intros Ht Ha Hb s'. subst s'. unfold _record_trade.
  rewrite store_after_bind. cbn [modify returned store_after fst snd].
  set (s1 := set_trading_history _ s).
  assert (Ht1 : counter "total_trades" s1 = Some total) by exact Ht.
  assert (Ha1 : counter "successful_trades" s1 = Some ok) by exact Ha.
  assert (Hb1 : counter "failed_trades" s1 = Some failed) by exact Hb.
  clearbody s1. clear Ht Ha Hb.
  rewrite store_after_bind.
  destruct (performance_incr_one "total_trades" s1 total Ht1) as [-> Ht2].
  set (s2 := store_after (performance_incr "total_trades" (VInt 1) s1)) in *.
  assert (Ha2 : counter "successful_trades" s2 = Some ok).
  { subst s2. rewrite performance_incr_other by discriminate. exact Ha1. }
  assert (Hb2 : counter "failed_trades" s2 = Some failed).
  { subst s2. rewrite performance_incr_other by discriminate. exact Hb1. }
  clearbody s2. clear Ht1 Ha1 Hb1.
  rewrite store_after_bind. unfold succeeded.
  set (m3 := if eq_str (dict_get "status" data) "success"
             then performance_incr "successful_trades" (VInt 1)
             else performance_incr "failed_trades" (VInt 1)).
  assert (H3 : returned (m3 s2) = Ok tt
               /\ counter "total_trades" (store_after (m3 s2)) = Some (total + 1)%Z
               /\ counter "successful_trades" (store_after (m3 s2))
                  = Some (if eq_str (dict_get "status" data) "success"
                          then ok + 1 else ok)%Z
               /\ counter "failed_trades" (store_after (m3 s2))
                  = Some (if eq_str (dict_get "status" data) "success"
                          then failed else failed + 1)%Z).
  { subst m3. destruct (eq_str (dict_get "status" data) "success").
    - destruct (performance_incr_one "successful_trades" s2 ok Ha2) as [Hr Hc].
      repeat split; try assumption;
        rewrite performance_incr_other by discriminate; assumption.
    - destruct (performance_incr_one "failed_trades" s2 failed Hb2) as [Hr Hc].
      repeat split; try assumption;
        rewrite performance_incr_other by discriminate; assumption. }
  destruct H3 as (-> & Ht3 & Ha3 & Hb3).
  set (s3 := store_after (m3 s2)) in *. clearbody s3.
  destruct (dict_get "volume_usdt" data) as [volume|].
  - repeat split; rewrite performance_incr_other by discriminate; assumption.
  - cbn [ret store_after fst snd]. auto.
Qed.

Lemma update_state_trade_counters
  (s : StateManager) (data : dict) (w : World) (total ok failed : Z) :
  counter "total_trades" s = Some total ->
  counter "successful_trades" s = Some ok ->
  counter "failed_trades" s = Some failed ->
  let s' := store_after (update_state (trade_event data) w s) in
  counter "total_trades" s' = Some (total + 1)%Z
  /\ counter "successful_trades" s' = Some (if succeeded data then ok + 1 else ok)%Z
  /\ counter "failed_trades" s' = Some (if succeeded data then failed else failed + 1)%Z.
Proof.
  intros Ht Ha Hb s'.
  assert (Hs := same_but_status_fields _ _
                  (update_state_after_dispatch (trade_event data) w s)).
  destruct Hs as (_ & _ & _ & _ & _ & _ & Hp & _).
  change (dispatch (trade_event data) w) with (_record_trade (now_record w) data) in Hp.
  unfold counter. subst s'. rewrite Hp.
  exact (record_trade_counters (now_record w) data s total ok failed Ht Ha Hb).
Qed.

Lemma run_trade_counters (trades : list (dict * World)) :
  forall (s : StateManager) (total ok failed : Z),
    counter "total_trades" s = Some total ->
    counter "successful_trades" s = Some ok ->
    counter "failed_trades" s = Some failed ->
    let s' := run (trade_calls trades) s in
    counter "total_trades" s' = Some (total + Z.of_nat (List.length trades))%Z
    /\ counter "successful_trades" s' = Some (ok + count_succeeded trades)%Z
    /\ counter "failed_trades" s'
       = Some (failed + (Z.of_nat (List.length trades) - count_succeeded trades))%Z.
Proof.
  induction trades as [|[data w] rest IH]; intros s total ok failed Ht Ha Hb.
  - cbn. rewrite !Z.add_0_r. auto.
  - cbn [trade_calls map run fst snd]. fold (trade_calls rest).
    destruct (update_state_trade_counters s data w total ok failed Ht Ha Hb)
      as (Ht' & Ha' & Hb').
    destruct (IH _ _ _ _ Ht' Ha' Hb') as (IHt & IHa & IHb).
    cbv zeta. rewrite IHt, IHa, IHb.
    unfold count_succeeded. cbn [filter List.length fst].
    destruct (succeeded data); cbn [List.length];
      repeat split; f_equal; lia.
Qed.

(** C10.  A [trade_execution] event applied by [update_state] adds exactly
    1 to [total_trades], and exactly 1 to [successful_trades] when the
    record's [status] is the string ["success"], to [failed_trades]
    otherwise (a missing [status] included): the other of the two is left
    as it was.  After any sequence of such events on a fresh store,
    [total_trades] is the number of events and equals
    [successful_trades + failed_trades]. *)
Theorem C10_trade_counters :
  (forall (s : StateManager) (data : dict) (w : World) (total ok failed : Z),
      counter "total_trades" s = Some total ->
      counter "successful_trades" s = Some ok ->
      counter "failed_trades" s = Some failed ->
      let s' := store_after (update_state (trade_event data) w s) in
      counter "total_trades" s' = Some (total + 1)%Z
      /\ counter "successful_trades" s'
         = Some (if succeeded data then ok + 1 else ok)%Z
      /\ counter "failed_trades" s'
         = Some (if succeeded data then failed else failed + 1)%Z)
  /\ (forall (N : nat) (url : option string) (trades : list (dict * World)),
        let s := run (trade_calls trades) (init N url) in
        exists total ok failed : Z,
          counter "total_trades" s = Some total
          /\ counter "successful_trades" s = Some ok
          /\ counter "failed_trades" s = Some failed
          /\ total = Z.of_nat (List.length trades)
          /\ ok = count_succeeded trades
          /\ total = (ok + failed)%Z).
Proof.
  split; [exact update_state_trade_counters|].
  intros N url trades s.
  destruct (run_trade_counters trades (init N url) 0 0 0 eq_refl eq_refl eq_refl)
    as (Ht & Ha & Hb).
  exists (Z.of_nat (List.length trades)), (count_succeeded trades),
    (Z.of_nat (List.length trades) - count_succeeded trades)%Z.
  subst s. rewrite Ht, Ha, Hb. repeat split; f_equal; lia.
Qed.

Lemma C10_trade_counters_witness :
  counter "total_trades"
    (store_after (update_state (trade_event sample_trade) world0 new_store))
  = Some 1%Z
  /\ counter "successful_trades"
       (store_after (update_state (trade_event sample_trade) world0 new_store))
     = Some 1%Z
  /\ counter "failed_trades"
       (store_after (update_state (trade_event sample_trade) world0 new_store))
     = Some 0%Z.
Proof.
  exact (proj1 C10_trade_counters new_store sample_trade world0 0%Z 0%Z 0%Z
           eq_refl eq_refl eq_refl).
Defined.

(** ** The scenarios of the specification, evaluated *)

(** Two purchases of 600 and 500 with a balance of 800 are scaled by
    [800 / 1100 * 0.95] and placed in their order. *)
Example sizing_pro_rata :
  _execute_trading_decisions default_strategy 800 [intent "BUY" 600; intent "BUY" 500]
  = Ok [ BuyOrder "BTCUSDT" 414.54545454545456 0.75 default_reason;
         BuyOrder "BTCUSDT" 345.45454545454544 0.75 default_reason ].
Proof. vm_compute. reflexivity. Qed.

(** A HOLD places no order, a sale of 40 is below the minimum of 50, and a
    single purchase of 700 with a balance of 1000 is capped at 500. *)
Example sizing_hold_small_sell_and_cap :
  _execute_trading_decisions default_strategy 1000
    [intent "HOLD" 0; intent "SELL" 40; intent "BUY" 700]
  = Ok [ BuyOrder "BTCUSDT" 500 0.75 default_reason ].
Proof. vm_compute. reflexivity. Qed.

(** No action at all, or nothing but HOLD: no order, and no error. *)
Example sizing_nothing_to_do :
  _execute_trading_decisions default_strategy 1000 [] = Ok []
  /\ _execute_trading_decisions default_strategy 1000 [intent "HOLD" 0; intent "HOLD" 0]
     = Ok [].
Proof. split; vm_compute; reflexivity. Qed.

(** BTC worth 700 and USDT worth 300: total 1000, reserve 300, exposure
    0.7, largest position 700, one position. *)
Example risk_scenario :
  returned (get_risk_metrics store_btc_usdt)
  = Ok (VDict [ ("total_exposure", VFloat 0.7);
                ("max_single_position", VFloat 700);
                ("position_count", VInt 1);
                ("usdt_reserve", VFloat 300);
                ("total_value", VFloat 1000) ]).
Proof. vm_compute. reflexivity. Qed.

(** * Further properties *)

(** ** Lookups after an update *)

Lemma dict_get_app (k : string) (d d' : dict) :
  dict_get k (d ++ d')
  = match dict_get k d with
    | Some v => Some v
    | None => dict_get k d'
    end.
Proof.
  induction d as [|[k0 v0] r IH]; simpl; [reflexivity|].
  destruct (String.eqb k0 k); [reflexivity | exact IH].
Qed.

Lemma dict_get_update (k : string) (delta : dict) :
  forall d : dict,
    dict_get k (dict_update d delta)
    = match dict_get k (rev delta) with
      | Some v => Some v
      | None => dict_get k d
      end.
Proof.
  unfold dict_update.
  induction delta as [|[k0 v0] r IH]; intros d; cbn [fold_left rev fst snd].
  - reflexivity.
  - rewrite IH, dict_get_app. destruct (dict_get k (rev r)); [reflexivity|].
    cbn [dict_get]. destruct (String.eqb k0 k) eqn:E.
    + apply String.eqb_eq in E. subst k0. apply dict_get_set_same.
    + apply String.eqb_neq in E. now apply dict_get_set_other.
Qed.

Lemma dispatch_status (data : dict) (w : World) :
  dispatch (status_event data) w = _update_system_status data.
Proof. reflexivity. Qed.

(** ** The merge of a status delta *)

(** X1.  A [system_status] event on a store whose status is a dictionary
    never fails and touches nothing but the status.  The status it leaves
    is the former one merged with the payload: a key of the payload takes
    the payload's value, any other key keeps its value, and
    ["last_update"] is the time of the call, whatever the payload says
    about it. *)
Theorem X1_status_merge
  (s : StateManager) (data status : dict) (w : World) :
  system_status s = VDict status ->
  let r := update_state (status_event data) w s in
  let s' := store_after r in
  returned r = Ok tt
  /\ same_but_status s s'
  /\ exists status' : dict,
       returned (get_system_status s') = Ok (VDict status')
       /\ dict_get "last_update" status' = Some (VStr (now_update w))
       /\ forall k : string,
            k <> "last_update" ->
            dict_get k status'
            = match dict_get k (rev data) with
              | Some v => Some v
              | None => dict_get k status
              end.
Proof.
  intros Hst r s'. subst s' r.
  unfold update_state. rewrite dispatch_status.
  unfold with_lock, _update_system_status, stamp_last_update.
  unfold bind, get_self, lift, modify. rewrite Hst. cbn [py_update].
  cbn [system_status set_system_status py_setitem].
  rewrite push_trace.
  cbn [returned store_after fst snd].
  split; [reflexivity|]. split.
  { destruct s; reflexivity. }
  exists (dict_set "last_update" (VStr (now_update w)) (dict_update status data)).
  split; [reflexivity|]. split; [apply dict_get_set_same|].
  intros k Hk. rewrite dict_get_set_other by congruence.
  apply dict_get_update.
Qed.

Lemma X1_status_merge_witness :
  returned (update_state
              (status_event [("is_running", VBool true); ("last_update", VStr "never")])
              world0 new_store)
  = Ok tt.
Proof.
  exact (proj1 (X1_status_merge new_store
                  [("is_running", VBool true); ("last_update", VStr "never")]
                  init_system_status world0 eq_refl)).
Defined.

(** ** The record a log receives *)

Lemma lastn_one_snoc (l : list value) (x : value) : lastn 1 (l ++ [x]) = [x].
Proof.
  unfold lastn. rewrite length_app. cbn [List.length].
  replace (List.length l + 1 - 1)%nat with (List.length l) by lia.
  induction l as [|h t IH]; [reflexivity | exact IH].
Qed.

Lemma deque_append_newest (n : nat) (q : list value) (x : value) :
  (0 < n)%nat -> lastn 1 (deque_append n q x) = [x].
Proof.
  intros Hn. unfold deque_append.
  destruct (Nat.ltb_spec n (List.length (q ++ [x]))) as [H|H].
  - destruct q as [|h t].
    + simpl in H. lia.
    + cbn [app tl]. apply lastn_one_snoc.
  - apply lastn_one_snoc.
Qed.

Lemma stamped_lookup (now : string) (data : dict) :
  metric "timestamp" (Ok (stamped now data))
  = match dict_get "timestamp" (rev data) with
    | Some v => Some v
    | None => Some (VStr now)
    end
  /\ forall k : string,
       k <> "timestamp" ->
       metric k (Ok (stamped now data)) = dict_get k (rev data).
Proof.
  unfold stamped. cbn [metric]. split.
  - rewrite dict_get_update. reflexivity.
  - intros k Hk. rewrite dict_get_update.
    destruct (dict_get k (rev data)); [reflexivity|].
    cbn [dict_get]. destruct (String.eqb_spec "timestamp" k); congruence.
Qed.

Lemma dispatch_log (data : dict) (w : World) :
  dispatch (log_event data) w = _add_strategy_log (now_record w) data.
Proof. reflexivity. Qed.

(** X2.  On a store with a capacity of at least 1, the newest entry of
    the strategy log after a [strategy_log] event, and of the trade log
    after a [trade_execution] event, is the payload of the event under a
    ["timestamp"]: the payload's own ["timestamp"] when it has one, the
    time of the call otherwise; every other key reads as in the payload.
    A [strategy_log] event on a store whose status is a dictionary never
    fails and leaves the trade log as it was. *)
Theorem X2_newest_entry_is_the_stamped_payload
  (s : StateManager) (data : dict) (w : World) :
  (0 < max_history s)%nat ->
  let record := stamped (now_record w) data in
  let s_log := store_after (update_state (log_event data) w s) in
  let s_trade := store_after (update_state (trade_event data) w s) in
  returned (get_strategy_logs (Some 1%Z) s_log) = Ok [record]
  /\ returned (get_trading_history (Some 1%Z) s_trade) = Ok [record]
  /\ trading_history s_log = trading_history s
  /\ (is_dict (system_status s) = true ->
      returned (update_state (log_event data) w s) = Ok tt)
  /\ metric "timestamp" (Ok record)
     = match dict_get "timestamp" (rev data) with
       | Some v => Some v
       | None => Some (VStr (now_record w))
       end
  /\ forall k : string,
       k <> "timestamp" -> metric k (Ok record) = dict_get k (rev data).
Proof.
  intros Hn record s_log s_trade.
  split.
  { change (returned (get_strategy_logs (Some 1%Z) s_log))
      with (Ok (newest 1 (strategy_logs s_log))).
    rewrite newest_positive by lia. subst s_log.
    rewrite update_state_log_logs. f_equal.
    now apply deque_append_newest. }
  split.
  { change (returned (get_trading_history (Some 1%Z) s_trade))
      with (Ok (newest 1 (trading_history s_trade))).
    rewrite newest_positive by lia. subst s_trade.
    destruct (update_state_trade_logs data w s) as (_ & -> & _). f_equal.
    now apply deque_append_newest. }
  split.
  { subst s_log.
    destruct (same_but_status_fields _ _
                (update_state_after_dispatch (log_event data) w s))
      as (_ & _ & _ & _ & -> & _).
    destruct s; reflexivity. }
  split.
  { intros Hd. unfold update_state. rewrite dispatch_log.
    unfold with_lock, _add_strategy_log, stamp_last_update.
    unfold bind, get_self, lift, modify.
    cbn [system_status set_strategy_logs].
    destruct (system_status s); try discriminate Hd.
    cbn [py_setitem]. rewrite push_trace. reflexivity. }
  apply stamped_lookup.
Qed.

Lemma X2_newest_entry_is_the_stamped_payload_witness :
  returned (get_strategy_logs (Some 1%Z)
              (store_after
                 (update_state
                    (log_event [("message", VStr "cycle done"); ("level", VStr "success")])
                    world0 new_store)))
  = Ok [ stamped (now_record world0)
           [("message", VStr "cycle done"); ("level", VStr "success")] ].
Proof.
  assert (H : (0 < max_history new_store)%nat) by (vm_compute; lia).
  exact (proj1 (X2_newest_entry_is_the_stamped_payload new_store
                  [("message", VStr "cycle done"); ("level", VStr "success")]
                  world0 H)).
Defined.

(** ** The running total of the traded volume *)

Lemma counter_stat (k : string) (s : StateManager) (z : Z) :
  counter k s = Some z <-> stat k s = Some (VInt z).
Proof.
  unfold counter, stat. destruct (performance_stats s); try (split; discriminate).
  destruct (dict_get k d) as [[]|]; split; intros H; try discriminate H;
    injection H as <-; reflexivity.
Qed.

Lemma stat_incr_other (k k' : string) (v : value) (s : StateManager) :
  k <> k' -> stat k' (store_after (performance_incr k v s)) = stat k' s.
Proof.
  intros Hk. unfold performance_incr, stat, bind, get_self, lift, modify.
  destruct (performance_stats s) as [| | | | | |d] eqn:Hp; cbn; try (now rewrite Hp).
  destruct (dict_get k d) as [old|]; cbn; [|now rewrite Hp].
  destruct (py_iadd old v) as [new|e]; cbn; [|now rewrite Hp].
  now rewrite (dict_get_set_other k k' new d Hk).
Qed.

Lemma stat_incr_float (k : string) (s : StateManager) (v f : float) :
  stat k s = Some (VFloat v) ->
  returned (performance_incr k (VFloat f) s) = Ok tt
  /\ stat k (store_after (performance_incr k (VFloat f) s)) = Some (VFloat (v + f)).
Proof.
  unfold performance_incr, stat, bind, get_self, lift, modify.
  destruct (performance_stats s) as [| | | | | |d]; try discriminate.
  cbn. intros ->. cbn. rewrite dict_get_set_same. split; reflexivity.
Qed.

Lemma record_trade_volume
  (now : string) (data : dict) (s : StateManager) (total ok failed : Z) (v : float) :
  counter "total_trades" s = Some total ->
  counter "successful_trades" s = Some ok ->
  counter "failed_trades" s = Some failed ->
  stat "total_volume" s = Some (VFloat v) ->
  float_volume data <> None ->
  let r := _record_trade now data s in
  returned r = Ok tt
  /\ stat "total_volume" (store_after r)
     = Some (VFloat (volume_sum v [(data, world0)])).
Proof.
  intros Ht Ha Hb Hv Hf r. subst r. unfold _record_trade.
  rewrite returned_bind, store_after_bind.
  cbn [modify returned store_after fst snd].
  set (s1 := set_trading_history _ s).
  assert (Ht1 : counter "total_trades" s1 = Some total) by exact Ht.
  assert (Ha1 : counter "successful_trades" s1 = Some ok) by exact Ha.
  assert (Hb1 : counter "failed_trades" s1 = Some failed) by exact Hb.
  assert (Hv1 : stat "total_volume" s1 = Some (VFloat v)) by exact Hv.
  clearbody s1. clear Ht Ha Hb Hv.
  rewrite returned_bind, store_after_bind.
  destruct (performance_incr_one "total_trades" s1 total Ht1) as [-> _].
  set (s2 := store_after (performance_incr "total_trades" (VInt 1) s1)).
  assert (Ha2 : counter "successful_trades" s2 = Some ok).
  { subst s2. rewrite performance_incr_other by discriminate. exact Ha1. }
  assert (Hb2 : counter "failed_trades" s2 = Some failed).
  { subst s2. rewrite performance_incr_other by discriminate. exact Hb1. }
  assert (Hv2 : stat "total_volume" s2 = Some (VFloat v)).
  { subst s2. rewrite stat_incr_other by discriminate. exact Hv1. }
  clearbody s2. clear Ht1 Ha1 Hb1 Hv1.
  rewrite returned_bind, store_after_bind.
  set (m3 := if eq_str (dict_get "status" data) "success"
             then performance_incr "successful_trades" (VInt 1)
             else performance_incr "failed_trades" (VInt 1)).
  assert (H3 : returned (m3 s2) = Ok tt
               /\ stat "total_volume" (store_after (m3 s2)) = Some (VFloat v)).
  { subst m3. destruct (eq_str (dict_get "status" data) "success").
    - destruct (performance_incr_one "successful_trades" s2 ok Ha2) as [Hr _].
      split; [exact Hr|]. rewrite stat_incr_other by discriminate. exact Hv2.
    - destruct (performance_incr_one "failed_trades" s2 failed Hb2) as [Hr _].
      split; [exact Hr|]. rewrite stat_incr_other by discriminate. exact Hv2. }
  destruct H3 as [-> Hv3].
  set (s3 := store_after (m3 s2)) in *. clearbody s3.
  unfold float_volume in Hf. cbn [volume_sum].
  destruct (dict_get "volume_usdt" data) as [[| | |f| | |]|]; try congruence.
  - exact (stat_incr_float "total_volume" s3 v f Hv3).
  - split; [reflexivity | exact Hv3].
Qed.

Lemma same_status_refl (s : StateManager) : same_status s s.
Proof. reflexivity. Qed.

Lemma same_status_trans (a b c : StateManager) :
  same_status a b -> same_status b c -> same_status a c.
Proof. unfold same_status. congruence. Qed.

Lemma keeps_status_record_trade (now : string) (data : dict) :
  keeps same_status (_record_trade now data).
Proof.
  unfold _record_trade, performance_incr.
  frame_steps same_status_refl same_status_trans ltac:(reflexivity).
Qed.

Lemma dispatch_trade (data : dict) (w : World) :
  dispatch (trade_event data) w = _record_trade (now_record w) data.
Proof. reflexivity. Qed.

Lemma update_state_returns (state_data : StateData) (w : World) (s : StateManager) :
  returned (dispatch state_data w s) = Ok tt ->
  is_dict (system_status (store_after (dispatch state_data w s))) = true ->
  returned (update_state state_data w s) = Ok tt.
Proof.
  intros Hd Hs. unfold update_state.
  rewrite returned_with_lock, returned_bind, Hd.
  unfold stamp_last_update, bind, get_self, lift, modify.
  destruct (system_status (store_after (dispatch state_data w s)));
    try discriminate Hs.
  cbn [py_setitem]. rewrite push_trace. reflexivity.
Qed.

Lemma update_state_trade_volume
  (s : StateManager) (data : dict) (w : World) (total ok failed : Z) (v : float) :
  is_dict (system_status s) = true ->
  counter "total_trades" s = Some total ->
  counter "successful_trades" s = Some ok ->
  counter "failed_trades" s = Some failed ->
  stat "total_volume" s = Some (VFloat v) ->
  float_volume data <> None ->
  let r := update_state (trade_event data) w s in
  returned r = Ok tt
  /\ is_dict (system_status (store_after r)) = true
  /\ stat "total_volume" (store_after r)
     = Some (VFloat (volume_sum v [(data, w)])).
Proof.
  intros Hd Ht Ha Hb Hv Hf r. subst r.
  destruct (record_trade_volume (now_record w) data s total ok failed v
              Ht Ha Hb Hv Hf) as [Hr Hvol].
  assert (Hst := keeps_status_record_trade (now_record w) data s).
  unfold same_status in Hst.
  split.
  { apply update_state_returns; rewrite dispatch_trade; [exact Hr|].
    now rewrite Hst. }
  split.
  { unfold update_state. rewrite store_after_with_lock, store_after_bind.
    rewrite dispatch_trade, Hr.
    unfold stamp_last_update, bind, get_self, lift, modify. rewrite Hst.
    destruct (system_status s); try discriminate Hd.
    cbn [py_setitem]. rewrite push_trace. reflexivity. }
  destruct (same_but_status_fields _ _
              (update_state_after_dispatch (trade_event data) w s))
    as (_ & _ & _ & _ & _ & _ & Hp & _).
  rewrite dispatch_trade in Hp. unfold stat in *. rewrite Hp. exact Hvol.
Qed.

Lemma run_trades_volume (trades : list (dict * World)) :
  forall (s : StateManager) (total ok failed : Z) (v : float),
    is_dict (system_status s) = true ->
    counter "total_trades" s = Some total ->
    counter "successful_trades" s = Some ok ->
    counter "failed_trades" s = Some failed ->
    stat "total_volume" s = Some (VFloat v) ->
    Forall (fun tw => float_volume (fst tw) <> None) trades ->
    all_returned (trade_calls trades) s = true
    /\ stat "total_volume" (run (trade_calls trades) s)
       = Some (VFloat (volume_sum v trades)).
Proof.
  induction trades as [|[data w] rest IH];
    intros s total ok failed v Hd Ht Ha Hb Hv Hall.
  - split; [reflexivity | exact Hv].
  - apply Forall_cons_iff in Hall as [Hf Hrest]. cbn [fst] in Hf.
    cbn [trade_calls map run all_returned fst snd]. fold (trade_calls rest).
    destruct (update_state_trade_volume s data w total ok failed v
                Hd Ht Ha Hb Hv Hf) as (Hr & Hd' & Hv').
    destruct (update_state_trade_counters s data w total ok failed Ht Ha Hb)
      as (Ht' & Ha' & Hb').
    rewrite Hr.
    destruct (IH _ _ _ _ _ Hd' Ht' Ha' Hb' Hv' Hrest) as [IHr IHv].
    split; [exact IHr|]. rewrite IHv. f_equal. f_equal.
    cbn [volume_sum]. destruct (dict_get "volume_usdt" data) as [[]|]; reflexivity.
Qed.

(** X3.  When every trade of a sequence carries a float [volume_usdt] or
    none, the [trade_execution] events recording them on a fresh store
    all return without an error, and [total_volume] ends as the sum of
    those volumes, added to [0.0] one after the other in the order of the
    trades. *)
Theorem X3_total_volume_is_the_running_sum
  (N : nat) (url : option string) (trades : list (dict * World)) :
  Forall (fun tw => float_volume (fst tw) <> None) trades ->
  all_returned (trade_calls trades) (init N url) = true
  /\ metric "total_volume"
       (returned (get_performance_stats (run (trade_calls trades) (init N url))))
     = Some (VFloat (volume_sum 0 trades)).
Proof.
  intros Hall.
  destruct (run_trades_volume trades (init N url) 0 0 0 0
              eq_refl eq_refl eq_refl eq_refl eq_refl Hall) as [Hr Hv].
  split; [exact Hr|].
  change (returned (get_performance_stats (run (trade_calls trades) (init N url))))
    with (py_copy (performance_stats (run (trade_calls trades) (init N url)))).
  unfold stat in Hv.
  destruct (performance_stats (run (trade_calls trades) (init N url)));
    try discriminate Hv.
  exact Hv.
Qed.

Lemma X3_total_volume_is_the_running_sum_witness :
  metric "total_volume"
    (returned (get_performance_stats
       (run (trade_calls [ (sample_trade, world0); ([("status", VStr "failed")], world0) ])
          new_store)))
  = Some (VFloat 60).
Proof.
  assert (H : Forall (fun tw : dict * World => float_volume (fst tw) <> None)
                [ (sample_trade, world0); ([("status", VStr "failed")], world0) ]).
  { repeat constructor; discriminate. }
  exact (proj2 (X3_total_volume_is_the_running_sum 1000 None _ H)).
Defined.

(** ** A trade record whose volume cannot be added *)

Lemma stat_incr_raises (k : string) (s : StateManager) (v : float) (volume : value) (e : exn) :
  stat k s = Some (VFloat v) ->
  as_float volume = Raise e ->
  performance_incr k volume s = (Raise e, s, []).
Proof.
  unfold performance_incr, stat, bind, get_self, lift, modify.
  destruct (performance_stats s) as [| | | | | |d]; try discriminate.
  cbn. intros -> Hf. cbn. unfold float_add. rewrite Hf. reflexivity.
Qed.

Lemma record_trade_raises
  (now : string) (data : dict) (s : StateManager) (total ok failed : Z)
  (v : float) (volume : value) (e : exn) :
  counter "total_trades" s = Some total ->
  counter "successful_trades" s = Some ok ->
  counter "failed_trades" s = Some failed ->
  stat "total_volume" s = Some (VFloat v) ->
  dict_get "volume_usdt" data = Some volume ->
  as_float volume = Raise e ->
  returned (_record_trade now data s) = Raise e.
Proof.
  intros Ht Ha Hb Hv Hvol He. unfold _record_trade.
  rewrite returned_bind. cbn [modify returned store_after fst snd].
  set (s1 := set_trading_history _ s).
  assert (Ht1 : counter "total_trades" s1 = Some total) by exact Ht.
  assert (Ha1 : counter "successful_trades" s1 = Some ok) by exact Ha.
  assert (Hb1 : counter "failed_trades" s1 = Some failed) by exact Hb.
  assert (Hv1 : stat "total_volume" s1 = Some (VFloat v)) by exact Hv.
  clearbody s1. clear Ht Ha Hb Hv.
  rewrite returned_bind.
  destruct (performance_incr_one "total_trades" s1 total Ht1) as [-> _].
  set (s2 := store_after (performance_incr "total_trades" (VInt 1) s1)).
  assert (Ha2 : counter "successful_trades" s2 = Some ok).
  { subst s2. rewrite performance_incr_other by discriminate. exact Ha1. }
  assert (Hb2 : counter "failed_trades" s2 = Some failed).
  { subst s2. rewrite performance_incr_other by discriminate. exact Hb1. }
  assert (Hv2 : stat "total_volume" s2 = Some (VFloat v)).
  { subst s2. rewrite stat_incr_other by discriminate. exact Hv1. }
  clearbody s2. clear Ht1 Ha1 Hb1 Hv1.
  rewrite returned_bind.
  set (m3 := if eq_str (dict_get "status" data) "success"
             then performance_incr "successful_trades" (VInt 1)
             else performance_incr "failed_trades" (VInt 1)).
  assert (H3 : returned (m3 s2) = Ok tt
               /\ stat "total_volume" (store_after (m3 s2)) = Some (VFloat v)).
  { subst m3. destruct (eq_str (dict_get "status" data) "success").
    - destruct (performance_incr_one "successful_trades" s2 ok Ha2) as [Hr _].
      split; [exact Hr|]. rewrite stat_incr_other by discriminate. exact Hv2.
    - destruct (performance_incr_one "failed_trades" s2 failed Hb2) as [Hr _].
      split; [exact Hr|]. rewrite stat_incr_other by discriminate. exact Hv2. }
  destruct H3 as [-> Hv3].
  rewrite Hvol, (stat_incr_raises _ _ v volume e Hv3 He). reflexivity.
Qed.

(** X4.  A [trade_execution] event whose [volume_usdt] cannot be added to
    a float (a string, [null], a list, ...) makes [update_state] raise,
    and the event is left half applied: the record is in the trade log
    and the trade is counted, but [total_volume] and [last_update] are as
    before and nothing is sent to the WebUI. *)
Theorem X4_trade_with_bad_volume_half_applied
  (s : StateManager) (data : dict) (w : World) (total ok failed : Z)
  (v : float) (volume : value) (e : exn) :
  counter "total_trades" s = Some total ->
  counter "successful_trades" s = Some ok ->
  counter "failed_trades" s = Some failed ->
  stat "total_volume" s = Some (VFloat v) ->
  dict_get "volume_usdt" data = Some volume ->
  as_float volume = Raise e ->
  let r := update_state (trade_event data) w s in
  let s' := store_after r in
  returned r = Raise e
  /\ trace_of r = [LockAcquire; LockRelease]
  /\ trading_history s'
     = deque_append (max_history s) (trading_history s) (stamped (now_record w) data)
  /\ counter "total_trades" s' = Some (total + 1)%Z
  /\ stat "total_volume" s' = Some (VFloat v)
  /\ system_status s' = system_status s.
Proof.
  intros Ht Ha Hb Hv Hvol He r s'.
  assert (Hr : returned r = Raise e).
  { subst r. unfold update_state.
    rewrite returned_with_lock, returned_bind, dispatch_trade.
    now rewrite (record_trade_raises _ data s total ok failed v volume e). }
  assert (Hs' : s' = store_after (_record_trade (now_record w) data s)).
  { subst s' r. unfold update_state.
    rewrite store_after_with_lock, store_after_bind, dispatch_trade.
    now rewrite (record_trade_raises _ data s total ok failed v volume e). }
  split; [exact Hr|]. split.
  { assert (H := update_state_shape (trade_event data) w s).
    cbv zeta in H. fold r in H. now rewrite Hr in H. }
  split.
  { subst s'. destruct (update_state_trade_logs data w s) as (_ & H & _). exact H. }
  split.
  { subst s'.
    now destruct (update_state_trade_counters s data w total ok failed Ht Ha Hb). }
  split.
  - rewrite Hs'. unfold _record_trade.
    rewrite store_after_bind. cbn [modify returned store_after fst snd].
    set (s1 := set_trading_history _ s).
    assert (Hv1 : stat "total_volume" s1 = Some (VFloat v)) by exact Hv.
    assert (Ht1 : counter "total_trades" s1 = Some total) by exact Ht.
    clearbody s1.
    rewrite store_after_bind.
    destruct (performance_incr_one "total_trades" s1 total Ht1) as [-> _].
    rewrite store_after_bind.
    set (s2 := store_after (performance_incr "total_trades" (VInt 1) s1)).
    assert (Hv2 : stat "total_volume" s2 = Some (VFloat v)).
    { subst s2. rewrite stat_incr_other by discriminate. exact Hv1. }
    clearbody s2.
    set (m3 := if eq_str (dict_get "status" data) "success"
               then performance_incr "successful_trades" (VInt 1)
               else performance_incr "failed_trades" (VInt 1)).
    assert (Hv3 : stat "total_volume" (store_after (m3 s2)) = Some (VFloat v)).
    { subst m3. destruct (eq_str (dict_get "status" data) "success");
        rewrite stat_incr_other by discriminate; exact Hv2. }
    destruct (returned (m3 s2)); [|exact Hv3].
    rewrite Hvol, (stat_incr_raises _ _ v volume e Hv3 He). exact Hv3.
  - rewrite Hs'. apply keeps_status_record_trade.
Qed.

Lemma X4_trade_with_bad_volume_half_applied_witness :
  returned (update_state (trade_event [("volume_usdt", VStr "60")]) world0 new_store)
  = Raise TypeError.
Proof.
  exact (proj1 (X4_trade_with_bad_volume_half_applied new_store
                  [("volume_usdt", VStr "60")] world0 0 0 0 0 (VStr "60") TypeError
                  eq_refl eq_refl eq_refl eq_refl eq_refl eq_refl)).
Defined.

(** ** A negative [limit] *)

Lemma newest_negative (limit : Z) (l : list value) :
  (limit < 0)%Z -> newest limit l = skipn (Z.to_nat (- limit)) l.
Proof.
  intros H. unfold newest, slice_from.
  destruct (Z.eqb_spec limit 0) as [E|_]; [lia|].
  destruct (Z.ltb_spec (- limit) 0) as [E|_]; [lia|].
  destruct (Z.le_gt_cases (- limit) (Z.of_nat (List.length l))) as [Hle|Hgt].
  - rewrite Z.min_l by assumption. reflexivity.
  - rewrite Z.min_r by lia. rewrite Nat2Z.id.
    rewrite skipn_all. symmetry. apply skipn_all2. lia.
Qed.

(** X5.  Called with a negative [limit], each log accessor returns the log
    without its [-limit] oldest entries (nothing when the log is that
    short): the further below zero the limit, the fewer entries come
    back. *)
Theorem X5_negative_limit_drops_the_oldest (s : StateManager) (limit : Z) :
  (limit < 0)%Z ->
  returned (get_trading_history (Some limit) s)
  = Ok (skipn (Z.to_nat (- limit)) (trading_history s))
  /\ returned (get_strategy_logs (Some limit) s)
     = Ok (skipn (Z.to_nat (- limit)) (strategy_logs s))
  /\ returned_length (returned (get_trading_history (Some limit) s))
     = (List.length (trading_history s) - Z.to_nat (- limit))%nat.
Proof.
  intros H.
  change (returned (get_trading_history (Some limit) s))
    with (Ok (newest limit (trading_history s))).
  change (returned (get_strategy_logs (Some limit) s))
    with (Ok (newest limit (strategy_logs s))).
  rewrite !newest_negative by assumption.
  repeat split. cbn [returned_length]. apply length_skipn.
Qed.

Lemma X5_negative_limit_drops_the_oldest_witness :
  returned_length (returned (get_trading_history (Some (-50)%Z) store_51_trades))
  = (List.length (trading_history store_51_trades) - 50)%nat.
Proof.
  exact (proj2 (proj2 (X5_negative_limit_drops_the_oldest store_51_trades (-50) eq_refl))).
Defined.

(** ** What [load_state] makes of the two logs *)

Lemma dict_get_default_some (k : string) (default v : value) (d : dict) :
  dict_get k d = Some v -> dict_get_default k default d = v.
Proof. unfold dict_get_default. now intros ->. Qed.

(** X6.  Loading a document whose [trading_history] and [strategy_logs]
    are arrays always succeeds, whatever the store held; each log becomes
    the newest [max_history] entries of its array, the older ones being
    dropped, so the two logs are within the capacity afterwards; the
    capacity and the URL are those of the store. *)
Theorem X6_load_keeps_the_newest_entries
  (s : StateManager) (d : dict) (history logs : list value) :
  dict_get "trading_history" d = Some (VList history) ->
  dict_get "strategy_logs" d = Some (VList logs) ->
  let r := load_state (Document (VDict d)) s in
  let s' := store_after r in
  returned r = Ok tt
  /\ trading_history s' = lastn (max_history s) history
  /\ strategy_logs s' = lastn (max_history s) logs
  /\ logs_bounded s'
  /\ same_config s s'.
Proof.
  intros Hh Hl r s'. subst s' r.
  unfold load_state, with_lock, load_document, bind, modify, lift.
  rewrite (dict_get_default_some "trading_history" _ _ d Hh).
  rewrite (dict_get_default_some "strategy_logs" _ _ d Hl). cbn [py_iter].
  destruct s as [n url st pos pred th sl perf risk].
  cbn. rewrite !deque_new_lastn. unfold logs_bounded, same_config. cbn.
  rewrite !lastn_length. repeat split; lia.
Qed.

Lemma X6_load_keeps_the_newest_entries_witness :
  trading_history
    (store_after
       (load_state
          (Document (VDict [ ("trading_history", VList [VInt 1; VInt 2; VInt 3]);
                             ("strategy_logs", VList []) ]))
          (init 2 None)))
  = [VInt 2; VInt 3].
Proof.
  exact (proj1 (proj2 (X6_load_keeps_the_newest_entries (init 2 None)
                         [ ("trading_history", VList [VInt 1; VInt 2; VInt 3]);
                           ("strategy_logs", VList []) ]
                         [VInt 1; VInt 2; VInt 3] [] eq_refl eq_refl))).
Defined.

Lemma dict_get_default_idem (k : string) (x : value) (d : dict) :
  dict_get_default k (dict_get_default k x d) d = dict_get_default k x d.
Proof. unfold dict_get_default. destruct (dict_get k d); reflexivity. Qed.

(** X7.  Loading the same file a second time changes nothing more: the
    second [load_state] returns (or raises) as the first did and leaves
    the store as the first left it, also when the first one raised half
    way. *)
Theorem X7_load_state_twice (s : StateManager) (f : file) :
  let r1 := load_state f s in
  let r2 := load_state f (store_after r1) in
  returned r2 = returned r1 /\ store_after r2 = store_after r1.
Proof.
  intros r1 r2. subst r2 r1.
  destruct f as [| |doc]; [split; reflexivity | split; reflexivity |].
  destruct doc as [|b|z|x|t|l|d]; try (split; reflexivity).
  unfold load_state, with_lock, load_document, bind, modify, lift.
  destruct s as [n url st pos pred th sl perf risk].
  cbn [system_status positions predictions performance_stats risk_metrics
       trading_history strategy_logs max_history
       set_system_status set_positions set_predictions set_performance_stats
       set_risk_metrics set_trading_history set_strategy_logs].
  destruct (py_iter (dict_get_default "trading_history" (VList []) d)) as [history|e];
    [destruct (py_iter (dict_get_default "strategy_logs" (VList []) d)) as [logs|e]|];
    cbn; rewrite !dict_get_default_idem; split; reflexivity.
Qed.

(** ** A status that is not a dictionary *)

Lemma dispatch_status_stuck (state_data : StateData) (w : World) (s : StateManager) :
  is_dict (system_status s) = false ->
  system_status (store_after (dispatch state_data w s)) = system_status s.
Proof.
  intros Hd. unfold dispatch.
  destruct (eq_str (sd_type state_data) "system_status").
  - unfold _update_system_status, bind, get_self, lift, modify.
    destruct (system_status s) eqn:E; try discriminate Hd; cbn; exact E.
  - revert s Hd.
    enough (H : keeps same_status
                  (if eq_str (sd_type state_data) "positions"
                   then _update_positions (sd_payload state_data)
                   else if eq_str (sd_type state_data) "predictions"
                   then _update_predictions (sd_payload state_data)
                   else if eq_str (sd_type state_data) "trade_execution"
                   then _record_trade (now_record w) (sd_payload state_data)
                   else if eq_str (sd_type state_data) "strategy_log"
                   then _add_strategy_log (now_record w) (sd_payload state_data)
                   else if eq_str (sd_type state_data) "performance"
                   then _update_performance (sd_payload state_data)
                   else if eq_str (sd_type state_data) "risk_metrics"
                   then _update_risk_metrics (sd_payload state_data)
                   else ret tt)).
    { intros s _. apply H. }
    unfold_handlers.
    frame_steps same_status_refl same_status_trans ltac:(reflexivity).
Qed.

Lemma stamp_raises (now : string) (s : StateManager) :
  is_dict (system_status s) = false ->
  stamp_last_update now s = (Raise TypeError, s, []).
Proof.
  intros Hd. unfold stamp_last_update, bind, get_self, lift, modify.
  destruct (system_status s); try discriminate Hd; reflexivity.
Qed.

(** X8.  Once [system_status] holds something that is not a dictionary
    (a restored document can put a number or a string there, and
    [load_state] accepts it), no call of [update_state] succeeds any
    more: every call raises, sends nothing to the WebUI, and leaves
    [system_status] as it is, so that the same holds for the calls that
    follow. *)
Theorem X8_no_update_after_an_odd_status
  (s : StateManager) (state_data : StateData) (w : World) :
  is_dict (system_status s) = false ->
  let r := update_state state_data w s in
  (exists e : exn, returned r = Raise e)
  /\ trace_of r = [LockAcquire; LockRelease]
  /\ system_status (store_after r) = system_status s
  /\ forall calls : list (StateData * World),
       system_status (run calls s) = system_status s.
Proof.
  intros Hd r.
  assert (Hone : forall (sd : StateData) (w0 : World) (s0 : StateManager),
             is_dict (system_status s0) = false ->
             (exists e : exn, returned (update_state sd w0 s0) = Raise e)
             /\ system_status (store_after (update_state sd w0 s0)) = system_status s0).
  { intros sd w0 s0 H0.
    assert (Hk := dispatch_status_stuck sd w0 s0 H0).
    unfold update_state.
    rewrite returned_with_lock, store_after_with_lock, returned_bind, store_after_bind.
    destruct (returned (dispatch sd w0 s0)) as [[]|e].
    - unfold bind at 1 2.
      rewrite (stamp_raises (now_update w0) (store_after (dispatch sd w0 s0)))
        by (now rewrite Hk).
      split; [exists TypeError; reflexivity | exact Hk].
    - split; [exists e; reflexivity | exact Hk]. }
  destruct (Hone state_data w s Hd) as [[e He] Hs].
  split; [exists e; exact He|]. split.
  { assert (H := update_state_shape state_data w s).
    cbv zeta in H. fold r in H. unfold r in He. fold r in He.
    now rewrite He in H. }
  split; [exact Hs|].
  clear r e He Hs. intros calls. revert s Hd.
  induction calls as [|[sd w0] rest IH]; intros s Hd; [reflexivity|].
  cbn [run]. destruct (Hone sd w0 s Hd) as [_ Hs0].
  rewrite IH by (now rewrite Hs0). exact Hs0.
Qed.

Lemma X8_no_update_after_an_odd_status_witness :
  returned (load_state (Document odd_status_document) new_store) = Ok tt
  /\ trace_of (update_state (positions_event btc_usdt) world0 store_odd_status)
     = [LockAcquire; LockRelease].
Proof.
  split; [reflexivity|].
  exact (proj1 (proj2 (X8_no_update_after_an_odd_status store_odd_status
                         (positions_event btc_usdt) world0 eq_refl))).
Defined.

(** ** The fields an event can change *)

Lemma only_changes_refl (p pr th sl pf rk : bool) (s : StateManager) :
  only_changes p pr th sl pf rk s s.
Proof. unfold only_changes, same_config. repeat split. Qed.

Lemma only_changes_trans (p pr th sl pf rk : bool) (a b c : StateManager) :
  only_changes p pr th sl pf rk a b ->
  only_changes p pr th sl pf rk b c ->
  only_changes p pr th sl pf rk a c.
Proof.
  unfold only_changes, same_config.
  intros ([? ?] & ? & ? & ? & ? & ? & ?) ([? ?] & ? & ? & ? & ? & ? & ?).
  repeat split; try congruence; intros E;
    repeat match goal with H : _ = false -> _ |- _ => specialize (H E) end;
    congruence.
Qed.

Ltac only_changes_modify :=
  idtac;
  match goal with
  | s : StateManager |- _ =>
      unfold only_changes, same_config; destruct s; cbn;
      repeat split; intros; try discriminate; reflexivity
  end.

Ltac only_changes_steps :=
  unfold_handlers;
  match goal with
  | |- keeps (only_changes ?p ?pr ?th ?sl ?pf ?rk) _ =>
      frame_steps (only_changes_refl p pr th sl pf rk)
        (only_changes_trans p pr th sl pf rk) only_changes_modify
  end.

Lemma dispatch_only_changes (state_data : StateData) (w : World) :
  let t := sd_type state_data in
  keeps (only_changes (eq_str t "positions") (eq_str t "predictions")
           (eq_str t "trade_execution") (eq_str t "strategy_log")
           (eq_str t "trade_execution" || eq_str t "performance")
           (eq_str t "positions" || eq_str t "risk_metrics"))
    (dispatch state_data w).
Proof.
  intros t. subst t. unfold dispatch.
  destruct (eq_str (sd_type state_data) "system_status"); [only_changes_steps|].
  destruct (eq_str (sd_type state_data) "positions"); [only_changes_steps|].
  destruct (eq_str (sd_type state_data) "predictions"); [only_changes_steps|].
  destruct (eq_str (sd_type state_data) "trade_execution"); [only_changes_steps|].
  destruct (eq_str (sd_type state_data) "strategy_log"); [only_changes_steps|].
  destruct (eq_str (sd_type state_data) "performance"); [only_changes_steps|].
  destruct (eq_str (sd_type state_data) "risk_metrics"); only_changes_steps.
Qed.

(** X9.  Whatever the event and whether or not the call raises,
    [update_state] never changes the capacity or the URL of the store,
    and it changes the positions only for a [positions] event, the
    predictions only for a [predictions] event, the trade log only for a
    [trade_execution] event, the strategy log only for a [strategy_log]
    event, the performance figures only for a [trade_execution] or a
    [performance] event, and the risk metrics only for a [positions] or a
    [risk_metrics] event. *)
Theorem X9_an_event_changes_only_its_fields
  (s : StateManager) (state_data : StateData) (w : World) :
  let t := sd_type state_data in
  let s' := store_after (update_state state_data w s) in
  max_history s' = max_history s
  /\ webui_url s' = webui_url s
  /\ (eq_str t "positions" = false -> positions s' = positions s)
  /\ (eq_str t "predictions" = false -> predictions s' = predictions s)
  /\ (eq_str t "trade_execution" = false -> trading_history s' = trading_history s)
  /\ (eq_str t "strategy_log" = false -> strategy_logs s' = strategy_logs s)
  /\ (eq_str t "trade_execution" = false -> eq_str t "performance" = false ->
      performance_stats s' = performance_stats s)
  /\ (eq_str t "positions" = false -> eq_str t "risk_metrics" = false ->
      risk_metrics s' = risk_metrics s).
Proof.
  intros t s'.
  destruct (same_but_status_fields _ _ (update_state_after_dispatch state_data w s))
    as (Hn & Hu & Hp & Hpr & Hth & Hsl & Hpf & Hrk).
  fold s' in Hn, Hu, Hp, Hpr, Hth, Hsl, Hpf, Hrk.
  destruct (dispatch_only_changes state_data w s)
    as ([Dn Du] & Dp & Dpr & Dth & Dsl & Dpf & Drk).
  fold t in Dp, Dpr, Dth, Dsl, Dpf, Drk.
  rewrite Hn, Hu, Hp, Hpr, Hth, Hsl, Hpf, Hrk.
  repeat split; auto.
  - intros E1 E2. apply Dpf. now rewrite E1, E2.
  - intros E1 E2. apply Drk. now rewrite E1, E2.
Qed.

(** ** The orders of a sizing run *)

Lemma size_order_eligible (self : Strategy) (scale : float) (a : TradeIntent) :
  size_order self scale a
  = if eligible self a then Some (order_for self scale a) else None.
Proof.
  unfold size_order, eligible, order_for, is_buy, is_sell.
  destruct (String.eqb_spec (action a) "HOLD") as [E|_].
  - rewrite E. reflexivity.
  - cbn [orb].
    destruct (quantity_usdt a =? 0)%float;
      [now rewrite andb_false_r|].
    destruct (quantity_usdt a <? min_trade_amount self)%float;
      [now rewrite andb_false_r|].
    rewrite !andb_true_r.
    destruct (String.eqb (action a) "BUY"); [reflexivity|].
    destruct (String.eqb (action a) "SELL"); reflexivity.
Qed.

Lemma place_orders_filter_map
  (self : Strategy) (scale : float) (actions : list TradeIntent) :
  place_orders self scale actions
  = map (order_for self scale) (filter (eligible self) actions).
Proof.
  induction actions as [|a rest IH]; [reflexivity|].
  cbn [place_orders filter]. rewrite size_order_eligible.
  destruct (eligible self a); cbn [map]; now rewrite IH.
Qed.

Lemma execute_trading_decisions_ok
  (self : Strategy) (usdt_balance : float) (actions : list TradeIntent) (scale : float) :
  scale_factor usdt_balance actions = Ok scale ->
  _execute_trading_decisions self usdt_balance actions
  = Ok (place_orders self scale actions).
Proof.
  intros Hs. unfold _execute_trading_decisions. rewrite Hs.
  destruct actions; reflexivity.
Qed.

(** X10.  When the scale factor can be computed, the orders placed are
    one per eligible action, in the order of the actions: a BUY or SELL
    action whose requested amount is neither zero nor below
    [min_trade_amount] gets exactly one order, carrying its symbol,
    confidence and reason; a HOLD, an action of any other kind, a zero
    amount and an amount below the minimum get none.  So there are never
    more orders than actions. *)
Theorem X10_one_order_per_eligible_action
  (self : Strategy) (usdt_balance : float) (actions : list TradeIntent) (scale : float) :
  scale_factor usdt_balance actions = Ok scale ->
  _execute_trading_decisions self usdt_balance actions
  = Ok (map (order_for self scale) (filter (eligible self) actions))
  /\ (List.length (map (order_for self scale) (filter (eligible self) actions))
      <= List.length actions)%nat.
Proof.
  intros Hs. split.
  - rewrite (execute_trading_decisions_ok _ _ _ _ Hs). f_equal.
    apply place_orders_filter_map.
  - rewrite length_map. apply filter_length_le.
Qed.

Lemma X10_one_order_per_eligible_action_witness :
  _execute_trading_decisions default_strategy 1000
    [intent "HOLD" 0; intent "SELL" 40; intent "BUY" 700]
  = Ok (map (order_for default_strategy 1)
          (filter (eligible default_strategy)
             [intent "HOLD" 0; intent "SELL" 40; intent "BUY" 700])).
Proof.
  exact (proj1 (X10_one_order_per_eligible_action default_strategy 1000
                  [intent "HOLD" 0; intent "SELL" 40; intent "BUY" 700] 1 eq_refl)).
Defined.

Lemma float_ltb_irrefl (x : float) : (x <? x)%float = false.
Proof.
  rewrite ltb_spec. unfold SFltb.
  destruct (Prim2SF x) as [[]|[]| |[] m e]; cbn; try reflexivity;
    rewrite Z.compare_refl, Pos.compare_cont_refl; reflexivity.
Qed.

Lemma cap_bounded (self : Strategy) (q : float) :
  (max_single_trade self <? cap self q)%float = false.
Proof.
  unfold cap. destruct (max_single_trade self <? q)%float eqn:E.
  - apply float_ltb_irrefl.
  - exact E.
Qed.

(** X11.  No order is placed for more than [max_single_trade]: for every
    order of a sizing run the test [amount > max_single_trade] is false,
    whatever the balance and the scale factor. *)
Theorem X11_no_order_above_the_maximum
  (self : Strategy) (usdt_balance : float) (actions : list TradeIntent)
  (orders : list Order) (o : Order) :
  _execute_trading_decisions self usdt_balance actions = Ok orders ->
  In o orders ->
  (max_single_trade self <? order_amount o)%float = false.
Proof.
  intros Hex Hin.
  assert (Hp : exists scale, orders = place_orders self scale actions).
  { unfold _execute_trading_decisions in Hex. destruct actions as [|a rest].
    - injection Hex as <-. contradiction.
    - destruct (scale_factor usdt_balance (a :: rest)) as [scale|e];
        [|discriminate]. exists scale. now injection Hex as <-. }
  destruct Hp as [scale ->]. rewrite place_orders_filter_map in Hin.
  apply in_map_iff in Hin as (a & <- & _).
  unfold order_for. destruct (is_buy a); apply cap_bounded.
Qed.

Lemma X11_no_order_above_the_maximum_witness :
  (max_single_trade default_strategy <? 500)%float = false.
Proof.
  exact (X11_no_order_above_the_maximum default_strategy 1000
           [intent "BUY" 700] [BuyOrder "BTCUSDT" 500 0.75 default_reason]
           (BuyOrder "BTCUSDT" 500 0.75 default_reason) eq_refl (or_introl eq_refl)).
Defined.

Lemma orders_of_run
  (self : Strategy) (usdt_balance : float) (actions : list TradeIntent)
  (orders : list Order) :
  _execute_trading_decisions self usdt_balance actions = Ok orders ->
  exists scale : float,
    orders = map (order_for self scale) (filter (eligible self) actions).
Proof.
  intros Hex. unfold _execute_trading_decisions in Hex.
  destruct actions as [|a rest].
  - injection Hex as <-. exists 1%float. reflexivity.
  - destruct (scale_factor usdt_balance (a :: rest)) as [scale|e]; [|discriminate].
    exists scale. injection Hex as <-.
    exact (place_orders_filter_map self scale (a :: rest)).
Qed.

Lemma sell_orders_of_map (self : Strategy) (scale : float) (l : list TradeIntent) :
  filter is_sell_order (map (order_for self scale) l)
  = map (order_for self 1) (filter (fun a => negb (is_buy a)) l).
Proof.
  induction l as [|a rest IH]; [reflexivity|].
  cbn [map filter]. unfold order_for at 1, is_sell_order at 1.
  destruct (is_buy a) eqn:E; cbn [order_is_buy negb map].
  - exact IH.
  - rewrite IH. unfold order_for. rewrite E. reflexivity.
Qed.

Lemma headings_of_map (self : Strategy) (scale scale' : float) (l : list TradeIntent) :
  map order_heading (map (order_for self scale) l)
  = map order_heading (map (order_for self scale') l).
Proof.
  rewrite !map_map. apply map_ext. intros a.
  unfold order_for. destruct (is_buy a); reflexivity.
Qed.

(** X12.  The balance decides nothing but the amounts of the BUY orders:
    two sizing runs over the same actions with different balances place
    orders for the same actions, in the same order and with the same
    symbol, confidence and reason, and their SELL orders are identical,
    amounts included. *)
Theorem X12_balance_only_moves_buy_amounts
  (self : Strategy) (balance balance' : float) (actions : list TradeIntent)
  (orders orders' : list Order) :
  _execute_trading_decisions self balance actions = Ok orders ->
  _execute_trading_decisions self balance' actions = Ok orders' ->
  map order_heading orders = map order_heading orders'
  /\ filter is_sell_order orders = filter is_sell_order orders'.
Proof.
  intros H H'.
  destruct (orders_of_run _ _ _ _ H) as [scale ->].
  destruct (orders_of_run _ _ _ _ H') as [scale' ->].
  split.
  - apply headings_of_map.
  - now rewrite !sell_orders_of_map.
Qed.

Lemma X12_balance_only_moves_buy_amounts_witness :
  filter is_sell_order
    [ BuyOrder "BTCUSDT" 500 0.75 default_reason;
      SellOrder "BTCUSDT" 80 0.75 default_reason ]
  = filter is_sell_order
      [ BuyOrder "BTCUSDT" 95 0.75 default_reason;
        SellOrder "BTCUSDT" 80 0.75 default_reason ].
Proof.
  exact (proj2 (X12_balance_only_moves_buy_amounts default_strategy 1000 100
                  [intent "BUY" 700; intent "SELL" 80] _ _ eq_refl eq_refl)).
Defined.




Lemma total_buy_amount_nothing (actions : list TradeIntent) :
  Forall (fun a => is_buy a && (0 <? quantity_usdt a)%float = false) actions ->
  total_buy_amount actions = 0%float.
Proof.
  unfold total_buy_amount. generalize 0%float as acc.
  induction actions as [|a rest IH]; intros acc H; [reflexivity|].
  apply Forall_cons_iff in H as [Ha Hrest].
  cbn [fold_left]. rewrite Ha. now apply IH.
Qed.

(** X14.  With a negative balance and no purchase asked for (no BUY
    action with a positive amount), the division of the balance by the
    total of the purchases is a division by zero: the sizing raises
    [ZeroDivisionError] and no order is placed, the sales included. *)
Theorem X14_negative_balance_and_no_purchase
  (self : Strategy) (usdt_balance : float) (a : TradeIntent) (rest : list TradeIntent) :
  (usdt_balance <? 0)%float = true ->
  Forall (fun a => is_buy a && (0 <? quantity_usdt a)%float = false) (a :: rest) ->
  _execute_trading_decisions self usdt_balance (a :: rest) = Raise ZeroDivisionError.
Proof.
  intros Hb Hnone. unfold _execute_trading_decisions, scale_factor.
  rewrite (total_buy_amount_nothing _ Hnone), Hb. reflexivity.
Qed.

Lemma X14_negative_balance_and_no_purchase_witness :
  _execute_trading_decisions default_strategy (-1) [intent "SELL" 80]
  = Raise ZeroDivisionError.
Proof.
  assert (H : Forall (fun a => is_buy a && (0 <? quantity_usdt a)%float = false)
                [intent "SELL" 80]).
  { repeat constructor. }
  exact (X14_negative_balance_and_no_purchase default_strategy (-1)
           (intent "SELL" 80) [] eq_refl H).
Defined.

(** ** The balances of the account *)

Lemma in_balances_set (asset : string) (info : BalanceInfo)
  (balances : list (string * BalanceInfo)) (x : string * BalanceInfo) :
  In x (balances_set asset info balances) -> x = (asset, info) \/ In x balances.
Proof.
  induction balances as [|[a i] rest IH]; simpl.
  - intros [H|[]]. now left.
  - destruct (String.eqb a asset); simpl; intros [H|H]; auto.
    destruct (IH H); auto.
Qed.

Lemma balances_set_nodup (asset : string) (info : BalanceInfo)
  (balances : list (string * BalanceInfo)) :
  NoDup (map fst balances) -> NoDup (map fst (balances_set asset info balances)).
Proof.
  induction balances as [|[a i] rest IH]; simpl; intros H.
  - constructor; [intros [] | constructor].
  - apply NoDup_cons_iff in H as [Ha Hrest].
    destruct (String.eqb_spec a asset) as [->|Hne]; simpl.
    + constructor; assumption.
    + constructor; [|now apply IH].
      intros Hin. apply in_map_iff in Hin as ([a' i'] & Ha' & Hin). simpl in Ha'.
      subst a'. destruct (in_balances_set _ _ _ _ Hin) as [E|E].
      * injection E as E _. congruence.
      * apply Ha. apply in_map_iff. now exists (a, i').
Qed.

Lemma balances_loop_invariant (rows : list BalanceRow) :
  forall (acc balances : list (string * BalanceInfo)),
    NoDup (map fst acc) ->
    Forall (fun x => held (snd x)) acc ->
    balances_loop rows acc = Some balances ->
    NoDup (map fst balances) /\ Forall (fun x => held (snd x)) balances.
Proof.
  induction rows as [|row rest IH]; intros acc balances Hnd Hall; simpl.
  - intros H. injection H as <-. auto.
  - destruct (row_free row) as [f|]; [|discriminate].
    destruct (row_locked row) as [l|]; [|discriminate].
    destruct (0 <? f + l)%float eqn:E; [|now apply IH].
    apply IH.
    + now apply balances_set_nodup.
    + apply Forall_forall. intros x Hx.
      destruct (in_balances_set _ _ _ _ Hx) as [->|Hin].
      * split; [reflexivity | exact E].
      * rewrite Forall_forall in Hall. now apply Hall.
Qed.

(** X15.  Every entry [get_all_balances] returns has a total that is its
    free plus its locked amount and is above zero, and no asset appears
    twice; when the account cannot be read, or an amount of any row cannot
    be converted, the result is empty, with nothing of the rows read
    before. *)
Theorem X15_balances_are_positive_totals :
  (forall (account : option (list BalanceRow)),
      NoDup (map fst (get_all_balances account))
      /\ Forall (fun x => total (snd x) = (free (snd x) + locked (snd x))%float
                          /\ (0 <? total (snd x))%float = true)
           (get_all_balances account))
  /\ get_all_balances None = []
  /\ (forall (before after : list BalanceRow) (row : BalanceRow),
        row_free row = None \/ row_locked row = None ->
        Forall (fun r => row_free r <> None /\ row_locked r <> None) before ->
        get_all_balances (Some (before ++ row :: after)) = []).
Proof.
  split; [|split; [reflexivity|]].
  - intros [rows|]; [|split; constructor].
    unfold get_all_balances.
    destruct (balances_loop rows []) as [balances|] eqn:E; [|split; constructor].
    exact (balances_loop_invariant rows [] balances (NoDup_nil _) (Forall_nil _) E).
  - intros before after row Hrow Hbefore. unfold get_all_balances.
    enough (H : forall acc, balances_loop (before ++ row :: after) acc = None)
      by now rewrite H.
    induction before as [|r rest IH]; intros acc; cbn [app balances_loop].
    + destruct Hrow as [-> | Hl]; [reflexivity|].
      rewrite Hl. destruct (row_free row); reflexivity.
    + apply Forall_cons_iff in Hbefore as [[Hf Hl] Hrest].
      destruct (row_free r); [|congruence].
      destruct (row_locked r); [|congruence].
      destruct (0 <? f + f0)%float; now apply IH.
Qed.

(** ** The positions built from the balances *)

Lemma dict_set_fresh (k : string) (v : value) (d : dict) :
  ~ In k (keys d) -> dict_set k v d = d ++ [(k, v)].
Proof.
  induction d as [|[k' v'] rest IH]; simpl; intros H; [reflexivity|].
  destruct (String.eqb_spec k' k) as [->|Hne].
  - exfalso. apply H. now left.
  - rewrite IH; [reflexivity|]. intros Hin. apply H. now right.
Qed.

Lemma usd_values_app (d1 d2 : dict) (v1 v2 : list (string * float)) :
  usd_values d1 = Some v1 -> usd_values d2 = Some v2 ->
  usd_values (d1 ++ d2) = Some (v1 ++ v2).
Proof.
  revert v1. induction d1 as [|[k v] rest IH]; simpl; intros v1 H1 H2.
  - injection H1 as <-. exact H2.
  - destruct (usd_value_of v) as [u|]; [|discriminate].
    destruct (usd_values rest) as [vs|]; [|discriminate].
    injection H1 as <-. rewrite (IH vs eq_refl H2). reflexivity.
Qed.

Lemma valuation_keys (price_of : string -> option float)
  (balances : list (string * BalanceInfo)) (a : string) :
  In a (map fst (valuation price_of balances)) -> In a (map fst balances).
Proof.
  induction balances as [|[asset info] rest IH]; simpl; [tauto|].
  destruct (0 <? total info)%float; [|auto].
  destruct (negb (String.eqb asset "USDT")).
  - destruct (price_of (asset ++ "USDT")%string); simpl; [|auto].
    intros [H|H]; auto.
  - simpl. intros [H|H]; auto.
Qed.

Lemma valuation_nodup (price_of : string -> option float)
  (balances : list (string * BalanceInfo)) :
  NoDup (map fst balances) -> NoDup (map fst (valuation price_of balances)).
Proof.
  induction balances as [|[asset info] rest IH]; simpl; intros H; [constructor|].
  apply NoDup_cons_iff in H as [Ha Hrest].
  assert (Hfresh : ~ In asset (map fst (valuation price_of rest)))
    by (intros Hin; apply Ha; exact (valuation_keys _ _ _ Hin)).
  destruct (0 <? total info)%float; [|auto].
  destruct (negb (String.eqb asset "USDT")).
  - destruct (price_of (asset ++ "USDT")%string); simpl; [|auto].
    constructor; auto.
  - simpl. constructor; auto.
Qed.

Lemma market_positions_loop (price_of : string -> option float)
  (balances : list (string * BalanceInfo)) :
  forall (positions : dict) (vs : list (string * float)),
    usd_values positions = Some vs ->
    NoDup (map fst balances) ->
    (forall a, In a (keys positions) -> ~ In a (map fst balances)) ->
    usd_values (fold_left (market_position_step price_of) balances positions)
    = Some (vs ++ valuation price_of balances).
Proof.
  induction balances as [|[asset info] rest IH]; intros positions vs Hvs Hnd Hfresh.
  - simpl. now rewrite app_nil_r.
  - cbn [fold_left valuation map fst] in *.
    apply NoDup_cons_iff in Hnd as [Ha Hrest].
    assert (Hnew : ~ In asset (keys positions))
      by (intros Hin; apply (Hfresh asset Hin); now left).
    assert (Hold : forall a, In a (keys positions) -> ~ In a (map fst rest))
      by (intros a Hin Hr; apply (Hfresh a Hin); now right).
    assert (Hadd : forall (entry : value) (u : float),
               usd_value_of entry = Some u ->
               usd_values (fold_left (market_position_step price_of) rest
                             (dict_set asset entry positions))
               = Some (vs ++ (asset, u) :: valuation price_of rest)).
    { intros entry u Hu. rewrite (dict_set_fresh _ _ _ Hnew).
      replace (vs ++ (asset, u) :: valuation price_of rest)
        with ((vs ++ [(asset, u)]) ++ valuation price_of rest)
        by (rewrite <- app_assoc; reflexivity).
      apply IH; [|assumption|].
      - apply usd_values_app; [assumption|]. simpl. now rewrite Hu.
      - intros a Hin. unfold keys in Hin. rewrite map_app in Hin.
        apply in_app_or in Hin as [Hin|[<-|[]]]; [now apply Hold | assumption]. }
    unfold market_position_step at 2. unfold valued.
    destruct (0 <? total info)%float; [|now apply IH].
    destruct (negb (String.eqb asset "USDT")).
    + destruct (price_of (asset ++ "USDT")%string) as [price|]; [|now apply IH].
      now apply Hadd.
    + now apply Hadd.
Qed.

Lemma market_positions_valuation (price_of : string -> option float)
  (balances : list (string * BalanceInfo)) :
  NoDup (map fst balances) ->
  usd_values (get_current_market_positions price_of balances)
  = Some (valuation price_of balances).
Proof.
  intros Hnd. unfold get_current_market_positions.
  exact (market_positions_loop price_of balances [] [] eq_refl Hnd (fun a H => match H with end)).
Qed.

Lemma balances_nodup (account : option (list BalanceRow)) :
  NoDup (map fst (get_all_balances account)).
Proof.
  destruct account as [rows|]; [|constructor].
  unfold get_all_balances.
  destruct (balances_loop rows []) as [balances|] eqn:E; [|constructor].
  exact (proj1 (balances_loop_invariant rows [] balances (NoDup_nil _) (Forall_nil _) E)).
Qed.

Lemma market_positions_nodup (price_of : string -> option float)
  (balances : list (string * BalanceInfo)) :
  NoDup (map fst balances) ->
  NoDup (keys (get_current_market_positions price_of balances)).
Proof.
  intros Hnd.
  rewrite <- (usd_values_keys _ _ (market_positions_valuation price_of balances Hnd)).
  now apply valuation_nodup.
Qed.

(** X16.  The positions [get_current_market_positions] builds from the
    balances of the account hold, in the order of the balances, one entry
    per asset whose price could be read, with [usd_value] the total times
    the price (for USDT the total itself); an asset whose price query
    raises is left out, and no asset appears twice. *)
Theorem X16_positions_follow_the_balances
  (account : option (list BalanceRow)) (price_of : string -> option float) :
  let balances := get_all_balances account in
  let positions := get_current_market_positions price_of balances in
  usd_values positions = Some (valuation price_of balances)
  /\ keys positions = map fst (valuation price_of balances)
  /\ NoDup (keys positions)
  /\ (forall asset, price_of (asset ++ "USDT")%string = None -> asset <> "USDT" ->
        dict_get asset positions = None).
Proof.
  intros balances positions.
  pose proof (balances_nodup account) as Hnd. fold balances in Hnd.
  pose proof (market_positions_valuation price_of balances Hnd) as Hvs.
  fold positions in Hvs.
  split; [exact Hvs|]. split; [symmetry; exact (usd_values_keys _ _ Hvs)|].
  split; [exact (market_positions_nodup price_of balances Hnd)|].
  intros asset Hprice Hne.
  destruct (dict_get asset positions) as [v|] eqn:E; [exfalso|reflexivity].
  assert (Hin : In asset (keys positions)).
  { clear - E. induction positions as [|[k v'] rest IH]; simpl in *; [discriminate|].
    destruct (String.eqb_spec asset k) as [->|Hk]; [now left|].
    destruct (String.eqb_spec k asset) as [->|Hk']; [now left|].
    right. apply IH.
    revert E. unfold dict_get. simpl.
    destruct (String.eqb_spec k asset); [congruence|]. auto. }
  rewrite <- (usd_values_keys _ _ Hvs) in Hin.
  clear - Hin Hprice Hne. induction balances as [|[a info] rest IH]; simpl in Hin; [exact Hin|].
  destruct (0 <? total info)%float; [|auto].
  destruct (String.eqb_spec a "USDT") as [->|Ha]; simpl in Hin.
  - destruct Hin as [H|H]; [congruence | auto].
  - destruct (price_of (a ++ "USDT")%string) eqn:Ep; [|auto].
    destruct Hin as [H|H]; [|auto]. simpl in H. subst a. congruence.
Qed.

(** ** From the account to the risk figures *)

(** X17.  Step 3 of the hourly run, from the exchange to the store: after
    [refresh_positions], [get_positions] returns the positions built from
    the account, and [get_risk_metrics] returns the former figures updated
    with those recomputed from the valuation of the balances; when no
    asset could be valued the figures stay as they were.  In particular,
    when the account cannot be read, the stored positions become empty
    while the risk figures keep describing the former positions. *)
Theorem X17_account_to_risk_figures
  (s : StateManager) (w : World) (account : option (list BalanceRow))
  (price_of : string -> option float) (old : dict) :
  risk_metrics s = VDict old ->
  let vs := valuation price_of (get_all_balances account) in
  let s' := store_after (refresh_positions account price_of w s) in
  let failed := store_after (refresh_positions None price_of w s) in
  returned (get_positions s')
  = Ok (VDict (get_current_market_positions price_of (get_all_balances account)))
  /\ returned (get_risk_metrics s')
     = Ok (VDict match vs with
                 | [] => old
                 | _ :: _ => dict_update old (recomputed vs)
                 end)
  /\ returned (get_positions failed) = Ok (VDict [])
  /\ returned (get_risk_metrics failed) = Ok (VDict old).
Proof.
  intros Hold vs s' failed.
  assert (Hgen : forall account',
             let data := get_current_market_positions price_of (get_all_balances account') in
             let vs' := valuation price_of (get_all_balances account') in
             let t := store_after (refresh_positions account' price_of w s) in
             returned (get_positions t) = Ok (VDict data)
             /\ returned (get_risk_metrics t)
                = Ok (VDict match vs' with
                            | [] => old
                            | _ :: _ => dict_update old (recomputed vs')
                            end)).
  { intros account' data vs' t.
    pose proof (balances_nodup account') as Hb.
    pose proof (market_positions_valuation price_of _ Hb) as Hvs.
    pose proof (market_positions_nodup price_of _ Hb) as Hnd.
    fold data in Hvs, Hnd. fold vs' in Hvs.
    assert (Ht : same_but_status
                   (set_risk_metrics
                      (VDict match data with
                             | [] => old
                             | _ :: _ => dict_update old (recomputed vs')
                             end)
                      (set_positions (VDict data) s)) t).
    { rewrite <- (update_positions_store s data vs' old Hold Hvs Hnd).
      rewrite <- (dispatch_positions data w).
      apply update_state_after_dispatch. }
    apply same_but_status_fields in Ht.
    destruct Ht as (_ & _ & Hpos & _ & _ & _ & _ & Hrisk).
    split.
    - change (returned (get_positions t)) with (py_copy (positions t)).
      rewrite Hpos. reflexivity.
    - rewrite returned_get_risk_metrics, Hrisk.
      apply usd_values_keys in Hvs.
      destruct data as [|item rest], vs' as [|x xs]; try discriminate Hvs; reflexivity. }
  destruct (Hgen account) as [Hp Hr]. destruct (Hgen None) as [Hp0 Hr0].
  repeat split; assumption.
Qed.

Lemma X17_account_to_risk_figures_witness :
  metric "position_count"
    (returned (get_risk_metrics
                 (store_after (refresh_positions account_btc_usdt quotes_btc world0 new_store))))
  = Some (VInt 1)
  /\ returned (get_positions
                 (store_after (refresh_positions None quotes_btc world0 store_btc_usdt)))
     = Ok (VDict [])
  /\ metric "position_count"
       (returned (get_risk_metrics
                    (store_after (refresh_positions None quotes_btc world0 store_btc_usdt))))
     = Some (VInt 1).
Proof.
  split; [|split].
  - rewrite (proj1 (proj2 (X17_account_to_risk_figures new_store world0 account_btc_usdt
                             quotes_btc _ eq_refl))).
    reflexivity.
  - exact (proj1 (proj2 (proj2 (X17_account_to_risk_figures store_btc_usdt world0 None
                                  quotes_btc _ eq_refl)))).
  - rewrite (proj2 (proj2 (proj2 (X17_account_to_risk_figures store_btc_usdt world0 None
                                    quotes_btc _ eq_refl)))).
    reflexivity.
Defined.

(** ** The two readings of the account *)

Lemma balances_loop_free (asset : string) (info : BalanceInfo) (rows : list BalanceRow) :
  forall (acc balances : list (string * BalanceInfo)),
    NoDup (map row_asset rows) ->
    balances_loop rows acc = Some balances ->
    In (asset, info) balances ->
    In (asset, info) acc
    \/ (In asset (map row_asset rows) /\ first_free asset rows = free info).
Proof.
  induction rows as [|row rest IH]; intros acc balances Hnd Hloop Hin.
  - simpl in Hloop. injection Hloop as <-. now left.
  - cbn [balances_loop] in Hloop. cbn [map] in Hnd.
    apply NoDup_cons_iff in Hnd as [Hrow Hrest].
    destruct (row_free row) as [f|] eqn:Ef; [|discriminate].
    destruct (row_locked row) as [l|] eqn:El; [|discriminate].
    assert (Hlater : In asset (map row_asset rest) /\ first_free asset rest = free info ->
                     In asset (map row_asset (row :: rest))
                     /\ first_free asset (row :: rest) = free info).
    { intros [Hthere Hfree]. split; [now right|].
      cbn [first_free]. destruct (String.eqb_spec (row_asset row) asset) as [E|_].
      - exfalso. apply Hrow. now rewrite E.
      - exact Hfree. }
    destruct (0 <? f + l)%float.
    + destruct (IH _ _ Hrest Hloop Hin) as [Hacc|Hr]; [|right; now apply Hlater].
      destruct (in_balances_set _ _ _ _ Hacc) as [E|Hold]; [|now left].
      injection E as -> ->. right. split; [now left|].
      cbn [first_free]. now rewrite String.eqb_refl, Ef.
    + destruct (IH _ _ Hrest Hloop Hin) as [Hacc|Hr]; [now left | right; now apply Hlater].
Qed.

(** X18.  For an account that lists every asset once, the two readings of
    the exchange agree: the free amount [get_all_balances] reports for an
    asset is what [get_balance] returns for it. *)
Theorem X18_free_amounts_agree
  (rows : list BalanceRow) (asset : string) (info : BalanceInfo) :
  NoDup (map row_asset rows) ->
  In (asset, info) (get_all_balances (Some rows)) ->
  get_balance (Some rows) asset = free info.
Proof.
  intros Hnd Hin. unfold get_all_balances in Hin. cbn [get_balance].
  destruct (balances_loop rows []) as [balances|] eqn:E; [|destruct Hin].
  destruct (balances_loop_free asset info rows [] balances Hnd E Hin) as [[]|[_ H]].
  exact H.
Qed.

Lemma X18_free_amounts_agree_witness :
  get_balance account_btc_usdt "USDT" = 250%float.
Proof.
  apply (X18_free_amounts_agree _ "USDT" (mkBalance 250 50 300)).
  - repeat constructor; simpl; intuition discriminate.
  - vm_compute. right. left. reflexivity.
Defined.

(** ** Orders and the books *)

Lemma try_except_ok {A : Type} (body : M A) (handler : exn -> M A)
  (s : StateManager) (a : A) :
  returned (body s) = Ok a -> try_except body handler s = body s.
Proof.
  unfold try_except, returned.
  destruct (body s) as [[[x|e] s1] t1]; simpl; [reflexivity | discriminate].
Qed.

Lemma update_state_status_dict (state_data : StateData) (w : World) (s : StateManager) :
  is_dict (system_status (store_after (dispatch state_data w s))) = true ->
  is_dict (system_status (store_after (update_state state_data w s))) = true.
Proof.
  intros Hd. unfold update_state. rewrite store_after_with_lock, store_after_bind.
  destruct (returned (dispatch state_data w s)); [|exact Hd].
  unfold stamp_last_update, bind, get_self, lift, modify.
  destruct (system_status (store_after (dispatch state_data w s)));
    try discriminate Hd.
  cbn [py_setitem]. rewrite push_trace. reflexivity.
Qed.

Lemma ledger_log (s : StateManager) (data : dict) (w : World)
  (total ok failed : Z) (v : float) :
  ledger s total ok failed v ->
  let r := update_state (log_event data) w s in
  returned r = Ok tt
  /\ ledger (store_after r) total ok failed v
  /\ max_history (store_after r) = max_history s
  /\ trading_history (store_after r) = trading_history s
  /\ strategy_logs (store_after r)
     = deque_append (max_history s) (strategy_logs s) (stamped (now_record w) data).
Proof.
  intros (Hd & Ht & Ha & Hb & Hv) r. subst r.
  assert (Hst : system_status (store_after (dispatch (log_event data) w s))
                = system_status s) by (destruct s; reflexivity).
  destruct (same_but_status_fields _ _
              (update_state_after_dispatch (log_event data) w s))
    as (Hm & _ & _ & _ & Hth & _ & Hp & _).
  assert (Hp' : performance_stats (store_after (update_state (log_event data) w s))
                = performance_stats s) by (rewrite Hp; destruct s; reflexivity).
  split; [apply update_state_returns; [reflexivity | now rewrite Hst]|].
  split.
  { unfold ledger, counter, stat. rewrite Hp'.
    repeat split; try assumption.
    apply update_state_status_dict. now rewrite Hst. }
  split; [rewrite Hm; destruct s; reflexivity|].
  split; [rewrite Hth; destruct s; reflexivity|].
  apply update_state_log_logs.
Qed.

Lemma ledger_trade (s : StateManager) (data : dict) (w : World)
  (total ok failed : Z) (v x : float) :
  ledger s total ok failed v ->
  dict_get "volume_usdt" data = Some (VFloat x) ->
  let r := update_state (trade_event data) w s in
  returned r = Ok tt
  /\ ledger (store_after r) (total + 1)
       (if succeeded data then ok + 1 else ok)
       (if succeeded data then failed else failed + 1) (v + x)
  /\ max_history (store_after r) = max_history s
  /\ trading_history (store_after r)
     = deque_append (max_history s) (trading_history s) (stamped (now_record w) data)
  /\ strategy_logs (store_after r) = strategy_logs s.
Proof.
  intros (Hd & Ht & Ha & Hb & Hv) Hx r. subst r.
  assert (Hf : float_volume data <> None)
    by (unfold float_volume; rewrite Hx; discriminate).
  destruct (update_state_trade_volume s data w total ok failed v Hd Ht Ha Hb Hv Hf)
    as (Hr & Hd' & Hv').
  destruct (update_state_trade_counters s data w total ok failed Ht Ha Hb)
    as (Ht' & Ha' & Hb').
  destruct (update_state_trade_logs data w s) as (Hm & Hth & Hsl).
  cbn [volume_sum] in Hv'. rewrite Hx in Hv'.
  repeat split; assumption.
Qed.

Lemma record_trade_booked (fmt : Format) (t : TradeData) (c : Clock) (s : StateManager)
  (total ok failed : Z) (v : float) :
  ledger s total ok failed v ->
  let r := KronosMainStrategy._record_trade fmt t c s in
  let done := String.eqb (td_status t) "success" in
  returned r = Ok tt
  /\ ledger (store_after r) (total + 1)
       (if done then ok + 1 else ok) (if done then failed else failed + 1)
       (v + td_volume_usdt t)
  /\ trading_history (store_after r)
     = deque_append (max_history s) (trading_history s)
         (stamped (now_record (at_trade c)) (trade_dict t))
  /\ strategy_logs (store_after r)
     = deque_append (max_history s) (strategy_logs s)
         (stamped (now_record (at_log c))
            (log_line (KronosMainStrategy.trade_line fmt t)
               (if done then "success" else "error"))).
Proof.
  intros Hl r done. subst r. unfold KronosMainStrategy._record_trade.
  destruct (ledger_trade s (trade_dict t) (at_trade c) total ok failed v
              (td_volume_usdt t) Hl eq_refl) as (Hr & Hl' & Hm & Hth & Hsl).
  replace (succeeded (trade_dict t)) with done in Hl' by reflexivity.
  rewrite returned_bind, store_after_bind, Hr.
  unfold KronosMainStrategy._add_log.
  destruct (ledger_log _ (log_line (KronosMainStrategy.trade_line fmt t)
                            (if String.eqb (td_status t) "success"
                             then "success" else "error"))
              (at_log c) _ _ _ _ Hl') as (Hr2 & Hl2 & _ & Hth2 & Hsl2).
  fold done in Hr2, Hl2, Hth2, Hsl2 |- *.
  split; [exact Hr2|]. split; [exact Hl2|].
  split; [now rewrite Hth2 | now rewrite Hsl2, Hm, Hsl].
Qed.

Lemma book_asked (fmt : Format) (prefix side symbol : string)
  (volume_of : float -> float -> float) (confidence : float) (reason : string)
  (quantity price : float) (outcome : order_outcome) (c : Clock) (s : StateManager)
  (total ok failed : Z) (v : float) :
  ledger s total ok failed v ->
  outcome <> Broken ->
  let t := trade_of side symbol quantity price (volume_of quantity price)
             confidence reason outcome in
  let r := KronosMainStrategy.book fmt prefix side symbol volume_of confidence reason
             (Asked quantity price outcome) c s in
  returned r = Ok tt
  /\ ledger (store_after r) (total + 1)
       (if filled outcome then ok + 1 else ok)
       (if filled outcome then failed else failed + 1)
       (v + volume_of quantity price)
  /\ trading_history (store_after r)
     = deque_append (max_history s) (trading_history s)
         (stamped (now_record (at_trade c)) (trade_dict t))
  /\ strategy_logs (store_after r)
     = deque_append (max_history s) (strategy_logs s)
         (stamped (now_record (at_log c))
            (log_line (KronosMainStrategy.trade_line fmt t)
               (if filled outcome then "success" else "error"))).
Proof.
  intros Hl Hb t r.
  destruct (record_trade_booked fmt t c s total ok failed v Hl)
    as (Hr & Hl' & Hth & Hsl).
  assert (Hdone : String.eqb (td_status t) "success" = filled outcome)
    by (subst t; unfold trade_of; destruct (filled outcome); reflexivity).
  rewrite Hdone in Hl', Hsl.
  assert (Er : r = KronosMainStrategy._record_trade fmt t c s).
  { subst r. unfold KronosMainStrategy.book.
    destruct outcome as [order| |]; [| |congruence];
      exact (try_except_ok _ _ s tt Hr). }
  clearbody r. subst r.
  split; [exact Hr|]. split; [exact Hl'|]. split; assumption.
Qed.

(** X19.  A purchase the exchange has answered is on the books when
    [_execute_buy_order] returns: the quantity asked is the amount divided
    by the price, rounded; one trade more is counted, as successful when
    the exchange returned an order and as failed otherwise; the amount of
    the purchase is added to [total_volume] in both cases; the newest
    trade record is that of the order and the newest log line says
    [success] or [error] accordingly. *)
Theorem X19_purchase_on_the_books
  (fmt : Format) (ex : Exchange) (symbol : string) (usdt_amount confidence : float)
  (reason : string) (c : Clock) (s : StateManager)
  (total ok failed : Z) (v quantity price : float) (outcome : order_outcome) :
  ledger s total ok failed v ->
  KronosMainStrategy.buy_attempt fmt ex symbol usdt_amount = Asked quantity price outcome ->
  outcome <> Broken ->
  let t := trade_of "BUY" symbol quantity price usdt_amount confidence reason outcome in
  let r := KronosMainStrategy._execute_buy_order fmt ex symbol usdt_amount confidence
             reason c s in
  returned r = Ok tt
  /\ quantity = round6 fmt (usdt_amount / price)
  /\ ledger (store_after r) (total + 1)
       (if filled outcome then ok + 1 else ok)
       (if filled outcome then failed else failed + 1)
       (v + usdt_amount)
  /\ trading_history (store_after r)
     = deque_append (max_history s) (trading_history s)
         (stamped (now_record (at_trade c)) (trade_dict t))
  /\ strategy_logs (store_after r)
     = deque_append (max_history s) (strategy_logs s)
         (stamped (now_record (at_log c))
            (log_line (KronosMainStrategy.trade_line fmt t)
               (if filled outcome then "success" else "error"))).
Proof.
  intros Hl Ha Hb t r. subst r. unfold KronosMainStrategy._execute_buy_order.
  rewrite Ha.
  destruct (book_asked fmt "买入订单错误" "BUY" symbol (fun _ _ => usdt_amount)
              confidence reason quantity price outcome c s total ok failed v Hl Hb)
    as (Hr & Hl' & Hth & Hsl).
  split; [exact Hr|]. split; [|split; [exact Hl'|split; assumption]].
  revert Ha. unfold KronosMainStrategy.buy_attempt.
  destruct (get_balance (ex_account ex) "USDT" <? usdt_amount)%float; [discriminate|].
  destruct (ex_price ex symbol) as [p|]; [|discriminate].
  destruct (p =? 0)%float; [discriminate|].
  intros H. injection H as <- <- _. reflexivity.
Qed.

Lemma X19_purchase_on_the_books_witness :
  counter "failed_trades"
    (store_after (KronosMainStrategy._execute_buy_order plain_format exchange_rejecting
                    "BTCUSDT" 70 0.5 "momentum" clock0 new_store))
  = Some 1%Z
  /\ stat "total_volume"
       (store_after (KronosMainStrategy._execute_buy_order plain_format exchange_rejecting
                       "BTCUSDT" 70 0.5 "momentum" clock0 new_store))
     = Some (VFloat 70).
Proof.
  assert (Hl : ledger new_store 0 0 0 0) by (repeat split).
  assert (Hb : Rejected <> Broken) by discriminate.
  destruct (X19_purchase_on_the_books plain_format exchange_rejecting "BTCUSDT" 70 0.5
              "momentum" clock0 new_store 0 0 0 0 0.05 1400 Rejected Hl eq_refl Hb)
    as (_ & _ & (_ & _ & _ & Hf & Hv) & _).
  split; [exact Hf | exact Hv].
Defined.

(** X20.  A sale the exchange has answered is on the books when
    [_execute_sell_order] returns: the quantity asked is the smaller of
    the holding of the base asset and the amount divided by the price,
    rounded, and is above zero; one trade more is counted, as successful
    or failed by the answer of the exchange; the volume added to
    [total_volume] is that quantity times the price, not the amount
    requested. *)
Theorem X20_sale_on_the_books
  (fmt : Format) (ex : Exchange) (symbol : string) (usdt_amount confidence : float)
  (reason : string) (c : Clock) (s : StateManager)
  (total ok failed : Z) (v quantity price : float) (outcome : order_outcome) :
  ledger s total ok failed v ->
  KronosMainStrategy.sell_attempt fmt ex symbol usdt_amount = Asked quantity price outcome ->
  outcome <> Broken ->
  let t := trade_of "SELL" symbol quantity price (quantity * price) confidence reason
             outcome in
  let r := KronosMainStrategy._execute_sell_order fmt ex symbol usdt_amount confidence
             reason c s in
  returned r = Ok tt
  /\ quantity
     = round6 fmt (py_min (get_balance (ex_account ex) (base_asset_of symbol))
                     (usdt_amount / price))
  /\ (quantity <=? 0)%float = false
  /\ ledger (store_after r) (total + 1)
       (if filled outcome then ok + 1 else ok)
       (if filled outcome then failed else failed + 1)
       (v + quantity * price)
  /\ trading_history (store_after r)
     = deque_append (max_history s) (trading_history s)
         (stamped (now_record (at_trade c)) (trade_dict t))
  /\ strategy_logs (store_after r)
     = deque_append (max_history s) (strategy_logs s)
         (stamped (now_record (at_log c))
            (log_line (KronosMainStrategy.trade_line fmt t)
               (if filled outcome then "success" else "error"))).
Proof.
  intros Hl Ha Hb t r. subst r. unfold KronosMainStrategy._execute_sell_order.
  rewrite Ha.
  destruct (book_asked fmt "卖出订单错误" "SELL" symbol
              (fun quantity price => (quantity * price)%float)
              confidence reason quantity price outcome c s total ok failed v Hl Hb)
    as (Hr & Hl' & Hth & Hsl).
  split; [exact Hr|].
  assert (Hq : quantity
               = round6 fmt (py_min (get_balance (ex_account ex) (base_asset_of symbol))
                               (usdt_amount / price))
               /\ (quantity <=? 0)%float = false).
  { revert Ha. unfold KronosMainStrategy.sell_attempt.
    destruct (get_balance (ex_account ex) (base_asset_of symbol) <=? 0)%float;
      [discriminate|].
    destruct (ex_price ex symbol) as [p|]; [|discriminate].
    destruct (p =? 0)%float; [discriminate|].
    destruct (round6 fmt (py_min (get_balance (ex_account ex) (base_asset_of symbol))
                            (usdt_amount / p)) <=? 0)%float eqn:E; [discriminate|].
    intros H. injection H as <- <- _. split; [reflexivity | exact E]. }
  destruct Hq as [Hq Hpos].
  split; [exact Hq|]. split; [exact Hpos|].
  split; [exact Hl'|]. split; assumption.
Qed.

Lemma X20_sale_on_the_books_witness :
  counter "successful_trades"
    (store_after (KronosMainStrategy._execute_sell_order plain_format exchange_filling
                    "BTCUSDT" 2800 0.5 "momentum" clock0 new_store))
  = Some 1%Z
  /\ stat "total_volume"
       (store_after (KronosMainStrategy._execute_sell_order plain_format exchange_filling
                       "BTCUSDT" 2800 0.5 "momentum" clock0 new_store))
     = Some (VFloat 700).
Proof.
  assert (Hl : ledger new_store 0 0 0 0) by (repeat split).
  assert (Hb : Filled [ ("orderId", VInt 7) ] <> Broken) by discriminate.
  destruct (X20_sale_on_the_books plain_format exchange_filling "BTCUSDT" 2800 0.5
              "momentum" clock0 new_store 0 0 0 0 0.5 1400 _ Hl eq_refl Hb)
    as (_ & _ & _ & (_ & _ & Hok & _ & Hv) & _).
  split; [exact Hok | exact Hv].
Defined.

(** ** What an order method does without an answer of the exchange *)

Lemma add_log_fields (message level : string) (w : World) (s : StateManager) :
  let s' := store_after (KronosMainStrategy._add_log message level w s) in
  positions s' = positions s
  /\ trading_history s' = trading_history s
  /\ performance_stats s' = performance_stats s
  /\ strategy_logs s'
     = deque_append (max_history s) (strategy_logs s)
         (stamped (now_record w) (log_line message level)).
Proof.
  intros s'. subst s'. unfold KronosMainStrategy._add_log.
  destruct (same_but_status_fields _ _
              (update_state_after_dispatch (log_event (log_line message level)) w s))
    as (_ & _ & Hpos & _ & Hth & _ & Hp & _).
  rewrite Hpos, Hth, Hp.
  split; [destruct s; reflexivity|]. split; [destruct s; reflexivity|].
  split; [destruct s; reflexivity|]. apply update_state_log_logs.
Qed.

Lemma book_without_trade (fmt : Format) (prefix side symbol : string)
  (volume_of : float -> float -> float) (confidence : float) (reason : string)
  (a : attempt) (c : Clock) (s : StateManager) :
  no_trade_booked fmt prefix symbol c a s
    (KronosMainStrategy.book fmt prefix side symbol volume_of confidence reason a c s).
Proof.
  unfold no_trade_booked.
  destruct a as [|cause|quantity price [order| |]]; try exact I.
  - reflexivity.
  - apply add_log_fields.
  - apply add_log_fields.
Qed.

(** X21.  An order method that got no answer from the exchange leaves no
    trade: when it returns before the order (too little USDT for a
    purchase, nothing held or nothing left after rounding for a sale) the
    store is as it was and nothing is sent to the interface; when the
    price could not be read or is zero, or [place_market_order] raised,
    positions, trade history and performance figures are as they were and
    the strategy log has one line more, at level [error]. *)
Theorem X21_no_answer_no_trade
  (fmt : Format) (ex : Exchange) (symbol : string) (usdt_amount confidence : float)
  (reason : string) (c : Clock) (s : StateManager) :
  no_trade_booked fmt "买入订单错误" symbol c
    (KronosMainStrategy.buy_attempt fmt ex symbol usdt_amount) s
    (KronosMainStrategy._execute_buy_order fmt ex symbol usdt_amount confidence reason c s)
  /\ no_trade_booked fmt "卖出订单错误" symbol c
       (KronosMainStrategy.sell_attempt fmt ex symbol usdt_amount) s
       (KronosMainStrategy._execute_sell_order fmt ex symbol usdt_amount confidence
          reason c s).
Proof. split; apply book_without_trade. Qed.

(** ** The validation of an advice *)

Lemma all_in_dict (fields : list string) (a : dict) :
  all_in fields (VDict a) = Ok (forallb (fun field => dict_mem field a) fields).
Proof.
  induction fields as [|field rest IH]; [reflexivity|].
  cbn [all_in py_in forallb]. destruct (dict_mem field a); [exact IH | reflexivity].
Qed.

Lemma validate_actions_well_formed (items : list value) :
  match validate_actions items with
  | Ok b => b
  | Raise _ => false
  end = forallb well_formed_action items.
Proof.
  induction items as [|item rest IH]; [reflexivity|].
  cbn [validate_actions forallb].
  destruct item as [| b | z | f | s | l | a].
  - reflexivity.
  - reflexivity.
  - reflexivity.
  - reflexivity.
  - destruct (all_in required_fields (VStr s)) as [[|]|e]; reflexivity.
  - destruct (all_in required_fields (VList l)) as [[|]|e]; reflexivity.
  - rewrite all_in_dict. unfold well_formed_action.
    destruct (forallb (fun field => dict_mem field a) required_fields) eqn:E;
      [|reflexivity].
    assert (Hm : dict_mem "action" a = true).
    { cbn [required_fields forallb] in E.
      apply andb_prop in E as [_ E]. apply andb_prop in E as [E _]. exact E. }
    unfold dict_mem in Hm. cbn [py_getitem andb].
    destruct (dict_get "action" a) as [v|]; [|discriminate].
    destruct (known_action v); [exact IH | reflexivity].
Qed.

(** X22.  [_validate_trading_response] accepts exactly the dictionaries
    whose [trading_actions] can be iterated and holds only dictionaries
    with the keys [symbol], [action], [quantity_usdt] and [confidence] and
    an [action] among BUY, SELL and HOLD.  Lists and strings that pass the
    membership tests are rejected at the next step, and the values under
    [symbol], [quantity_usdt] and [confidence] are not looked at. *)
Theorem X22_validation_accepts_well_formed_advice :
  (forall response : value,
      _validate_trading_response response = well_formed_advice response)
  /\ (forall (sym quantity conf act : value) (others : dict),
        known_action act = true ->
        _validate_trading_response
          (VDict (("trading_actions",
                   VList [ VDict [ ("symbol", sym); ("action", act);
                                   ("quantity_usdt", quantity); ("confidence", conf) ] ])
                  :: others))
        = true).
Proof.
  assert (H : forall response : value,
             _validate_trading_response response = well_formed_advice response).
  { intros response. unfold _validate_trading_response, validate_body, well_formed_advice.
    destruct response as [| b | z | f | s | l | d]; try reflexivity.
    - cbn [py_in]. destruct (contains "trading_actions" s); reflexivity.
    - cbn [py_in].
      destruct (existsb (fun x => eq_str (Some x) "trading_actions") l); reflexivity.
    - cbn [py_in py_getitem]. unfold dict_mem.
      destruct (dict_get "trading_actions" d) as [actions|]; [|reflexivity].
      destruct (py_iter actions) as [items|e]; [|reflexivity].
      apply validate_actions_well_formed. }
  split; [exact H|].
  intros sym quantity conf act others Hact. rewrite H.
  cbn -[known_action]. rewrite Hact. reflexivity.
Qed.

Lemma X22_validation_accepts_well_formed_advice_witness :
  _validate_trading_response
    (VDict [ ("trading_actions",
              VList [ VDict [ ("symbol", VInt 1); ("action", VStr "SELL");
                              ("quantity_usdt", VStr "all"); ("confidence", VNone) ] ]) ])
  = true.
Proof.
  exact (proj2 X22_validation_accepts_well_formed_advice
           (VInt 1) (VStr "all") VNone (VStr "SELL") [] eq_refl).
Defined.

(** ** The advice read from a reply *)

Lemma find_from_app (c : Ascii.ascii) (pre rest : string) :
  forall i : Z,
    has_char c pre = false ->
    find_from c (pre ++ String c rest) i = (i + Z.of_nat (String.length pre))%Z.
Proof.
  induction pre as [|a pre IH]; intros i H; cbn [append find_from String.length].
  - rewrite Ascii.eqb_refl. lia.
  - cbn [has_char] in H. apply orb_false_iff in H as [Ha Hpre].
    rewrite Ha, (IH _ Hpre). lia.
Qed.

Lemma find_from_absent (c : Ascii.ascii) (s : string) :
  forall i : Z, has_char c s = false -> find_from c s i = (-1)%Z.
Proof.
  induction s as [|a s IH]; intros i H; cbn [find_from]; [reflexivity|].
  cbn [has_char] in H. apply orb_false_iff in H as [Ha Hs].
  rewrite Ha. now apply IH.
Qed.

Lemma rfind_from_absent (c : Ascii.ascii) (s : string) :
  forall i last : Z, has_char c s = false -> rfind_from c s i last = last.
Proof.
  induction s as [|a s IH]; intros i last H; cbn [rfind_from]; [reflexivity|].
  cbn [has_char] in H. apply orb_false_iff in H as [Ha Hs].
  rewrite Ha. now apply IH.
Qed.

Lemma rfind_from_app (c : Ascii.ascii) (s post : string) :
  forall i last : Z,
    has_char c post = false ->
    rfind_from c (s ++ String c post) i last = (i + Z.of_nat (String.length s))%Z.
Proof.
  induction s as [|a s IH]; intros i last H; cbn [append rfind_from String.length].
  - rewrite Ascii.eqb_refl, (rfind_from_absent _ _ _ _ H). lia.
  - rewrite (IH _ _ H). lia.
Qed.

Lemma length_append (s1 s2 : string) :
  String.length (s1 ++ s2) = (String.length s1 + String.length s2)%nat.
Proof. induction s1 as [|a s1 IH]; cbn [append String.length]; [reflexivity | now rewrite IH]. Qed.

Lemma string_app_assoc (s1 s2 s3 : string) :
  ((s1 ++ s2) ++ s3 = s1 ++ s2 ++ s3)%string.
Proof. induction s1 as [|a s1 IH]; cbn [append]; [reflexivity | now rewrite IH]. Qed.

Lemma substring_skip (pre s : string) (n : nat) :
  String.substring (String.length pre) n (pre ++ s) = String.substring 0 n s.
Proof. induction pre as [|a pre IH]; [reflexivity | exact IH]. Qed.

Lemma substring_prefix (s post : string) :
  String.substring 0 (String.length s) (s ++ post) = s.
Proof.
  induction s as [|a s IH]; cbn [append String.length].
  - destruct post; reflexivity.
  - cbn [String.substring]. now rewrite IH.
Qed.

(** X23.  In a reply with text before the first opening brace and after
    the last closing brace, [_parse_trading_response] hands [json.loads]
    exactly the part from that first brace to that last one, and returns
    what is loaded when it validates, the default advice when it does not
    validate or cannot be loaded. *)
Theorem X23_advice_is_read_between_the_braces
  (json_loads : string -> option value) (pre mid post : string) :
  has_char (char_of "{") pre = false ->
  has_char (char_of "}") post = false ->
  _parse_trading_response json_loads (VStr (pre ++ "{" ++ mid ++ "}" ++ post))
  = match json_loads ("{" ++ mid ++ "}")%string with
    | Some trading_advice =>
        if _validate_trading_response trading_advice then trading_advice
        else _get_default_response
    | None => _get_default_response
    end.
Proof.
  intros Hpre Hpost. unfold _parse_trading_response.
  set (text := (pre ++ "{" ++ mid ++ "}" ++ post)%string).
  assert (Hfind : py_find (char_of "{") text = Z.of_nat (String.length pre)).
  { unfold py_find, text. cbn [append char_of].
    rewrite (find_from_app _ pre _ 0 Hpre). lia. }
  assert (Hrfind : py_rfind (char_of "}") text
                   = Z.of_nat (String.length pre + 1 + String.length mid)).
  { unfold py_rfind, text.
    replace (pre ++ "{" ++ mid ++ "}" ++ post)%string
      with ((pre ++ "{" ++ mid) ++ String (char_of "}") post)%string.
    - rewrite (rfind_from_app _ _ post 0 (-1) Hpost).
      rewrite length_append. cbn [append String.length]. lia.
    - now rewrite !string_app_assoc. }
  rewrite Hfind, Hrfind.
  replace ((0 <=? Z.of_nat (String.length pre))%Z
           && (Z.of_nat (String.length pre)
               <? Z.of_nat (String.length pre + 1 + String.length mid) + 1)%Z)
    with true by (symmetry; apply andb_true_iff; split; [apply Z.leb_le | apply Z.ltb_lt]; lia).
  replace (py_slice (Z.of_nat (String.length pre))
             (Z.of_nat (String.length pre + 1 + String.length mid) + 1) text)
    with ("{" ++ mid ++ "}")%string; [reflexivity|].
  unfold py_slice, text. rewrite Nat2Z.id.
  replace (Z.to_nat (Z.of_nat (String.length pre + 1 + String.length mid) + 1
                     - Z.of_nat (String.length pre)))
    with (String.length ("{" ++ mid ++ "}")%string)
    by (cbn [append String.length]; rewrite length_append; cbn [String.length]; lia).
  rewrite substring_skip.
  replace ("{" ++ mid ++ "}" ++ post)%string with (("{" ++ mid ++ "}") ++ post)%string.
  - now rewrite substring_prefix.
  - now rewrite !string_app_assoc.
Qed.

Lemma prefix_substring (n : nat) (s : string) :
  String.prefix (String.substring 0 n s) s = true.
Proof.
  revert s. induction n as [|n IH]; intros s.
  - destruct s; reflexivity.
  - destruct s as [|a s]; [reflexivity|].
    cbn [String.substring String.prefix].
    destruct (Ascii.ascii_dec a a) as [_|E]; [apply IH | now destruct E].
Qed.

Lemma contains_substring (i n : nat) (s : string) :
  contains (String.substring i n s) s = true.
Proof.
  revert s. induction i as [|i IH]; intros s.
  - destruct s as [|a s]; cbn [contains]; rewrite prefix_substring; reflexivity.
  - destruct s as [|a s].
    + destruct n; reflexivity.
    + cbn [String.substring contains]. rewrite IH. apply orb_true_r.
Qed.

Lemma X23_advice_is_read_between_the_braces_witness :
  _parse_trading_response loads_sell (VStr "Here it is: {sell} Good luck!") = advice_sell.
Proof.
  exact (X23_advice_is_read_between_the_braces loads_sell "Here it is: " "sell"
           " Good luck!" eq_refl eq_refl).
Defined.

(** X24.  Whatever the reply and whatever [json.loads] makes of it,
    [_parse_trading_response] returns an advice that passes
    [_validate_trading_response]: either the default advice or what
    [json.loads] read from a part of the reply.  A reply without an
    opening brace or without a closing one, and a reply that is not a
    string, give the default advice. *)
Theorem X24_parsed_advice_always_validates :
  (forall (json_loads : string -> option value) (response : value),
      let advice := _parse_trading_response json_loads response in
      _validate_trading_response advice = true
      /\ (advice = _get_default_response
          \/ exists text part : string,
               response = VStr text /\ contains part text = true
               /\ json_loads part = Some advice))
  /\ (forall (json_loads : string -> option value) (text : string),
        has_char (char_of "{") text && has_char (char_of "}") text = false ->
        _parse_trading_response json_loads (VStr text) = _get_default_response)
  /\ (forall (json_loads : string -> option value) (response : value),
        match response with VStr _ => False | _ => True end ->
        _parse_trading_response json_loads response = _get_default_response).
Proof.
  split; [|split].
  - intros json_loads response advice. subst advice.
    destruct response as [| b | z | f | text | l | d];
      try (split; [reflexivity | now left]).
    unfold _parse_trading_response.
    destruct ((0 <=? py_find (char_of "{") text)%Z
              && (py_find (char_of "{") text <? py_rfind (char_of "}") text + 1)%Z)
      eqn:Hidx; [|split; [reflexivity | now left]].
    destruct (json_loads (py_slice (py_find (char_of "{") text)
                            (py_rfind (char_of "}") text + 1) text))
      as [trading_advice|] eqn:Hload; [|split; [reflexivity | now left]].
    destruct (_validate_trading_response trading_advice) eqn:Hv;
      [|split; [reflexivity | now left]].
    split; [exact Hv|]. right.
    exists text, (py_slice (py_find (char_of "{") text)
                    (py_rfind (char_of "}") text + 1) text).
    split; [reflexivity|]. split; [|exact Hload].
    unfold py_slice. apply contains_substring.
  - intros json_loads text H. unfold _parse_trading_response.
    apply andb_false_iff in H.
    replace ((0 <=? py_find (char_of "{") text)%Z
             && (py_find (char_of "{") text <? py_rfind (char_of "}") text + 1)%Z)
      with false; [reflexivity|].
    symmetry. apply andb_false_iff. destruct H as [H|H].
    + left. unfold py_find. rewrite (find_from_absent _ _ 0 H). reflexivity.
    + unfold py_rfind. rewrite (rfind_from_absent _ _ 0 (-1) H).
      destruct (0 <=? py_find (char_of "{") text)%Z eqn:E; [right | now left].
      apply Z.leb_le in E. apply Z.ltb_ge. lia.
  - intros json_loads response H. destruct response; try reflexivity. destruct H.
Qed.

(** ** Retries of the API call *)

Lemma doubled_succ (k : nat) (delay : positive) :
  doubled (S k) delay = doubled k (delay * 2)%positive.
Proof.
  unfold doubled. exact (Nat.iter_succ_r k positive (fun d => (d * 2)%positive) delay).
Qed.

Lemma doubled_pow (k : nat) (delay : positive) :
  Zpos (doubled k delay) = (Zpos delay * 2 ^ Z.of_nat k)%Z.
Proof.
  induction k as [|k IH].
  - cbn. lia.
  - unfold doubled in *. rewrite Nat.iter_succ.
    rewrite Pos2Z.inj_mul, IH, Nat2Z.inj_succ, Z.pow_succ_r by lia. lia.
Qed.

Lemma call_loop_closed (answers : nat -> api_outcome) (retries : nat) :
  forall (left : nat) (delay : positive) (slept : list positive),
    (left <= retries)%nat ->
    let j := failures_from answers (retries - left) left in
    let k := Nat.min j (left - 1) in
    call_loop answers retries left delay slept
    = (if (j =? left)%nat then Ok VNone
       else match answers (retries - left + j)%nat with
            | Answer content => Ok content
            | Malformed e => Raise e
            | _ => Ok VNone
            end,
       doubled k delay, slept ++ backoff delay k).
Proof.
  induction left as [|left IH]; intros delay slept Hle j k.
  - subst j k. cbn. now rewrite app_nil_r.
  - subst j k. cbn [call_loop failures_from].
    assert (Hnext : (S (retries - S left) = retries - left)%nat) by lia.
    destruct (answers (retries - S left)%nat) as [content| | |e] eqn:Ea;
      cbn [retryable].
    + cbn [Nat.eqb Nat.min doubled Nat.iter backoff].
      rewrite Nat.add_0_r, Ea, app_nil_r. reflexivity.
    + rewrite Hnext.
      destruct (retries - S left <? retries - 1)%nat eqn:Elt.
      * apply Nat.ltb_lt in Elt.
        rewrite (IH (delay * 2)%positive (slept ++ [delay]) ltac:(lia)).
        replace (Nat.min (S (failures_from answers (retries - left) left)) (S left - 1))
          with (S (Nat.min (failures_from answers (retries - left) left) (left - 1)))
          by lia.
        rewrite doubled_succ. cbn [backoff Nat.eqb].
        rewrite <- app_assoc. cbn [app].
        replace (retries - S left + S (failures_from answers (retries - left) left))%nat
          with (retries - left + failures_from answers (retries - left) left)%nat by lia.
        reflexivity.
      * apply Nat.ltb_ge in Elt. assert (left = 0)%nat by lia. subst left.
        cbn. now rewrite app_nil_r.
    + rewrite Hnext.
      destruct (retries - S left <? retries - 1)%nat eqn:Elt.
      * apply Nat.ltb_lt in Elt.
        rewrite (IH (delay * 2)%positive (slept ++ [delay]) ltac:(lia)).
        replace (Nat.min (S (failures_from answers (retries - left) left)) (S left - 1))
          with (S (Nat.min (failures_from answers (retries - left) left) (left - 1)))
          by lia.
        rewrite doubled_succ. cbn [backoff Nat.eqb].
        rewrite <- app_assoc. cbn [app].
        replace (retries - S left + S (failures_from answers (retries - left) left))%nat
          with (retries - left + failures_from answers (retries - left) left)%nat by lia.
        reflexivity.
      * apply Nat.ltb_ge in Elt. assert (left = 0)%nat by lia. subst left.
        cbn. now rewrite app_nil_r.
    + cbn [Nat.eqb Nat.min doubled Nat.iter backoff].
      rewrite Nat.add_0_r, Ea, app_nil_r. reflexivity.
Qed.

Lemma call_api_closed (answers : nat -> api_outcome) (self : ChatGPTClient) :
  let j := failures_from answers 0 (max_retries self) in
  let k := Nat.min j (max_retries self - 1) in
  _call_api answers self
  = (settled answers (max_retries self) j,
     mkClient (max_retries self) (doubled k (retry_delay self)),
     backoff (retry_delay self) k).
Proof.
  intros j k. unfold _call_api.
  rewrite (call_loop_closed answers (max_retries self) (max_retries self)
             (retry_delay self) [] (le_n _)).
  rewrite Nat.sub_diag. cbn [Nat.add app]. reflexivity.
Qed.

(** X25.  [_call_api] in closed form.  With [j] the number of attempts
    that fail before one settles the call (all [max_retries] when none
    does), the method returns [None] when all have failed and the content
    or the exception of attempt [j] otherwise; it has slept [k] times,
    [k] being [j] but at most [max_retries - 1], for the delay it started
    with, twice that, four times that and so on; and it leaves the client
    with the delay doubled [k] times: the delay is never set back, so the
    next call starts where this one stopped. *)
Theorem X25_retries_back_off_and_never_reset
  (answers : nat -> api_outcome) (self : ChatGPTClient) :
  let j := failures_from answers 0 (max_retries self) in
  let k := Nat.min j (max_retries self - 1) in
  let '(r, self', slept) := _call_api answers self in
  r = settled answers (max_retries self) j
  /\ slept = backoff (retry_delay self) k
  /\ max_retries self' = max_retries self
  /\ Zpos (retry_delay self') = (Zpos (retry_delay self) * 2 ^ Z.of_nat k)%Z
  /\ forall answers' : nat -> api_outcome,
       let '(_, _, slept') := _call_api answers' self' in
       exists k' : nat,
         slept' = backoff (doubled k (retry_delay self)) k'
         /\ (k' <= max_retries self - 1)%nat.
Proof.
  intros j k. rewrite (call_api_closed answers self). fold j k.
  split; [reflexivity|]. split; [reflexivity|]. split; [reflexivity|].
  split; [apply doubled_pow|].
  intros answers'.
  rewrite (call_api_closed answers' (mkClient (max_retries self) (doubled k (retry_delay self)))).
  cbn [max_retries retry_delay].
  exists (Nat.min (failures_from answers' 0 (max_retries self)) (max_retries self - 1)).
  split; [reflexivity | lia].
Qed.

(** ** The advice of a strategy run *)

Lemma parse_validates (json_loads : string -> option value) (response : value) :
  _validate_trading_response (_parse_trading_response json_loads response) = true.
Proof.
  destruct response as [| b | z | f | text | l | d]; try reflexivity.
  unfold _parse_trading_response.
  destruct ((0 <=? py_find (char_of "{") text)%Z
            && (py_find (char_of "{") text <? py_rfind (char_of "}") text + 1)%Z);
    [|reflexivity].
  destruct (json_loads _) as [trading_advice|]; [|reflexivity].
  destruct (_validate_trading_response trading_advice) eqn:Hv; [exact Hv | reflexivity].
Qed.

(** X26.  Once the prompt is built, [analyze_trading_signals] does not
    raise and returns an advice that passes the validation, whatever the
    API answers; when every attempt fails, or the reply cannot be read,
    the advice is the default one, to hold.  An exception of the prompt
    building is outside the [try] and leaves the method. *)
Theorem X26_analysis_returns_validated_advice
  (json_loads : string -> option value) (answers : nat -> api_outcome)
  (self : ChatGPTClient) :
  (forall prompt : string,
      let '(r, self', slept) :=
        analyze_trading_signals json_loads (Ok prompt) answers self in
      let j := failures_from answers 0 (max_retries self) in
      (exists advice : value,
          r = Ok advice /\ _validate_trading_response advice = true)
      /\ match settled answers (max_retries self) j with
         | Ok (VStr _) => True
         | _ => r = Ok _get_default_response
         end
      /\ slept = backoff (retry_delay self) (Nat.min j (max_retries self - 1)))
  /\ (forall e : exn,
        analyze_trading_signals json_loads (Raise e) answers self = (Raise e, self, [])).
Proof.
  split; [|reflexivity].
  intros prompt. unfold analyze_trading_signals.
  rewrite (call_api_closed answers self).
  destruct (settled answers (max_retries self)
              (failures_from answers 0 (max_retries self))) as [response|e].
  - split; [|split; [|reflexivity]].
    + eexists. split; [reflexivity|].
      destruct (truthy response); [apply parse_validates | reflexivity].
    + destruct response as [| b | z | f | text | l | d]; try exact I;
        try (destruct (truthy _); reflexivity).
  - split; [|split; reflexivity].
    eexists. split; reflexivity.
Qed.

(** Three requests to an API that is down: two waits, of 2 and 4 seconds,
    no answer, and a delay of 8 seconds left for the next call. *)
Example call_api_when_down :
  _call_api api_down new_client = (Ok VNone, mkClient 3 8, [2; 4]%positive).
Proof. reflexivity. Qed.

(** An answer at the third request is read as the advice. *)
Example analysis_third_time :
  analyze_trading_signals loads_sell (Ok "prompt") api_third_time new_client
  = (Ok advice_sell, mkClient 3 8, [2; 4]%positive).
Proof. reflexivity. Qed.

(** ** The schedule *)

Lemma replace_in_next_hour (offset now : Z) :
  let next := ((now + hour_us) / hour_us * hour_us + offset)%Z in
  (offset < next - now <= offset + hour_us)%Z
  /\ forall took : Z,
       (0 <= offset)%Z -> (0 <= took < hour_us - offset)%Z ->
       ((next + took + hour_us) / hour_us * hour_us + offset = next + hour_us)%Z.
Proof.
  intros next. subst next. unfold hour_us, minute_us, second_us.
  change (60 * (60 * 1000000))%Z with 3600000000%Z.
  pose proof (Z.div_mod (now + 3600000000) 3600000000 ltac:(lia)) as Hd.
  pose proof (Z.mod_pos_bound (now + 3600000000) 3600000000 ltac:(lia)) as Hm.
  split; [lia|].
  intros took Ho Ht.
  set (q := ((now + 3600000000) / 3600000000)%Z) in *.
  replace (q * 3600000000 + offset + took + 3600000000)%Z
    with (offset + took + (q + 1) * 3600000000)%Z by lia.
  rewrite Z.div_add by lia.
  rewrite (Z.div_small (offset + took)) by lia. lia.
Qed.

(** X27.  The waits of the two schedulers.  [run_continuous_strategy]
    always waits, for more than 5 minutes and at most 65: its next run is
    at minute 5 of the hour after the present one, also when minute 5 of
    the present hour is still ahead; a run that starts on time and takes
    less than 55 minutes is followed by a run exactly one hour later.
    [run_scheduler] of the predictions waits more than 5 seconds and at
    most an hour and 5 seconds, and keeps the hourly rhythm for a task
    that takes less than an hour less 5 seconds. *)
Theorem X27_next_run_is_in_the_next_hour (now took : Z) :
  (0 <= took)%Z ->
  ((5 * minute_us < wait_seconds now <= 65 * minute_us)%Z
   /\ (next_run now = now / hour_us * hour_us + 65 * minute_us)%Z
   /\ ((took < 55 * minute_us)%Z ->
       next_run (next_run now + took) = (next_run now + hour_us)%Z))
  /\ ((5 * second_us < sleep_seconds now <= hour_us + 5 * second_us)%Z
      /\ ((took < hour_us - 5 * second_us)%Z ->
          next_run_time (next_run_time now + took) = (next_run_time now + hour_us)%Z)).
Proof.
  intros Htook.
  assert (Hshift : ((now + hour_us) / hour_us = now / hour_us + 1)%Z).
  { replace (now + hour_us)%Z with (now + 1 * hour_us)%Z by lia.
    apply Z.div_add. unfold hour_us, minute_us, second_us. lia. }
  split.
  - destruct (replace_in_next_hour (5 * minute_us) now) as [Hw Hnext].
    unfold wait_seconds, next_run, replace_in_hour in *.
    replace ((now + hour_us) / hour_us * hour_us + 5 * minute_us + 0 * second_us)%Z
      with ((now + hour_us) / hour_us * hour_us + 5 * minute_us)%Z by lia.
    split; [unfold hour_us, minute_us in *; lia|].
    split; [rewrite Hshift; unfold hour_us; lia|].
    intros Hlt.
    specialize (Hnext took ltac:(unfold minute_us, second_us; lia)
                  ltac:(unfold hour_us, minute_us, second_us in *; lia)).
    rewrite <- Hnext. lia.
  - destruct (replace_in_next_hour (5 * second_us) now) as [Hw Hnext].
    unfold sleep_seconds, next_run_time, replace_in_hour in *.
    replace ((now + hour_us) / hour_us * hour_us + 0 * minute_us + 5 * second_us)%Z
      with ((now + hour_us) / hour_us * hour_us + 5 * second_us)%Z by lia.
    split; [lia|].
    intros Hlt.
    specialize (Hnext took ltac:(unfold second_us; lia) ltac:(lia)).
    rewrite <- Hnext. lia.
Qed.

Lemma X27_next_run_is_in_the_next_hour_witness :
  wait_seconds (2 * minute_us) = (63 * minute_us)%Z
  /\ next_run (next_run (2 * minute_us) + 10 * minute_us)
     = (next_run (2 * minute_us) + hour_us)%Z.
Proof.
  destruct (X27_next_run_is_in_the_next_hour (2 * minute_us) (10 * minute_us)
              ltac:(vm_compute; discriminate)) as [(_ & _ & H) _].
  split; [reflexivity|]. apply H. reflexivity.
Defined.

(** ** The figures of the interface *)

Lemma mirrored_ret {A : Type} (a : A) : mirrored (ret a) (ret a).
Proof. intros s1 s2 H. split; [reflexivity | exact H]. Qed.

Lemma mirrored_raise {A : Type} (e : exn) : mirrored (@raise A e) (raise e).
Proof. intros s1 s2 H. split; [reflexivity | exact H]. Qed.

Lemma mirrored_lift {A : Type} (r : result A) : mirrored (lift r) (lift r).
Proof. intros s1 s2 H. split; [reflexivity | exact H]. Qed.

Lemma mirrored_modify (f1 f2 : StateManager -> StateManager) :
  (forall s1 s2, agree s1 s2 -> agree (f1 s1) (f2 s2)) ->
  mirrored (modify f1) (modify f2).
Proof. intros Hf s1 s2 H. split; [reflexivity | exact (Hf s1 s2 H)]. Qed.

Lemma mirrored_bind {A B : Type} (m1 m2 : M A) (k1 k2 : A -> M B) :
  mirrored m1 m2 -> (forall a, mirrored (k1 a) (k2 a)) ->
  mirrored (bind m1 k1) (bind m2 k2).
Proof.
  intros Hm Hk s1 s2 H. destruct (Hm s1 s2 H) as [Hr Hs].
  rewrite !returned_bind, !store_after_bind, <- Hr.
  destruct (returned (m1 s1)) as [a|e]; [|split; [reflexivity | exact Hs]].
  exact (Hk a _ _ Hs).
Qed.

Lemma mirrored_get_self {B : Type} (k1 k2 : StateManager -> M B) :
  (forall a1 a2, agree a1 a2 -> mirrored (k1 a1) (k2 a2)) ->
  mirrored (bind get_self k1) (bind get_self k2).
Proof.
  intros Hk s1 s2 H.
  rewrite !returned_bind, !store_after_bind.
  cbn [get_self returned store_after fst snd].
  exact (Hk s1 s2 H s1 s2 H).
Qed.

Ltac agree_setter :=
  let s1 := fresh "s" in
  let s2 := fresh "s" in
  let H := fresh "H" in
  intros s1 s2 H; unfold agree in *; destruct s1, s2; cbn in *; intuition congruence.

Ltac mirrored_steps :=
  repeat first
    [ apply mirrored_ret
    | apply mirrored_raise
    | apply mirrored_lift
    | apply mirrored_modify; agree_setter
    | apply mirrored_get_self;
      let a1 := fresh "a" in
      let a2 := fresh "a" in
      let Hp := fresh "Hp" in
      let Hq := fresh "Hq" in
      let Hf := fresh "Hf" in
      let Hk := fresh "Hk" in
      intros a1 a2 (Hp & Hq & Hf & Hk); rewrite ?Hp, ?Hq, ?Hf, ?Hk
    | apply mirrored_bind; [|intros ?] ].

Lemma mirrored_performance_incr (k : string) (v : value) :
  mirrored (performance_incr k v) (performance_incr k v).
Proof. unfold performance_incr. mirrored_steps. Qed.

Lemma mirrored_record_trade (now1 now2 : string) (data : dict) :
  mirrored (_record_trade now1 data) (_record_trade now2 data).
Proof.
  unfold _record_trade.
  apply mirrored_bind; [apply mirrored_modify; agree_setter | intros _].
  apply mirrored_bind; [apply mirrored_performance_incr | intros _].
  apply mirrored_bind.
  - destruct (eq_str (dict_get "status" data) "success"); apply mirrored_performance_incr.
  - intros _. destruct (dict_get "volume_usdt" data);
      [apply mirrored_performance_incr | apply mirrored_ret].
Qed.

Lemma mirrored_calculate_risk_metrics :
  mirrored _calculate_risk_metrics _calculate_risk_metrics.
Proof.
  unfold _calculate_risk_metrics.
  apply mirrored_get_self. intros a1 a2 (Hp & Hq & Hf & Hk). rewrite Hp, Hk.
  destruct (negb (truthy (positions a2))); [apply mirrored_ret|].
  destruct (positions a2); try apply mirrored_raise.
  mirrored_steps.
Qed.

Lemma mirrored_update_positions (data : dict) :
  mirrored (_update_positions data) (_update_positions data).
Proof.
  unfold _update_positions.
  apply mirrored_bind; [apply mirrored_modify; agree_setter | intros _].
  apply mirrored_calculate_risk_metrics.
Qed.

Lemma agree_refl (s : StateManager) : agree s s.
Proof. repeat split. Qed.

Lemma agree_sym (s1 s2 : StateManager) : agree s1 s2 -> agree s2 s1.
Proof. unfold agree. intuition congruence. Qed.

Lemma agree_trans (s1 s2 s3 : StateManager) : agree s1 s2 -> agree s2 s3 -> agree s1 s3.
Proof. unfold agree. intuition congruence. Qed.

Lemma agree_update_system_status (data : dict) (s : StateManager) :
  agree s (store_after (_update_system_status data s)).
Proof.
  unfold _update_system_status, bind, get_self, lift, modify, store_after.
  destruct (py_update (system_status s) data); destruct s; repeat split.
Qed.

Lemma agree_add_strategy_log (now : string) (data : dict) (s : StateManager) :
  agree s (store_after (_add_strategy_log now data s)).
Proof. destruct s; repeat split. Qed.

Lemma mirrored_store {A : Type} (m1 m2 : M A) (s1 s2 : StateManager) :
  mirrored m1 m2 -> agree s1 s2 -> agree (store_after (m1 s1)) (store_after (m2 s2)).
Proof. intros Hm H. exact (proj2 (Hm s1 s2 H)). Qed.

Lemma dispatch_agree (state_data : StateData) (w1 w2 : World) (s1 s2 : StateManager) :
  agree s1 s2 ->
  agree (store_after (dispatch state_data w1 s1)) (store_after (dispatch state_data w2 s2)).
Proof.
  intros H. unfold dispatch.
  destruct (eq_str (sd_type state_data) "system_status").
  { apply agree_trans with s1; [apply agree_sym, agree_update_system_status|].
    apply agree_trans with s2; [exact H | apply agree_update_system_status]. }
  destruct (eq_str (sd_type state_data) "positions").
  { exact (mirrored_store _ _ s1 s2 (mirrored_update_positions _) H). }
  destruct (eq_str (sd_type state_data) "predictions").
  { apply mirrored_store; [|exact H]. unfold _update_predictions. mirrored_steps. }
  destruct (eq_str (sd_type state_data) "trade_execution").
  { exact (mirrored_store _ _ s1 s2 (mirrored_record_trade _ _ _) H). }
  destruct (eq_str (sd_type state_data) "strategy_log").
  { apply agree_trans with s1; [apply agree_sym, agree_add_strategy_log|].
    apply agree_trans with s2; [exact H | apply agree_add_strategy_log]. }
  destruct (eq_str (sd_type state_data) "performance").
  { apply mirrored_store; [|exact H]. unfold _update_performance. mirrored_steps. }
  destruct (eq_str (sd_type state_data) "risk_metrics").
  { apply mirrored_store; [|exact H]. unfold _update_risk_metrics. mirrored_steps. }
  exact H.
Qed.

Lemma update_state_agree (state_data : StateData) (w1 w2 : World) (s1 s2 : StateManager) :
  agree s1 s2 ->
  agree (store_after (update_state state_data w1 s1))
        (store_after (update_state state_data w2 s2)).
Proof.
  intros H.
  destruct (same_but_status_fields _ _ (update_state_after_dispatch state_data w1 s1))
    as (_ & _ & Hp1 & Hq1 & _ & _ & Hf1 & Hk1).
  destruct (same_but_status_fields _ _ (update_state_after_dispatch state_data w2 s2))
    as (_ & _ & Hp2 & Hq2 & _ & _ & Hf2 & Hk2).
  destruct (dispatch_agree state_data w1 w2 s1 s2 H) as (Hp & Hq & Hf & Hk).
  unfold agree. rewrite Hp1, Hq1, Hf1, Hk1, Hp2, Hq2, Hf2, Hk2. repeat split; assumption.
Qed.

Lemma api_update_state_store (state_data : StateData) (w : World) (s : StateManager) :
  store_after (api_update_state state_data w s)
  = store_after (update_state state_data w s)
  /\ returned (api_update_state state_data w s)
     = Ok (match returned (update_state state_data w s) with
           | Ok _ => 200%Z
           | Raise _ => 500%Z
           end).
Proof.
  unfold api_update_state, try_except, bind, ret, store_after, returned.
  destruct (update_state state_data w s) as [[[u|e] s'] t]; split; reflexivity.
Qed.

Lemma serve_agree (calls : list (StateData * World)) :
  forall (requests : list (StateData * World)) (trader server : StateManager),
    map fst calls = map fst requests ->
    agree trader server ->
    agree (run calls trader) (serve requests server).
Proof.
  induction calls as [|[e w] calls IH]; intros [|[e' w'] requests] trader server Hev H;
    try discriminate Hev.
  - exact H.
  - cbn [map fst] in Hev. injection Hev as <- Hev. cbn [run serve].
    rewrite (proj1 (api_update_state_store e w' server)).
    apply IH; [exact Hev|]. now apply update_state_agree.
Qed.

(** X28.  The interface shows the figures of the trader.  When the store
    of the interface has been sent the events the store of the trader has
    applied, in the same order, the positions, predictions, performance
    figures and risk figures the two return are the same, whatever the
    times of the calls, the capacities and URLs of the two stores and the
    outcomes of the posts; and the route answers every request, with 200
    when [update_state] returned and 500 when it raised. *)
Theorem X28_interface_shows_the_figures_of_the_trader
  (calls requests : list (StateData * World)) (trader server : StateManager) :
  map fst calls = map fst requests ->
  agree trader server ->
  let t := run calls trader in
  let v := serve requests server in
  returned (get_positions v) = returned (get_positions t)
  /\ returned (get_predictions v) = returned (get_predictions t)
  /\ returned (get_performance_stats v) = returned (get_performance_stats t)
  /\ returned (get_risk_metrics v) = returned (get_risk_metrics t)
  /\ forall (state_data : StateData) (w : World) (s : StateManager),
       returned (api_update_state state_data w s)
       = Ok (match returned (update_state state_data w s) with
             | Ok _ => 200%Z
             | Raise _ => 500%Z
             end).
Proof.
  intros Hev H t v.
  destruct (serve_agree calls requests trader server Hev H) as (Hp & Hq & Hf & Hk).
  fold t v in Hp, Hq, Hf, Hk.
  split; [change (py_copy (positions v) = py_copy (positions t)); now rewrite Hp|].
  split; [change (py_copy (predictions v) = py_copy (predictions t)); now rewrite Hq|].
  split; [change (py_copy (performance_stats v) = py_copy (performance_stats t));
          now rewrite Hf|].
  split; [change (py_copy (risk_metrics v) = py_copy (risk_metrics t)); now rewrite Hk|].
  intros state_data w s. exact (proj2 (api_update_state_store state_data w s)).
Qed.

Lemma X28_interface_shows_the_figures_of_the_trader_witness :
  returned (get_risk_metrics
              (serve [ (positions_event btc_usdt, world1); (trade_event sample_trade, world1) ]
                 (init 10 (Some "http://localhost:8000"))))
  = returned (get_risk_metrics
                (run [ (positions_event btc_usdt, world0); (trade_event sample_trade, world0) ]
                   new_store)).
Proof.
  exact (proj1 (proj2 (proj2 (proj2
           (X28_interface_shows_the_figures_of_the_trader
              [ (positions_event btc_usdt, world0); (trade_event sample_trade, world0) ]
              [ (positions_event btc_usdt, world1); (trade_event sample_trade, world1) ]
              new_store (init 10 (Some "http://localhost:8000"))
              eq_refl (agree_refl new_store)))))).
Defined.

(** ** The counters of the runs *)

Lemma try_except_raised {A : Type} (body : M A) (handler : exn -> M A)
  (s : StateManager) (e : exn) :
  returned (body s) = Raise e ->
  returned (try_except body handler s)
  = returned (handler e (store_after (body s)))
  /\ store_after (try_except body handler s)
     = store_after (handler e (store_after (body s))).
Proof.
  unfold try_except, returned, store_after.
  destruct (body s) as [[[a|e'] s1] t1]; cbn [fst snd]; [discriminate|].
  intros H. injection H as ->.
  destruct (handler e s1) as [[r s2] t2]. split; reflexivity.
Qed.

Lemma status_event_store (data status : dict) (w : World) (s : StateManager) :
  system_status s = VDict status ->
  returned (update_state (status_event data) w s) = Ok tt
  /\ system_status (store_after (update_state (status_event data) w s))
     = VDict (dict_set "last_update" (VStr (now_update w)) (dict_update status data)).
Proof.
  intros Hst. unfold update_state. rewrite dispatch_status.
  unfold with_lock, _update_system_status, stamp_last_update.
  unfold bind, get_self, lift, modify. rewrite Hst. cbn [py_update].
  cbn [system_status set_system_status py_setitem].
  rewrite push_trace. split; reflexivity.
Qed.

Lemma status_event_counts (k : string) (v : value) (w : World) (s : StateManager)
  (n m : Z) :
  run_counts s n m ->
  let r := KronosMainStrategy._update_system_status [ (k, v) ] w s in
  returned r = Ok tt
  /\ exists status : dict,
       system_status (store_after r) = VDict status
       /\ dict_get "total_runs" status
          = (if String.eqb k "total_runs" then Some v else Some (VInt n))
       /\ dict_get "error_count" status
          = (if String.eqb k "error_count" then Some v else Some (VInt m)).
Proof.
  intros (status & Hst & Hn & Hm) r. subst r.
  unfold KronosMainStrategy._update_system_status.
  destruct (status_event_store [ (k, v) ] status w s Hst) as [Hr Hs].
  split; [exact Hr|]. eexists. split; [exact Hs|].
  rewrite !dict_get_set_other by discriminate.
  rewrite !dict_get_update. cbn [rev app dict_get].
  rewrite Hn, Hm.
  destruct (String.eqb k "total_runs"), (String.eqb k "error_count"); split; reflexivity.
Qed.

Lemma add_log_counts (message level : string) (w : World) (s : StateManager) (n m : Z) :
  run_counts s n m ->
  returned (KronosMainStrategy._add_log message level w s) = Ok tt
  /\ run_counts (store_after (KronosMainStrategy._add_log message level w s)) n m.
Proof.
  intros (status & Hst & Hn & Hm). unfold KronosMainStrategy._add_log.
  assert (Hd : system_status (store_after (dispatch (log_event (log_line message level)) w s))
               = VDict status) by (rewrite <- Hst; destruct s; reflexivity).
  split.
  - apply update_state_returns; [reflexivity | now rewrite Hd].
  - exists (dict_set "last_update" (VStr (now_update w)) status).
    split.
    + unfold update_state. rewrite store_after_with_lock, store_after_bind.
      cbn [returned fst]. rewrite dispatch_log.
      unfold stamp_last_update, _add_strategy_log, bind, get_self, lift, modify.
      cbn [system_status set_strategy_logs store_after returned fst snd].
      rewrite Hst. cbn [py_setitem]. rewrite push_trace.
      cbn [fst snd system_status set_system_status set_strategy_logs].
      destruct s; reflexivity.
    + rewrite !dict_get_set_other by discriminate. split; assumption.
Qed.

Lemma count_after_counts (s : StateManager) (n m : Z) :
  run_counts s n m ->
  count_after "total_runs" s = Ok (VInt (n + 1))
  /\ count_after "error_count" s = Ok (VInt (m + 1)).
Proof.
  intros (status & Hst & Hn & Hm). unfold count_after, dict_get_default.
  rewrite Hst, Hn, Hm. split; reflexivity.
Qed.

Lemma run_start_counts (singapore_time : string) (at_call : nat -> World)
  (s : StateManager) (n m : Z) :
  run_counts s n m ->
  returned (KronosMainStrategy.run_start singapore_time at_call s) = Ok tt
  /\ run_counts (store_after (KronosMainStrategy.run_start singapore_time at_call s)) n m.
Proof.
  intros H. unfold KronosMainStrategy.run_start.
  destruct (status_event_counts "last_strategy_run" (VStr singapore_time)
              (at_call 0%nat) s n m H) as (Hr & status & Hst & Hn & Hm).
  cbn [String.eqb Ascii.eqb Bool.eqb] in Hn, Hm.
  rewrite returned_bind, store_after_bind, Hr.
  apply add_log_counts. exists status. repeat split; assumption.
Qed.

Lemma run_finish_counts (at_call : nat -> World) (s : StateManager) (n m : Z) :
  run_counts s n m ->
  returned (KronosMainStrategy.run_finish at_call s) = Ok tt
  /\ run_counts (store_after (KronosMainStrategy.run_finish at_call s)) (n + 1) m.
Proof.
  intros H. unfold KronosMainStrategy.run_finish.
  rewrite returned_bind, store_after_bind.
  cbn [get_self returned store_after fst snd].
  rewrite returned_bind, store_after_bind.
  rewrite (proj1 (count_after_counts s n m H)).
  cbn [lift returned store_after fst snd].
  destruct (status_event_counts "total_runs" (VInt (n + 1)) (at_call 2%nat) s n m H)
    as (Hr & status & Hst & Hn & Hm).
  cbn [String.eqb Ascii.eqb Bool.eqb] in Hn, Hm.
  rewrite returned_bind, store_after_bind, Hr.
  apply add_log_counts. exists status. repeat split; assumption.
Qed.

Lemma run_failed_counts (message : string) (at_call : nat -> World)
  (s : StateManager) (n m : Z) :
  run_counts s n m ->
  returned (KronosMainStrategy.run_failed message at_call s) = Ok tt
  /\ run_counts (store_after (KronosMainStrategy.run_failed message at_call s)) n (m + 1).
Proof.
  intros H. unfold KronosMainStrategy.run_failed.
  destruct (add_log_counts ("策略执行错误: " ++ message) "error" (at_call 4%nat) s n m H)
    as [Hr H1].
  rewrite returned_bind, store_after_bind, Hr.
  rewrite returned_bind, store_after_bind.
  cbn [get_self returned store_after fst snd].
  rewrite returned_bind, store_after_bind.
  rewrite (proj2 (count_after_counts _ n m H1)).
  cbn [lift returned store_after fst snd].
  destruct (status_event_counts "error_count" (VInt (m + 1)) (at_call 5%nat) _ n m H1)
    as (Hr2 & status & Hst & Hn & Hm).
  cbn [String.eqb Ascii.eqb Bool.eqb] in Hn, Hm.
  split; [exact Hr2|]. exists status. repeat split; assumption.
Qed.

(** X29.  A run counts once.  On a store whose status holds the two
    counters, and with steps that leave them alone, [run_hourly_strategy]
    returns without an error whether the steps succeed or raise; when
    they succeed [total_runs] has grown by one and [error_count] is as it
    was, and when they raise [error_count] has grown by one and
    [total_runs] is as it was. *)
Theorem X29_a_run_counts_once
  (singapore_time : string) (steps : M unit) (describe : exn -> string)
  (at_call : nat -> World) (s : StateManager) (n m : Z) :
  run_counts s n m ->
  (forall (s0 : StateManager) (n0 m0 : Z),
      run_counts s0 n0 m0 -> run_counts (store_after (steps s0)) n0 m0) ->
  let r := KronosMainStrategy.run_hourly_strategy singapore_time steps describe at_call s in
  returned r = Ok tt
  /\ match returned (steps (store_after (KronosMainStrategy.run_start singapore_time at_call s)))
     with
     | Ok _ => run_counts (store_after r) (n + 1) m
     | Raise _ => run_counts (store_after r) n (m + 1)
     end.
Proof.
  intros H Hsteps r. subst r. unfold KronosMainStrategy.run_hourly_strategy.
  destruct (run_start_counts singapore_time at_call s n m H) as [Hr1 H1].
  set (s1 := store_after (KronosMainStrategy.run_start singapore_time at_call s)) in *.
  pose proof (Hsteps s1 n m H1) as H2.
  set (body := (KronosMainStrategy.run_start singapore_time at_call ;;
                steps ;; KronosMainStrategy.run_finish at_call)%method).
  assert (Hbr : returned (body s)
                = match returned (steps s1) with
                  | Ok _ => returned (KronosMainStrategy.run_finish at_call
                                        (store_after (steps s1)))
                  | Raise e => Raise e
                  end).
  { unfold body. rewrite returned_bind, Hr1. fold s1. rewrite returned_bind.
    destruct (returned (steps s1)); reflexivity. }
  assert (Hbs : store_after (body s)
                = match returned (steps s1) with
                  | Ok _ => store_after (KronosMainStrategy.run_finish at_call
                                           (store_after (steps s1)))
                  | Raise _ => store_after (steps s1)
                  end).
  { unfold body. rewrite store_after_bind, Hr1. fold s1. rewrite store_after_bind.
    destruct (returned (steps s1)); reflexivity. }
  destruct (returned (steps s1)) as [u|e] eqn:Es.
  - destruct (run_finish_counts at_call _ n m H2) as [Hr3 H3].
    rewrite Hr3 in Hbr.
    rewrite (try_except_ok body _ s tt Hbr), Hbr, Hbs. split; [reflexivity | exact H3].
  - destruct (try_except_raised body
                (fun e => KronosMainStrategy.run_failed (describe e) at_call) s e Hbr)
      as [Hr Hs].
    rewrite Hr, Hs, Hbs.
    exact (run_failed_counts (describe e) at_call _ n m H2).
Qed.

Lemma X29_a_run_counts_once_witness :
  run_counts
    (store_after
       (KronosMainStrategy.run_hourly_strategy "2025-01-01T08:00:00+08:00"
          (raise ZeroDivisionError) (fun _ => "division by zero") (fun _ => world0)
          new_store))
    0 1.
Proof.
  assert (H : run_counts new_store 0 0) by (exists init_system_status; repeat split).
  exact (proj2 (X29_a_run_counts_once "2025-01-01T08:00:00+08:00"
                  (raise ZeroDivisionError) (fun _ => "division by zero")
                  (fun _ => world0) new_store 0 0 H (fun s0 n0 m0 H0 => H0))).
Defined.

(** ** The asset of a symbol *)

Lemma prefix_straddle (s : string) :
  s <> EmptyString ->
  String.prefix "USDT" s = false ->
  String.prefix "USDT" (s ++ "USDT") = false.
Proof.
  intros Hne H.
  destruct s as [|c1 [|c2 [|c3 [|c4 more]]]]; [congruence| | | |];
    cbn [append String.prefix] in *;
    repeat match goal with
           | |- context [Ascii.ascii_dec ?a ?b] => destruct (Ascii.ascii_dec a b)
           | H0 : context [Ascii.ascii_dec ?a ?b] |- _ => destruct (Ascii.ascii_dec a b)
           end;
    try reflexivity; try discriminate; try congruence.
  destruct more; discriminate H.
Qed.

Lemma remove_all_absent (s : string) :
  forall fuel : nat, contains "USDT" s = false -> remove_all fuel "USDT" s = s.
Proof.
  induction s as [|c rest IH]; intros [|fuel] H; try reflexivity.
  cbn [contains] in H. apply orb_false_iff in H as [Hp Hc].
  cbn [remove_all]. rewrite Hp, (IH fuel Hc). reflexivity.
Qed.

Lemma remove_all_suffix (asset : string) :
  forall fuel : nat,
    contains "USDT" asset = false ->
    (String.length asset < fuel)%nat ->
    remove_all fuel "USDT" (asset ++ "USDT") = asset.
Proof.
  induction asset as [|c rest IH]; intros [|fuel] H Hf; try (cbn in Hf; lia).
  - destruct fuel; reflexivity.
  - cbn [contains] in H. apply orb_false_iff in H as [Hp Hc].
    cbn [String.length] in Hf.
    change ((String c rest ++ "USDT")%string) with (String c (rest ++ "USDT")).
    assert (Hs : String.prefix "USDT" (String c (rest ++ "USDT")) = false)
      by (apply (prefix_straddle (String c rest)); [discriminate | exact Hp]).
    cbn [remove_all]. rewrite Hs, (IH fuel Hc ltac:(lia)). reflexivity.
Qed.

(** X30.  The asset [_execute_sell_order] looks up for a symbol, the
    symbol without every [USDT] in it, is the asset
    [get_current_market_positions] formed the symbol from, as long as
    the name of the asset has no [USDT] in it; and a symbol without
    [USDT] is looked up as it stands. *)
Theorem X30_base_asset_of_a_symbol (asset : string) :
  contains "USDT" asset = false ->
  base_asset_of (asset ++ "USDT") = asset
  /\ base_asset_of asset = asset.
Proof.
  intros H. unfold base_asset_of. split.
  - apply remove_all_suffix; [exact H|]. rewrite length_append. lia.
  - now apply remove_all_absent.
Qed.

Lemma X30_base_asset_of_a_symbol_witness :
  base_asset_of "SUIUSDT" = "SUI" /\ base_asset_of "SUI" = "SUI".
Proof. exact (X30_base_asset_of_a_symbol "SUI" eq_refl). Defined.
